(** * A stratum proxy for a KAWPOW full node: the model of [main.py]

    The development follows the source file top-down:

    - [Py]: the few Python built-ins the program leans on ([int.to_bytes],
      [bytes.fromhex], [bytes.hex], [str(int)], negative indexing), with the
      exceptions they raise;
    - the binary codec: [var_int], [op_push], [dsha256], [merkle_from_txids];
    - [TransactionState] with [build_coinbase_transaction],
      [update_transactions], [clear_for_new_height], [partial_block];
    - the Stratum handlers of [StratumSession.handle_request];
    - one iteration of [query_loop].

    Bytes are 8-bit integers in [Z]; Python's unbounded [int] is [Z].
    The hash functions of [hashlib], [sha3] and [base58] are library code:
    the model takes them through the class [Crypto], and the theorems hold
    for every instance. [Reference] computes the three by their published
    algorithms, and the model is run with them on a template. *)

From Stdlib Require Import String Ascii ZArith List Bool Lia Permutation.
From Stdlib Require Import DecimalString.
From Stdlib Require DecimalPos DecimalZ.
From Equations Require Import Equations.
Import ListNotations.
Open Scope Z_scope.

(** ** Exceptions and results *)

(** A decoded JSON value. *)
#[warnings="-register-all"]
Inductive json : Type :=
| JNull
| JBool (b : bool)
| JNum (z : Z)
| JStr (s : string)
| JArr (l : list json)
| JObj (l : list (string * json)).

(** The exceptions the program can meet; [RPCError] is its own. *)
Inductive exn : Type :=
| IndexError
| OverflowError
| ValueError
| TypeError
| AttributeError
| AssertionError
| RPCError (code : Z) (message : json).

(** An expression evaluates to a value or raises. *)
Inductive result (A : Type) : Type :=
| Ok (a : A)
| Raise (e : exn).
Arguments Ok {A} a.
Arguments Raise {A} e.

Definition rbind {A B} (r : result A) (k : A -> result B) : result B :=
  match r with
  | Ok a => k a
  | Raise e => Raise e
  end.

Declare Scope result_scope.
Delimit Scope result_scope with res.
Notation "x <- m ;; k" := (rbind m (fun x => k))
  (at level 61, m at next level, right associativity) : result_scope.

(** A byte is an integer from 0 to 255; [bytes] is Python's [bytes]. *)
Abbreviation byte := Z (only parsing).
Abbreviation bytes := (list Z) (only parsing).

(** ** Python built-ins *)
Module Py.

Inductive byteorder := little | big.

(** The [n] least significant base-256 digits of [i], least significant first. *)
Fixpoint le_digits (n : nat) (i : Z) : bytes :=
  match n with
  | O => []
  | S k => (i mod 256) :: le_digits k (i / 256)
  end.

(** [i.to_bytes(n, order)] (unsigned): [OverflowError] on a negative [i] and
    on an [i] that does not fit in [n] bytes. *)
Definition to_bytes (i : Z) (n : nat) (order : byteorder) : result bytes :=
  if (i <? 0) || (256 ^ Z.of_nat n <=? i) then Raise OverflowError
  else Ok match order with
          | little => le_digits n i
          | big => rev (le_digits n i)
          end.

(** [int.from_bytes(b, 'little')] and [int.from_bytes(b, 'big')], used to
    state what an encoding denotes. *)
Fixpoint from_le (b : bytes) : Z :=
  match b with
  | [] => 0
  | x :: t => x + 256 * from_le t
  end.

Definition from_be (b : bytes) : Z := from_le (rev b).

(** [bytes(n)]: [n] zero bytes. *)
Definition zeros (n : nat) : bytes := repeat 0 n.

(** [len(x)] as a Python [int]. *)
Definition len {A} (l : list A) : Z := Z.of_nat (length l).

(** [x[-1]] on a sequence. *)
Definition last_item {A} (l : list A) : result A :=
  match rev l with
  | [] => Raise IndexError
  | x :: _ => Ok x
  end.

(** [x[0]] on a sequence. *)
Definition first_item {A} (l : list A) : result A :=
  match l with
  | [] => Raise IndexError
  | x :: _ => Ok x
  end.

(** [b''.join(parts)]. *)
Definition join (parts : list bytes) : bytes := concat parts.

(** Truth value of a [str] and of a list: empty is false. *)
Definition str_truthy (s : string) : bool := negb (String.eqb s "").
Definition list_truthy {A} (l : list A) : bool :=
  match l with [] => false | _ => true end.

(** *** Hexadecimal *)

Definition hexval (c : ascii) : option Z :=
  let n := Z.of_nat (nat_of_ascii c) in
  if (48 <=? n) && (n <=? 57) then Some (n - 48)
  else if (97 <=? n) && (n <=? 102) then Some (n - 87)
  else if (65 <=? n) && (n <=? 70) then Some (n - 55)
  else None.

(** ASCII whitespace: space, and tab to carriage return. *)
Definition is_space (c : ascii) : bool :=
  let n := Z.of_nat (nat_of_ascii c) in
  (n =? 32) || ((9 <=? n) && (n <=? 13)).

(** [bytes.fromhex(s)]: two digits a byte, whitespace skipped between
    bytes, [ValueError] on anything else. *)
Fixpoint fromhex (s : string) : result bytes :=
  match s with
  | EmptyString => Ok []
  | String c rest =>
      if is_space c then fromhex rest
      else
        match hexval c, rest with
        | Some hi, String d rest' =>
            match hexval d with
            | Some lo =>
                match fromhex rest' with
                | Ok b => Ok (16 * hi + lo :: b)
                | Raise e => Raise e
                end
            | None => Raise ValueError
            end
        | _, _ => Raise ValueError
        end
  end.

Definition hexdigit (n : Z) : ascii :=
  ascii_of_nat (Z.to_nat (if n <? 10 then 48 + n else 87 + n)).

(** [b.hex()]. *)
Fixpoint hex (b : bytes) : string :=
  match b with
  | [] => EmptyString
  | x :: t => String (hexdigit (x / 16)) (String (hexdigit (x mod 16)) (hex t))
  end.

(** *** Decimal strings *)

(** [str(i)] and [int(s)] on decimal numerals. *)
Definition str (i : Z) : string := NilZero.string_of_int (Z.to_int i).

Definition int (s : string) : result Z :=
  match NilZero.int_of_string s with
  | Some d => Ok (Z.of_int d)
  | None => Raise ValueError
  end.

(** [s[-k]] for [k >= 1]. *)
Definition char_from_end (s : string) (k : nat) : result ascii :=
  match String.get (String.length s - k) s with
  | Some c => if (k <=? String.length s)%nat then Ok c else Raise IndexError
  | None => Raise IndexError
  end.

(** [s[:-k]]. *)
Definition drop_last (k : nat) (s : string) : string :=
  String.substring 0 (String.length s - k) s.

(** [s.endswith(suffix)]. *)
Definition endswith (s suffix : string) : bool :=
  let n := String.length s in
  let m := String.length suffix in
  (m <=? n)%nat && String.eqb (String.substring (n - m) m s) suffix.

(** A bytes literal of ASCII characters: [b'...']. *)
Definition ascii_bytes (s : string) : bytes :=
  map (fun c => Z.of_nat (nat_of_ascii c)) (list_ascii_of_string s).

(** [str(x)] where [x] is an [int] or [None]. *)
Definition str_opt (x : option Z) : string :=
  match x with
  | Some i => str i
  | None => "None"
  end.

End Py.

(** ** The binary codec *)

(** [var_int]: the source writes the multi-byte forms with ['big']. *)
Definition var_int (i : Z) : result bytes :=
  if negb (0 <=? i) then Raise AssertionError
  else if i <? 0xfd then Py.to_bytes i 1 Py.big
  else if i <=? 0xffff then
    (b <- Py.to_bytes i 2 Py.big ;; Ok (0xfd :: b))%res
  else if i <=? 0xffffffff then
    (b <- Py.to_bytes i 4 Py.big ;; Ok (0xfe :: b))%res
  else
    (b <- Py.to_bytes i 8 Py.big ;; Ok (0xff :: b))%res.

Definition op_push (i : Z) : result bytes :=
  if i <? 0x4C then Py.to_bytes i 1 Py.big
  else if i <=? 0xff then
    (b <- Py.to_bytes i 1 Py.big ;; Ok (0x4C :: b))%res
  else if i <=? 0xffff then
    (b <- Py.to_bytes i 2 Py.big ;; Ok (0x4D :: b))%res
  else
    (b <- Py.to_bytes i 4 Py.big ;; Ok (0x4E :: b))%res.

(** ** Library hashes *)

(** [hashlib.sha256(b).digest()], [sha3.keccak_256] fed one [update], and
    [base58.b58decode_check], which raises [ValueError] on a bad checksum. *)
Class Crypto := {
  sha256 : bytes -> bytes;
  keccak_256 : bytes -> bytes;
  b58decode_check : string -> result bytes
}.

Section Codec.
Context {crypto : Crypto}.

Definition dsha256 (b : bytes) : bytes := sha256 (sha256 b).

(** The [zip] of one iterator over [txids] with itself: consecutive pairs;
    an odd trailing element is dropped. *)
Fixpoint pairs {A} (l : list A) : list (A * A) :=
  match l with
  | a :: b :: t => (a, b) :: pairs t
  | _ => []
  end.

(** One turn of the [while] loop of [merkle_from_txids]:
    [txids.append(txids[-1])], then the list of [dsha256(l+r)]. The loop
    runs only while [len(txids) > 1], so [txids[-1]] exists. *)
Definition appended (txids : list bytes) : list bytes :=
  txids ++ [last txids []].

Definition level (txids : list bytes) : list bytes :=
  map (fun '(l, r) => dsha256 (l ++ r)) (pairs (appended txids)).

Lemma pairs_length {A} (l : list A) : length (pairs l) = Nat.div2 (length l).
Proof.
  induction l as [l IH] using (well_founded_induction
    (Wf_nat.well_founded_ltof _ (@length A))).
  destruct l as [|a [|b t]]; simpl; try reflexivity.
  f_equal. apply IH. unfold Wf_nat.ltof. simpl. lia.
Qed.

Lemma level_length (txids : list bytes) :
  length (level txids) = Nat.div2 (S (length txids)).
Proof.
  unfold level, appended. rewrite length_map, pairs_length, length_app.
  change (length [last txids []]) with 1%nat.
  now rewrite Nat.add_1_r.
Qed.

Lemma level_shrinks (txids : list bytes) :
  (1 < length txids)%nat -> (length (level txids) < length txids)%nat.
Proof.
  intros H. rewrite level_length, Nat.div2_div.
  apply Nat.Div0.div_lt_upper_bound. lia.
Qed.

(** A value together with the equation that names it: lets a loop test be
    remembered in the branch it selects. *)
Definition inspect {A} (x : A) : {y : A | x = y} := exist _ x eq_refl.

(** The [while len(txids) > 1] loop, as a function of the list it starts
    from; [return txids[0]] follows the loop. *)
Equations? merkle_while (txids : list bytes) : result bytes
  by wf (length txids) lt :=
  merkle_while txids with inspect (1 <? length txids)%nat := {
    | exist _ true more => merkle_while (level txids)
    | exist _ false done => Py.first_item txids }.
Proof.
  apply level_shrinks. now apply Nat.ltb_lt.
Qed.

(** [merkle_from_txids(txids)]: the returned value, and the contents of the
    caller's list object when the call returns. The first turn of the loop
    appends to the object it was given; [txids] is then rebound to a fresh
    list, so later turns leave the caller's object alone. *)
Definition merkle_from_txids (txids : list bytes) : result bytes * list bytes :=
  if (length txids =? 0)%nat then (Ok (dsha256 []), txids)
  else if (length txids =? 1)%nat then (Py.first_item txids, txids)
  else (merkle_while txids, appended txids).

End Codec.


(** ** The shared work state *)

Definition KAWPOW_EPOCH_LENGTH : Z := 7500.

(** A Stratum session object, by identity. *)
Definition session := nat.

(** The attributes of [TransactionState]; [None] is Python's [None]. *)
Record TransactionState := mkState {
  coinbase : option bytes;
  coinbase_no_wit : option bytes;
  transport : option session;
  transactions : list bytes;
  update_counter : Z;
  my_address : option string;
  merkle : option bytes;
  header_hash : option bytes;
  seed_hash : option bytes;
  last_ts : option Z;
  partial_header : option bytes;
  wait_for_new_block : bool
}.

Definition update_coinbase_every : Z := 10 * 60 * 10.

(** The class attributes: the state of a fresh [TransactionState()]. *)
Definition initial_state : TransactionState :=
  {| coinbase := None; coinbase_no_wit := None; transport := None;
     transactions := []; update_counter := update_coinbase_every;
     my_address := None; merkle := None; header_hash := None;
     seed_hash := None; last_ts := None; partial_header := None;
     wait_for_new_block := false |}.

(** *** Statements that may raise, over a mutable object

    A computation takes the object, returns it as it left it, and either a
    value or the exception that stopped it: what was assigned before a
    [raise] stays assigned. *)
Definition M (S A : Type) : Type := S -> result A * S.

Definition ret {S A} (a : A) : M S A := fun s => (Ok a, s).
Definition throw {S A} (e : exn) : M S A := fun s => (Raise e, s).
Definition bind {S A B} (m : M S A) (k : A -> M S B) : M S B :=
  fun s => match m s with
           | (Ok a, s') => k a s'
           | (Raise e, s') => (Raise e, s')
           end.
Definition lift {S A} (r : result A) : M S A := fun s => (r, s).
Definition read {S A} (f : S -> A) : M S A := fun s => (Ok (f s), s).
Definition write {S} (f : S -> S) : M S unit := fun s => (Ok tt, f s).

Declare Scope py_scope.
Delimit Scope py_scope with py.
Notation "x <- m ;; k" := (bind m (fun x => k))
  (at level 61, m at next level, right associativity) : py_scope.
Notation "m ;; k" := (bind m (fun _ => k))
  (at level 61, right associativity) : py_scope.

(** A value that must not be [None]. *)
Definition need {S A} (e : exn) (o : option A) : M S A :=
  match o with
  | Some a => ret a
  | None => throw e
  end.

(** [self.<attribute> = v]. *)
Definition set_coinbase v s :=
  mkState v (coinbase_no_wit s) (transport s) (transactions s)
    (update_counter s) (my_address s) (merkle s) (header_hash s) (seed_hash s)
    (last_ts s) (partial_header s) (wait_for_new_block s).
Definition set_coinbase_no_wit v s :=
  mkState (coinbase s) v (transport s) (transactions s)
    (update_counter s) (my_address s) (merkle s) (header_hash s) (seed_hash s)
    (last_ts s) (partial_header s) (wait_for_new_block s).
Definition set_transport v s :=
  mkState (coinbase s) (coinbase_no_wit s) v (transactions s)
    (update_counter s) (my_address s) (merkle s) (header_hash s) (seed_hash s)
    (last_ts s) (partial_header s) (wait_for_new_block s).
Definition set_transactions v s :=
  mkState (coinbase s) (coinbase_no_wit s) (transport s) v
    (update_counter s) (my_address s) (merkle s) (header_hash s) (seed_hash s)
    (last_ts s) (partial_header s) (wait_for_new_block s).
Definition set_update_counter v s :=
  mkState (coinbase s) (coinbase_no_wit s) (transport s) (transactions s)
    v (my_address s) (merkle s) (header_hash s) (seed_hash s)
    (last_ts s) (partial_header s) (wait_for_new_block s).
Definition set_my_address v s :=
  mkState (coinbase s) (coinbase_no_wit s) (transport s) (transactions s)
    (update_counter s) v (merkle s) (header_hash s) (seed_hash s)
    (last_ts s) (partial_header s) (wait_for_new_block s).
Definition set_merkle v s :=
  mkState (coinbase s) (coinbase_no_wit s) (transport s) (transactions s)
    (update_counter s) (my_address s) v (header_hash s) (seed_hash s)
    (last_ts s) (partial_header s) (wait_for_new_block s).
Definition set_header_hash v s :=
  mkState (coinbase s) (coinbase_no_wit s) (transport s) (transactions s)
    (update_counter s) (my_address s) (merkle s) v (seed_hash s)
    (last_ts s) (partial_header s) (wait_for_new_block s).
Definition set_seed_hash v s :=
  mkState (coinbase s) (coinbase_no_wit s) (transport s) (transactions s)
    (update_counter s) (my_address s) (merkle s) (header_hash s) v
    (last_ts s) (partial_header s) (wait_for_new_block s).
Definition set_last_ts v s :=
  mkState (coinbase s) (coinbase_no_wit s) (transport s) (transactions s)
    (update_counter s) (my_address s) (merkle s) (header_hash s) (seed_hash s)
    v (partial_header s) (wait_for_new_block s).
Definition set_partial_header v s :=
  mkState (coinbase s) (coinbase_no_wit s) (transport s) (transactions s)
    (update_counter s) (my_address s) (merkle s) (header_hash s) (seed_hash s)
    (last_ts s) v (wait_for_new_block s).
Definition set_wait_for_new_block v s :=
  mkState (coinbase s) (coinbase_no_wit s) (transport s) (transactions s)
    (update_counter s) (my_address s) (merkle s) (header_hash s) (seed_hash s)
    (last_ts s) (partial_header s) v.

(** Truth value of an optional [str]: [None] and [''] are false. *)
Definition address_truthy (a : option string) : bool :=
  match a with
  | Some s => Py.str_truthy s
  | None => false
  end.

(** ** The candidate block builder *)

(** One transaction of the template: the [data] and [txid] entries. *)
Record tx_data := mkTx { data : string; txid : string }.

Section Builder.
Context {crypto : Crypto}.

Local Open Scope py_scope.

(** [while make_height[-1] == 0: make_height = make_height[:-1]], read from
    the last byte backwards: the argument is the byte string reversed.
    Indexing the empty byte string raises [IndexError]. *)
Fixpoint strip_from_end (reversed : bytes) : result bytes :=
  match reversed with
  | [] => Raise IndexError
  | b :: shorter => if b =? 0 then strip_from_end shorter else Ok (rev reversed)
  end.

(** [make_height] after the loop. *)
Definition make_height (height : Z) : result bytes :=
  (four <- Py.to_bytes height 4 Py.little ;;
   strip_from_end (rev four))%res.

(** [bytes([len(make_height)]) + make_height]: the pushed height. *)
Definition height_push (height : Z) : result bytes :=
  (mh <- make_height height ;; Ok (Py.len mh :: mh))%res.

(** The source's [bip34_height]: the pushed height, then the node's flags,
    or one zero byte when the node gave none. *)
Definition bip34_height (height : Z) (flags : string) : result bytes :=
  (hp <- height_push height ;;
   fl <- (if Py.str_truthy flags then Py.fromhex flags else Ok [0]) ;;
   Ok (hp ++ fl))%res.

Definition arbitrary_data : bytes :=
  Py.ascii_bytes
    "/with a little help from http://github.com/kralverde/ravencoin-stratum-proxy/".

Definition ffffffff : bytes := [0xff; 0xff; 0xff; 0xff].

Definition coinbase_txin (height : Z) (flags : string) : result bytes :=
  (bip <- bip34_height height flags ;;
   n <- var_int (Py.len bip + Py.len arbitrary_data) ;;
   Ok (Py.zeros 32 ++ ffffffff ++ n ++ bip ++ arbitrary_data ++ ffffffff))%res.

Definition vout1 (address : string) : result bytes :=
  (decoded <- b58decode_check address ;;
   Ok ([0x76; 0xa9; 0x14] ++ tl decoded ++ [0x88; 0xac]))%res.

(** The two outputs, shared by both serializations. *)
Definition outputs (my_sats : Z) (vout1 witness_commitment : bytes)
  : result bytes :=
  (sats <- Py.to_bytes my_sats 8 Py.little ;;
   p1 <- op_push (Py.len vout1) ;;
   p2 <- op_push (Py.len witness_commitment) ;;
   Ok (sats ++ p1 ++ vout1 ++ Py.zeros 8 ++ p2 ++ witness_commitment))%res.

Definition build_coinbase_transaction (height : Z) (flags : string)
    (address : string) (my_sats : Z) (witness_commitment : bytes)
  : M TransactionState unit :=
  txin <- lift (coinbase_txin height flags) ;;
  v1 <- lift (vout1 address) ;;
  one <- lift (Py.to_bytes 1 4 Py.little) ;;
  outs <- lift (outputs my_sats v1 witness_commitment) ;;
  write (set_coinbase (Some
    (one ++ [0x00; 0x01] ++ [0x01] ++ txin ++ [0x02] ++ outs ++
     [0x01; 0x20] ++ Py.zeros 32 ++ Py.zeros 4))) ;;
  write (set_coinbase_no_wit (Some
    (one ++ [0x01] ++ txin ++ [0x02] ++ outs ++ Py.zeros 4))).

(** "Lock in the funny numbers". *)
Definition lock_in (ts : Z) : result Z :=
  (c <- Py.char_from_end (Py.str ts) 3 ;;
   ts <- (if Ascii.eqb c "4" then Py.int (Py.drop_last 2 (Py.str ts) ++ "20")
          else Ok ts) ;;
   c <- Py.char_from_end (Py.str ts) 2 ;;
   if Ascii.eqb c "6" then Py.int (Py.drop_last 1 (Py.str ts) ++ "9")
   else Ok ts)%res.

(** "Hold on to the funny numbers". *)
Definition hold_on (ts : Z) : M TransactionState unit :=
  last <- read last_ts ;;
  if Py.endswith (Py.str_opt last) "420" || Py.endswith (Py.str_opt last) "69"
  then
    held <- need TypeError last ;;
    if held + 60 * 5 <? ts then write (set_last_ts (Some ts)) else ret tt
  else write (set_last_ts (Some ts)).

(** The [for tx_data in incoming_transactions] loop: the raw transactions and
    the reversed ids, in order; [bytes.fromhex] may raise on either. *)
Fixpoint collect (incoming : list tx_data) : result (list bytes * list bytes) :=
  match incoming with
  | [] => Ok ([], [])
  | t :: rest =>
      (raw <- Py.fromhex (data t) ;;
       id <- Py.fromhex (txid t) ;;
       more <- collect rest ;;
       Ok (raw :: fst more, rev id :: snd more))%res
  end.

(** [for _ in range(n)]: one [keccak_256] of the previous seed per turn. *)
Fixpoint seed_loop (n : nat) (seed : bytes) : bytes :=
  match n with
  | O => seed
  | S k => seed_loop k (keccak_256 seed)
  end.

(** The seed hash [update_transactions] stores for [height]. *)
Definition seed_of_height (height : Z) : bytes :=
  seed_loop (Z.to_nat (height / KAWPOW_EPOCH_LENGTH)) (Py.zeros 32).

(** The body of [if self.my_address and (changed_mine or ...)]:
    "recalculate everything". *)
Definition recalculate (version height : Z) (bits : bytes) (prev_hash : bytes)
    (incoming : list tx_data) : M TransactionState unit :=
  cb <- bind (read coinbase) (need TypeError) ;;
  cb_no_wit <- bind (read coinbase_no_wit) (need TypeError) ;;
  collected <- lift (collect incoming) ;;
  write (set_transactions (cb :: fst collected)) ;;
  root <- lift (fst (merkle_from_txids (dsha256 cb_no_wit :: snd collected))) ;;
  write (set_merkle (Some root)) ;;
  h <- lift (Py.to_bytes height 4 Py.big) ;;
  held <- bind (read last_ts) (need AttributeError) ;;
  t <- lift (Py.to_bytes held 4 Py.big) ;;
  v <- lift (Py.to_bytes version 4 Py.big) ;;
  let header := (h ++ bits ++ t ++ rev root ++ prev_hash ++ v)%list in
  write (set_partial_header (Some header)) ;;
  write (set_header_hash (Some (rev (dsha256 (rev header))))) ;;
  write (set_seed_hash (Some (seed_of_height height))).

Definition update_transactions (new_height : bool) (version height : Z)
    (bits : bytes) (ts : Z) (prev_hash : bytes) (incoming : list tx_data)
    (my_sats : Z) (witness_commitment : bytes) (flags : string)
  : M TransactionState bool :=
  waiting <- read wait_for_new_block ;;
  if waiting then ret true else
  ts <- lift (lock_in ts) ;;
  hold_on ts ;;
  counter <- read update_counter ;;
  write (set_update_counter (counter + 1)) ;;
  address <- read my_address ;;
  counter <- read update_counter ;;
  changed_mine <-
    (if address_truthy address
        && (new_height || (update_coinbase_every <=? counter))
     then
       write (set_update_counter 0) ;;
       a <- need TypeError address ;;
       build_coinbase_transaction height flags a my_sats witness_commitment ;;
       ret true
     else ret false) ;;
  held_transactions <- read transactions ;;
  if address_truthy address
     && (changed_mine
         || negb (Py.len held_transactions =? Py.len incoming + 1))
  then
    recalculate version height bits prev_hash incoming ;;
    ret true
  else ret false.

(** [self.transactions.clear()]. *)
Definition clear_for_new_height : M TransactionState unit :=
  write (set_transactions []).

(** [partial_block]. *)
Definition partial_block : M TransactionState (bytes * bytes) :=
  header <- bind (read partial_header) (need TypeError) ;;
  held <- read transactions ;;
  n <- lift (var_int (Py.len held)) ;;
  ret (rev header, (n ++ Py.join held)%list).

End Builder.

(** ** The Stratum handlers *)

(** Truth value of a decoded JSON value. *)
Definition json_truthy (j : json) : bool :=
  match j with
  | JNull => false
  | JBool b => b
  | JNum z => negb (z =? 0)
  | JStr s => Py.str_truthy s
  | JArr l => Py.list_truthy l
  | JObj l => Py.list_truthy l
  end.

(** The node's answer to [submitblock]: [json_resp.get('error', None)] and
    [json_resp.get('result', None)]; an absent key reads as [JNull]. *)
Record submit_response := mkResponse { resp_error : json; resp_result : json }.

(** [s.split('.')[0]]: the text before the first dot. *)
Fixpoint before_dot (s : string) : string :=
  match s with
  | EmptyString => EmptyString
  | String c rest => if Ascii.eqb c "." then EmptyString else String c (before_dot rest)
  end.

(** [s[2:]]. *)
Definition from_2 (s : string) : string :=
  String.substring 2 (String.length s - 2) s.

Section Handlers.
Context {crypto : Crypto}.

Local Open Scope py_scope.

Definition handle_subscribe : M TransactionState json :=
  ret (JArr [JStr "00000000"; JNum 4]).

Definition authorize_handler (testnet : bool) (args : list string)
  : M TransactionState bool :=
  first <- lift (Py.first_item args) ;;
  let address := before_dot first in
  match b58decode_check address with
  | Ok decoded =>
      version <- lift (Py.first_item decoded) ;;
      if negb (version =? (if testnet then 111 else 60))
      then throw (RPCError 1 (JStr (address ++ " is not a p2pkh address")))
      else write (set_my_address (Some address)) ;; ret true
  | Raise ValueError =>
      throw (RPCError 1 (JStr (address ++ " is not a valid address")))
  | Raise e => throw e
  end.

Definition waiting_for_template : exn :=
  RPCError 1 (JStr "Waiting for next block template").

(** [handle_submit] up to the request it awaits: the guard, the block to
    post (in hex), and the first [clear_for_new_height]. *)
Definition submit_prepare (args : list string) : M TransactionState string :=
  waiting <- read wait_for_new_block ;;
  held <- read transactions ;;
  if waiting || negb (Py.list_truthy held) then throw waiting_for_template
  else
    match args with
    | [worker; job_id; nonce_hex; header_hex; mixhash_hex] =>
        block <- partial_block ;;
        nonce <- lift (Py.fromhex (from_2 nonce_hex)) ;;
        mix <- lift (Py.fromhex (from_2 mixhash_hex)) ;;
        let full_block := (fst block ++ rev nonce ++ rev mix ++ snd block)%list in
        clear_for_new_height ;;
        ret (Py.hex full_block)
    | _ => throw ValueError
    end.

(** [handle_submit] from the node's answer on. *)
Definition submit_conclude (json_resp : submit_response)
  : M TransactionState bool :=
  if json_truthy (resp_error json_resp) then
    clear_for_new_height ;; throw (RPCError 1 (resp_error json_resp))
  else if json_truthy (resp_result json_resp) then
    clear_for_new_height ;; throw (RPCError 1 (resp_result json_resp))
  else
    write (set_wait_for_new_block true) ;; ret true.

(** [handle_submit] run alone: the node is the function from the posted
    block to its answer, and no other task is scheduled while the answer is
    awaited. [handle_submit_while], below, has the other tasks. *)
Definition handle_submit (node : string -> submit_response)
    (args : list string) : M TransactionState bool :=
  block <- submit_prepare args ;;
  submit_conclude (node block).

End Handlers.

(** ** The template synchronizer *)

(** [json_resp['result']] of [getblocktemplate], the fields the loop reads. *)
Record template := mkTemplate {
  t_height : Z;
  t_version : Z;
  t_bits : string;
  t_previousblockhash : string;
  t_transactions : list tx_data;
  t_coinbasevalue : Z;
  t_default_witness_commitment : string;
  t_flags : string;
  t_target : string
}.

Inductive notification : Type :=
| mining_set_target (target : string)
| mining_notify (job_id header_hash_hex seed_hash_hex target : string)
    (clean : bool) (height : Z) (bits : string).

(** The process: the one [TransactionState], the sessions whose connection
    is open, and the notifications sent so far, oldest first, each with the
    session it was sent on. *)
Record World := mkWorld {
  tx : TransactionState;
  connected : list session;
  outbox : list (session * notification)
}.

Definition initial_world : World :=
  {| tx := initial_state; connected := []; outbox := [] |}.

(** Run a method of [tx] inside the process. *)
Definition on_tx {A} (m : M TransactionState A) : M World A :=
  fun w => let (r, s) := m (tx w) in (r, mkWorld s (connected w) (outbox w)).

(** [await session.send_notification(...)]. *)
Definition send_notification (s : session) (n : notification) : M World unit :=
  write (fun w => mkWorld (tx w) (connected w) (outbox w ++ [(s, n)])).

(** [StratumSession.__init__]: a new connection; [tx.transport = self]. *)
Definition new_session (s : session) : M World unit :=
  write (fun w => mkWorld (set_transport (Some s) (tx w)) (connected w ++ [s])
                    (outbox w)).

(** [handle_submit] among the other tasks. The handler awaits the node's
    answer after its first [clear_for_new_height] and before it reads the
    answer; [meanwhile] is what the tasks scheduled during that wait (turns
    of [query_loop], requests of other sessions) do to the process. *)
Definition handle_submit_while (node : string -> submit_response)
    (args : list string) (meanwhile : World -> World) : M World bool :=
  (block <- on_tx (submit_prepare args) ;;
   write meanwhile ;;
   on_tx (submit_conclude (node block)))%py.

(** The process as [handle_submit] leaves it for the other tasks. *)
Definition posting (w : World) : World :=
  mkWorld (set_transactions [] (tx w)) (connected w) (outbox w).

(** The process once the guard is set. *)
Definition locked (w : World) : World :=
  mkWorld (set_wait_for_new_block true (tx w)) (connected w) (outbox w).

Section Synchronizer.
Context {crypto : Crypto}.

Local Open Scope py_scope.

(** One turn of the [while True] of [query_loop]: [result] is the node's
    template, [now] is [int(time.time())], [height] the loop's variable,
    whose new value is returned. *)
Definition query_loop_turn (result : template) (now : Z) (height : Z)
  : M World Z :=
  held <- on_tx (read transactions) ;;
  let empty := negb (Py.list_truthy held) in
  let changed := negb (height =? t_height result) in
  let clear_work := empty || changed in
  let height := if changed then t_height result else height in
  (if changed then on_tx clear_for_new_height else ret tt) ;;
  bits <- lift (Py.fromhex (t_bits result)) ;;
  prev_hash <- lift (Py.fromhex (t_previousblockhash result)) ;;
  commitment <- lift (Py.fromhex (t_default_witness_commitment result)) ;;
  should_notify <- on_tx (update_transactions clear_work (t_version result)
                     (t_height result) bits now prev_hash
                     (t_transactions result) (t_coinbasevalue result)
                     commitment (t_flags result)) ;;
  to <- on_tx (read transport) ;;
  match should_notify, to with
  | true, Some s =>
      (if clear_work then send_notification s (mining_set_target (t_target result))
       else ret tt) ;;
      hh <- on_tx (bind (read header_hash) (need AttributeError)) ;;
      sh <- on_tx (bind (read seed_hash) (need AttributeError)) ;;
      send_notification s
        (mining_notify "0" (Py.hex hh) (Py.hex sh) (t_target result)
           clear_work height (t_bits result)) ;;
      (if clear_work then on_tx (write (set_wait_for_new_block false))
       else ret tt) ;;
      ret height
  | _, _ => ret height
  end.

End Synchronizer.

(** * The library hashes, computed

    [hashlib.sha256], [sha3.keccak_256] and [base58.b58decode_check] by their
    published algorithms, so that the model can be run on real inputs. The
    general theorems do not depend on them: they hold for any [Crypto]. *)
Module Reference.

(** ** SHA-256 (FIPS 180-4) *)

Definition w32 (x : Z) : Z := x mod 2 ^ 32.
Definition add32 (x y : Z) : Z := w32 (x + y).
Definition rotr32 (n x : Z) : Z :=
  Z.lor (Z.shiftr x n) (w32 (Z.shiftl x (32 - n))).
Definition not32 (x : Z) : Z := 2 ^ 32 - 1 - x.

Definition Ch (x y z : Z) : Z := Z.lxor (Z.land x y) (Z.land (not32 x) z).
Definition Maj (x y z : Z) : Z :=
  Z.lxor (Z.land x y) (Z.lxor (Z.land x z) (Z.land y z)).
Definition bsig0 (x : Z) : Z :=
  Z.lxor (rotr32 2 x) (Z.lxor (rotr32 13 x) (rotr32 22 x)).
Definition bsig1 (x : Z) : Z :=
  Z.lxor (rotr32 6 x) (Z.lxor (rotr32 11 x) (rotr32 25 x)).
Definition ssig0 (x : Z) : Z :=
  Z.lxor (rotr32 7 x) (Z.lxor (rotr32 18 x) (Z.shiftr x 3)).
Definition ssig1 (x : Z) : Z :=
  Z.lxor (rotr32 17 x) (Z.lxor (rotr32 19 x) (Z.shiftr x 10)).

(** The round constants are the first 32 bits of the fractional parts of the
    cube roots of the first 64 primes, the initial hash value those of the
    square roots of the first 8. *)
Definition is_prime (n : nat) : bool :=
  (2 <=? n)%nat && forallb (fun d => negb (n mod d =? 0)%nat) (seq 2 (n - 2)).

Definition primes_upto (n : nat) : list Z :=
  map Z.of_nat (filter is_prime (seq 0 (S n))).

(** The integer cube root, one bit at a time from bit [k - 1] down. *)
Fixpoint cube_root_bits (k : nat) (n root : Z) : Z :=
  match k with
  | O => root
  | S j =>
      let candidate := root + 2 ^ Z.of_nat j in
      if candidate ^ 3 <=? n then cube_root_bits j n candidate
      else cube_root_bits j n root
  end.

Definition K256 : list Z :=
  map (fun p => w32 (cube_root_bits 44 (p * 2 ^ 96) 0)) (primes_upto 311).

Definition H256 : list Z :=
  map (fun p => w32 (Z.sqrt (p * 2 ^ 64))) (firstn 8 (primes_upto 311)).

(** The message with its padding: a one bit, zero bits up to 56 modulo 64
    bytes, and the bit length on eight bytes. *)
Definition pad256 (msg : bytes) : bytes :=
  let n := Z.of_nat (length msg) in
  msg ++ [0x80] ++ repeat 0 (Z.to_nat ((55 - n) mod 64))
      ++ rev (Py.le_digits 8 (8 * n)).

(** The list cut into pieces of [size] elements; [count] bounds the number
    of pieces. *)
Fixpoint chunks {A} (size count : nat) (l : list A) : list (list A) :=
  match count with
  | O => []
  | S c =>
      match l with
      | [] => []
      | _ => firstn size l :: chunks size c (skipn size l)
      end
  end.

Definition words_be (block : bytes) : list Z :=
  map Py.from_be (chunks 4 16 block).

(** The message schedule, newest word first: [recent] holds the words so far. *)
Fixpoint schedule (n : nat) (recent : list Z) : list Z :=
  match n with
  | O => recent
  | S k =>
      let w := add32 (add32 (ssig1 (nth 1 recent 0)) (nth 6 recent 0))
                     (add32 (ssig0 (nth 14 recent 0)) (nth 15 recent 0)) in
      schedule k (w :: recent)
  end.

Definition round256 (s : list Z) (kw : Z * Z) : list Z :=
  match s with
  | [a; b; c; d; e; f; g; h] =>
      let t1 := add32 (add32 (add32 h (bsig1 e)) (add32 (Ch e f g) (fst kw)))
                      (snd kw) in
      let t2 := add32 (bsig0 a) (Maj a b c) in
      [add32 t1 t2; a; b; c; add32 d t1; e; f; g]
  | _ => s
  end.

Definition compress256 (h : list Z) (block : bytes) : list Z :=
  let w := rev (schedule 48 (rev (words_be block))) in
  let s := fold_left round256 (combine K256 w) h in
  map (fun p => add32 (fst p) (snd p)) (combine h s).

Definition sha256 (msg : bytes) : bytes :=
  let padded := pad256 msg in
  let blocks := chunks 64 (length padded) padded in
  concat (map (fun w => rev (Py.le_digits 4 w))
              (fold_left compress256 blocks H256)).

(** ** Keccak-256 (the original padding, as [sha3.keccak_256] has it) *)

Definition w64 (x : Z) : Z := x mod 2 ^ 64.
Definition rotl64 (n x : Z) : Z :=
  Z.lor (w64 (Z.shiftl x n)) (Z.shiftr x (64 - n)).
Definition not64 (x : Z) : Z := 2 ^ 64 - 1 - x.

Definition RC : list Z :=
  [0x0000000000000001; 0x0000000000008082; 0x800000000000808A;
   0x8000000080008000; 0x000000000000808B; 0x0000000080000001;
   0x8000000080008081; 0x8000000000008009; 0x000000000000008A;
   0x0000000000000088; 0x0000000080008009; 0x000000008000000A;
   0x000000008000808B; 0x800000000000008B; 0x8000000000008089;
   0x8000000000008003; 0x8000000000008002; 0x8000000000000080;
   0x000000000000800A; 0x800000008000000A; 0x8000000080008081;
   0x8000000000008080; 0x0000000080000001; 0x8000000080008008].

(** Rotation offsets, at index [x + 5 * y]. *)
Definition rho : list Z :=
  [ 0;  1; 62; 28; 27;
   36; 44;  6; 55; 20;
    3; 10; 43; 25; 39;
   41; 45; 15; 21;  8;
   18;  2; 61; 56; 14].

(** The state is 25 lanes, lane [(x, y)] at index [x + 5 * y]. *)
Definition lane (a : list Z) (x y : nat) : Z := nth (x mod 5 + 5 * (y mod 5)) a 0.

Definition grid (f : nat -> nat -> Z) : list Z :=
  map (fun i => f (i mod 5)%nat (i / 5)%nat) (seq 0 25).

Definition theta (a : list Z) : list Z :=
  let c x := Z.lxor (lane a x 0) (Z.lxor (lane a x 1) (Z.lxor (lane a x 2)
               (Z.lxor (lane a x 3) (lane a x 4)))) in
  let d x := Z.lxor (c ((x + 4) mod 5)%nat) (rotl64 1 (c ((x + 1) mod 5)%nat)) in
  grid (fun x y => Z.lxor (lane a x y) (d x)).

(** [b[y, 2x+3y] = rot(a[x, y])]: lane [(X, Y)] of the result comes from
    [x = (X + 3Y) mod 5], [y = X]. *)
Definition rho_pi (a : list Z) : list Z :=
  grid (fun X Y =>
          let x := ((X + 3 * Y) mod 5)%nat in
          let y := X in
          rotl64 (nth (x + 5 * y) rho 0) (lane a x y)).

Definition chi (b : list Z) : list Z :=
  grid (fun x y =>
          Z.lxor (lane b x y)
                 (Z.land (not64 (lane b (x + 1) y)) (lane b (x + 2) y))).

Definition iota (rc : Z) (a : list Z) : list Z :=
  match a with
  | a0 :: t => Z.lxor a0 rc :: t
  | [] => []
  end.

Definition keccak_f (a : list Z) : list Z :=
  fold_left (fun s rc => iota rc (chi (rho_pi (theta s)))) RC a.

Definition rate : nat := 136.

Definition pad_keccak (msg : bytes) : bytes :=
  let n := Z.of_nat (length msg) in
  let k := Z.to_nat ((Z.of_nat rate - 1 - n) mod Z.of_nat rate) in
  match k with
  | O => msg ++ [0x81]
  | S j => msg ++ [0x01] ++ repeat 0 j ++ [0x80]
  end.

Definition absorb (state : list Z) (block : bytes) : list Z :=
  let lanes := map Py.from_le (chunks 8 17 block) ++ repeat 0 8 in
  keccak_f (map (fun p => Z.lxor (fst p) (snd p)) (combine state lanes)).

Definition keccak_256 (msg : bytes) : bytes :=
  let padded := pad_keccak msg in
  let blocks := chunks rate (length padded) padded in
  let final := fold_left absorb blocks (repeat 0 25) in
  concat (map (Py.le_digits 8) (firstn 4 final)).

(** ** Base58Check *)

Definition alphabet : string :=
  "123456789ABCDEFGHJKLMNPQRSTUVWXYZabcdefghijkmnopqrstuvwxyz".

Fixpoint index_of (c : ascii) (s : string) (i : Z) : option Z :=
  match s with
  | EmptyString => None
  | String d rest => if Ascii.eqb c d then Some i else index_of c rest (i + 1)
  end.

(** [b58decode_int]: the digits read in base 58. *)
Fixpoint b58decode_int (s : string) (acc : Z) : result Z :=
  match s with
  | EmptyString => Ok acc
  | String c rest =>
      match index_of c alphabet 0 with
      | Some d => b58decode_int rest (acc * 58 + d)
      | None => Raise ValueError
      end
  end.

Fixpoint strip_ones (s : string) : nat * string :=
  match s with
  | String "1" rest => let (n, r) := strip_ones rest in (S n, r)
  | _ => (O, s)
  end.

(** The base-256 digits of [n], most significant first; [fuel] bounds their
    number. *)
Fixpoint be_minimal (fuel : nat) (n : Z) (acc : bytes) : bytes :=
  match fuel with
  | O => acc
  | S k => if n =? 0 then acc else be_minimal k (n / 256) (n mod 256 :: acc)
  end.

(** [str.isspace] on the characters a [string] holds. *)
Definition str_isspace (c : ascii) : bool :=
  let n := Z.of_nat (nat_of_ascii c) in
  ((9 <=? n) && (n <=? 13)) || ((28 <=? n) && (n <=? 32))
  || (n =? 133) || (n =? 160).

(** [v.rstrip()]: trailing whitespace removed. *)
Fixpoint rstrip (s : string) : string :=
  match s with
  | EmptyString => EmptyString
  | String c rest =>
      match rstrip rest with
      | EmptyString => if str_isspace c then EmptyString
                       else String c EmptyString
      | kept => String c kept
      end
  end.

(** [b58decode]: trailing whitespace is dropped first. *)
Definition b58decode (s : string) : result bytes :=
  let (zeros, rest) := strip_ones (rstrip s) in
  (n <- b58decode_int rest 0 ;;
   Ok (repeat 0 zeros ++ be_minimal (String.length rest) n []))%res.

Definition list_eqb (a b : bytes) : bool :=
  (length a =? length b)%nat && forallb (fun p => fst p =? snd p) (combine a b).

Definition b58decode_check (s : string) : result bytes :=
  (raw <- b58decode s ;;
   let n := (length raw - 4)%nat in
   let payload := firstn n raw in
   let check := skipn n raw in
   if list_eqb check (firstn 4 (sha256 (sha256 payload))) then Ok payload
   else Raise ValueError)%res.

End Reference.

(** The instance the examples run on. *)
Definition reference_crypto : Crypto :=
  {| sha256 := Reference.sha256;
     keccak_256 := Reference.keccak_256;
     b58decode_check := Reference.b58decode_check |}.

(** * A run on real data *)

Section Run.
#[local] Existing Instance reference_crypto.

Definition demo_address : string := "RMbuKtJdFf66Pr31shRZFf7fk3QsgJHbPS".

Definition demo_template : template :=
  {| t_height := 100;
     t_version := 0x30000000;
     t_bits := "1e00ffff";
     t_previousblockhash :=
       "000000a1b2c3d4e5f60718293a4b5c6d7e8f90a1b2c3d4e5f60718293a4b5c6d";
     t_transactions :=
       [ {| data := "0200000001aabbccdd00000000";
            txid :=
              "4a5e1e4baab89f3a32518a88c31bc87f618f76673e2cc77ab2127b7afdeda33b" |} ];
     t_coinbasevalue := 500000000000;
     t_default_witness_commitment :=
       "6a24aa21a9ed0000000000000000000000000000000000000000000000000000000000000000";
     t_flags := "";
     t_target :=
       "00000000ffff0000000000000000000000000000000000000000000000000000" |}.

Definition demo_user : string := demo_address ++ ".miner1".

(** Two miners connect, session 1 then session 2. *)
Definition world_connected : World :=
  snd (new_session 2%nat (snd (new_session 1%nat initial_world))).

(** A first turn of the synchronizer, before any miner is authorized. *)
Definition world_idle : World :=
  Eval vm_compute in
    snd (query_loop_turn demo_template 1700000000 (-1) world_connected).

(** The miner on session 2 authorizes. *)
Definition world_authorized : World :=
  Eval vm_compute in
    snd (on_tx (authorize_handler false [demo_user; "x"%string])
           world_idle).

(** The next turn, at the same height 100. *)
Definition world_working : World :=
  Eval vm_compute in
    snd (query_loop_turn demo_template 1700000001 100 world_authorized).

Definition demo_share : list string :=
  ["miner1"%string; "0"%string; "0x0123456789abcdef"%string;
   "0x00000000000000000000000000000000000000000000000000000000000000aa"%string;
   "0x00000000000000000000000000000000000000000000000000000000000000bb"%string].

(** A node that accepts every block, and one that rejects every block. *)
Definition accepting_node (block : string) : submit_response :=
  mkResponse JNull JNull.
Definition rejecting_node (block : string) : submit_response :=
  mkResponse JNull (JStr "high-hash").

(** The miner submits a share and the node accepts the block. *)
Definition world_submitted : World :=
  Eval vm_compute in
    snd (on_tx (handle_submit accepting_node demo_share) world_working).

(** The block [handle_submit] posts for [demo_share]. *)
Definition demo_block : string :=
  Eval vm_compute in
    match fst (submit_prepare demo_share (tx world_working)) with
    | Ok block => block
    | Raise _ => EmptyString
    end.

Definition demo_bits : bytes := [0x1e; 0x00; 0xff; 0xff].

Definition demo_prev_hash : bytes :=
  Eval vm_compute in
    match Py.fromhex (t_previousblockhash demo_template) with
    | Ok b => b
    | Raise _ => []
    end.

Definition demo_commitment : bytes :=
  Eval vm_compute in
    match Py.fromhex (t_default_witness_commitment demo_template) with
    | Ok b => b
    | Raise _ => []
    end.

Definition three_ids : list bytes := [repeat 1 32; repeat 2 32; repeat 3 32].
Definition two_ids : list bytes := [repeat 1 32; repeat 2 32].

End Run.

(** * Properties *)

(** ** [int.to_bytes] *)

Lemma le_digits_length n i : length (Py.le_digits n i) = n.
Proof. revert i; induction n; intros; simpl; auto. Qed.

Lemma le_digits_range n i : Forall (fun b => 0 <= b < 256) (Py.le_digits n i).
Proof.
  revert i; induction n; intros; simpl; constructor; auto.
  apply Z.mod_pos_bound; lia.
Qed.

Lemma from_le_digits n i :
  0 <= i -> Py.from_le (Py.le_digits n i) = i mod 256 ^ Z.of_nat n.
Proof.
  revert i; induction n; intros i Hi.
  - simpl. now rewrite Z.mod_1_r.
  - cbn [Py.le_digits Py.from_le]. rewrite IHn by (apply Z.div_pos; lia).
    rewrite Nat2Z.inj_succ, Z.pow_succ_r by lia.
    rewrite Z.rem_mul_r by lia. lia.
Qed.

Lemma to_bytes_ok i n order :
  0 <= i < 256 ^ Z.of_nat n ->
  Py.to_bytes i n order =
  Ok match order with
     | Py.little => Py.le_digits n i
     | Py.big => rev (Py.le_digits n i)
     end.
Proof.
  intros [H0 H1]. unfold Py.to_bytes.
  destruct (i <? 0) eqn:E0; [apply Z.ltb_lt in E0; lia|].
  destruct (256 ^ Z.of_nat n <=? i) eqn:E1; [apply Z.leb_le in E1; lia|].
  reflexivity.
Qed.

Lemma from_le_range b :
  Forall (fun x => 0 <= x < 256) b -> 0 <= Py.from_le b < 256 ^ Z.of_nat (length b).
Proof.
  induction 1 as [|x t Hx Ht IH].
  - simpl. lia.
  - cbn [Py.from_le length]. rewrite Nat2Z.inj_succ, Z.pow_succ_r by lia.
    remember (256 ^ Z.of_nat (length t)) as P eqn:HP. clear HP. lia.
Qed.

Lemma from_le_app a b :
  Py.from_le (a ++ b) = Py.from_le a + 256 ^ Z.of_nat (length a) * Py.from_le b.
Proof.
  induction a as [|x a IH].
  - cbn [app Py.from_le length]. change (Z.of_nat 0) with 0.
    rewrite Z.pow_0_r. lia.
  - cbn [app Py.from_le length]. rewrite IH, Nat2Z.inj_succ, Z.pow_succ_r by lia.
    remember (256 ^ Z.of_nat (length a)) as P eqn:HP. clear HP. lia.
Qed.

Lemma from_le_zeros k : Py.from_le (repeat 0 k) = 0.
Proof. induction k; cbn [repeat Py.from_le]; lia. Qed.

Lemma from_le_nonzero b :
  Py.from_le b <> 0 -> exists x, In x b /\ x <> 0.
Proof.
  induction b as [|x t IH]; cbn [Py.from_le]; intros H.
  - congruence.
  - destruct (Z.eq_dec x 0) as [->|Hx].
    + destruct IH as [y [Hy Hy0]]; [lia|]. exists y; split; [now right|assumption].
    + exists x; split; [now left|assumption].
Qed.

(** ** [op_push] *)

Lemma rev_le_digits_be n i :
  0 <= i < 256 ^ Z.of_nat n -> Py.from_be (rev (Py.le_digits n i)) = i.
Proof.
  intros H. unfold Py.from_be. rewrite rev_involutive, from_le_digits by lia.
  apply Z.mod_small; lia.
Qed.

(** What [op_push] returns on every length below [2^32]: the marker and the
    width are chosen by the smallest form that fits, and the length bytes
    are written most significant first. *)
Lemma op_push_shape (i : Z) :
  0 <= i < 2 ^ 32 ->
  op_push i =
  Ok (if i <? 0x4C then [i]
      else if i <=? 0xff then [0x4C; i]
      else if i <=? 0xffff then 0x4D :: rev (Py.le_digits 2 i)
      else 0x4E :: rev (Py.le_digits 4 i)).
Proof.
  intros H. unfold op_push.
  destruct (i <? 0x4C) eqn:E1.
  { apply Z.ltb_lt in E1. rewrite to_bytes_ok by (simpl; lia).
    cbn [Py.le_digits rev app]. now rewrite Z.mod_small by lia. }
  destruct (i <=? 0xff) eqn:E2.
  { apply Z.leb_le in E2. rewrite to_bytes_ok by (simpl; lia).
    cbn [Py.le_digits rev app rbind]. now rewrite Z.mod_small by lia. }
  destruct (i <=? 0xffff) eqn:E3.
  { apply Z.leb_le in E3. now rewrite to_bytes_ok by (simpl; lia). }
  now rewrite to_bytes_ok by (simpl; lia).
Qed.

Lemma op_push_overflow (i : Z) : 2 ^ 32 <= i -> op_push i = Raise OverflowError.
Proof.
  intros H. unfold op_push.
  destruct (i <? 0x4C) eqn:E1; [apply Z.ltb_lt in E1; lia|].
  destruct (i <=? 0xff) eqn:E2; [apply Z.leb_le in E2; lia|].
  destruct (i <=? 0xffff) eqn:E3; [apply Z.leb_le in E3; lia|].
  unfold Py.to_bytes.
  destruct (i <? 0) eqn:E0; [reflexivity|].
  destruct (256 ^ Z.of_nat 4 <=? i) eqn:E4; [reflexivity|].
  apply Z.leb_gt in E4. change (256 ^ Z.of_nat 4) with (2 ^ 32) in E4. lia.
Qed.

(** C8 as stated fails at the length [2^32], which no form holds: the call
    raises [OverflowError]; and at the length 256 the two length bytes are
    [01 00], where the little-endian bytes of 256 are [00 01]. *)
Lemma op_push_not_every_length :
  op_push (2 ^ 32) = Raise OverflowError /\
  op_push 256 = Ok [0x4D; 0x01; 0x00] /\
  Py.to_bytes 256 2 Py.little = Ok [0x00; 0x01].
Proof. repeat split. Qed.

(** C8, as the code has it: for a length below [2^32], [op_push] returns the
    single byte of the length when it is below [0x4C], and otherwise the
    marker [0x4C], [0x4D] or [0x4E] followed by 1, 2 or 4 bytes that are the
    base-256 digits of the length, the narrowest of the three forms that
    holds the length. *)
Theorem op_push_smallest_form (n : Z) :
  0 <= n < 2 ^ 32 ->
  (n < 0x4C -> op_push n = Ok [n]) /\
  (0x4C <= n <= 0xFF -> op_push n = Ok [0x4C; n]) /\
  (0xFF < n <= 0xFFFF ->
   exists digits,
     op_push n = Ok (0x4D :: digits) /\ length digits = 2%nat /\
     Permutation digits (Py.le_digits 2 n) /\
     Py.from_le (Py.le_digits 2 n) = n) /\
  (0xFFFF < n ->
   exists digits,
     op_push n = Ok (0x4E :: digits) /\ length digits = 4%nat /\
     Permutation digits (Py.le_digits 4 n) /\
     Py.from_le (Py.le_digits 4 n) = n).
Proof.
  intros H. rewrite (op_push_shape n H). repeat split.
  - intros Hn. apply Z.ltb_lt in Hn. now rewrite Hn.
  - intros [H1 H2]. apply Z.ltb_ge in H1. apply Z.leb_le in H2.
    now rewrite H1, H2.
  - intros [H1 H2].
    assert (E1 : (n <? 0x4C) = false) by (apply Z.ltb_ge; lia).
    assert (E2 : (n <=? 0xff) = false) by (apply Z.leb_gt; lia).
    apply Z.leb_le in H2. rewrite E1, E2, H2.
    exists (rev (Py.le_digits 2 n)). repeat split.
    + apply Permutation_sym, Permutation_rev.
    + rewrite from_le_digits by lia. apply Z.mod_small.
      change (256 ^ Z.of_nat 2) with 65536. apply Z.leb_le in H2. lia.
  - intros H1.
    assert (E1 : (n <? 0x4C) = false) by (apply Z.ltb_ge; lia).
    assert (E2 : (n <=? 0xff) = false) by (apply Z.leb_gt; lia).
    assert (E3 : (n <=? 0xffff) = false) by (apply Z.leb_gt; lia).
    rewrite E1, E2, E3.
    exists (rev (Py.le_digits 4 n)). repeat split.
    + apply Permutation_sym, Permutation_rev.
    + rewrite from_le_digits by lia. apply Z.mod_small.
      change (256 ^ Z.of_nat 4) with (2 ^ 32). lia.
Qed.

Lemma op_push_smallest_form_witness :
  op_push 25 = Ok [25] /\
  exists digits,
    op_push 300 = Ok (0x4D :: digits) /\ length digits = 2%nat /\
    Permutation digits (Py.le_digits 2 300) /\
    Py.from_le (Py.le_digits 2 300) = 300.
Proof.
  split.
  - apply (proj1 (op_push_smallest_form 25 ltac:(lia))). lia.
  - apply (proj1 (proj2 (proj2 (op_push_smallest_form 300 ltac:(lia))))). lia.
Defined.

(** ** The height in the coinbase script *)

Lemma strip_from_end_spec (r : bytes) :
  (exists x, In x r /\ x <> 0) ->
  exists k kept,
    strip_from_end r = Ok (rev kept) /\ r = repeat 0 k ++ kept /\
    hd 0 kept <> 0 /\ kept <> [].
Proof.
  induction r as [|b t IH]; intros [x [Hin Hx]].
  - destruct Hin.
  - cbn [strip_from_end]. destruct (b =? 0) eqn:E.
    + apply Z.eqb_eq in E. subst b.
      destruct IH as [k [kept [H1 [H2 [H3 H4]]]]].
      { destruct Hin as [<-|Hin]; [congruence|]. now exists x. }
      exists (S k), kept. repeat split; auto. cbn [repeat app]. now rewrite <- H2.
    + apply Z.eqb_neq in E. exists O, (b :: t). repeat split; auto. congruence.
Qed.

Lemma last_rev_hd {A} (l : list A) d : last (rev l) d = hd d l.
Proof.
  destruct l as [|a l]; [reflexivity|]. cbn [rev hd]. apply last_last.
Qed.

Lemma from_le_lower_bound (mh : bytes) :
  Forall (fun b => 0 <= b < 256) mh -> mh <> [] -> last mh 0 <> 0 ->
  256 ^ (Z.of_nat (length mh) - 1) <= Py.from_le mh.
Proof.
  intros Hr Hne Hl.
  rewrite (app_removelast_last 0 Hne) in Hr |- *.
  apply Forall_app in Hr. destruct Hr as [Hi Hlast].
  inversion Hlast as [|? ? Hb _]; subst.
  rewrite from_le_app, length_app. cbn [length Py.from_le].
  replace (Z.of_nat (length (removelast mh) + 1) - 1)
    with (Z.of_nat (length (removelast mh))) by lia.
  pose proof (from_le_range _ Hi) as Hlo.
  remember (256 ^ Z.of_nat (length (removelast mh))) as P eqn:HP.
  assert (0 < P) by (subst P; apply Z.pow_pos_nonneg; lia).
  clear HP. set (l := last mh 0) in *.
  assert (Hl1 : 1 <= l) by lia.
  assert (P * 1 <= P * l) by (apply Z.mul_le_mono_nonneg_l; lia).
  lia.
Qed.

Lemma make_height_spec (height : Z) :
  1 <= height < 2 ^ 32 ->
  exists mh,
    make_height height = Ok mh /\
    Forall (fun b => 0 <= b < 256) mh /\
    Py.from_le mh = height /\
    mh <> [] /\ last mh 0 <> 0 /\ (length mh <= 4)%nat.
Proof.
  intros H. unfold make_height.
  rewrite to_bytes_ok by (change (256 ^ Z.of_nat 4) with (2 ^ 32); lia).
  cbn [rbind].
  assert (Hd : Py.from_le (Py.le_digits 4 height) = height).
  { rewrite from_le_digits by lia. apply Z.mod_small.
    change (256 ^ Z.of_nat 4) with (2 ^ 32). lia. }
  destruct (strip_from_end_spec (rev (Py.le_digits 4 height)))
    as [k [kept [H1 [H2 [H3 H4]]]]].
  { destruct (from_le_nonzero (Py.le_digits 4 height)) as [x [Hin Hx]]; [lia|].
    exists x. split; [now apply in_rev in Hin|assumption]. }
  assert (Hfour : Py.le_digits 4 height = rev kept ++ repeat 0 k).
  { rewrite <- (rev_involutive (Py.le_digits 4 height)), H2, rev_app_distr.
    f_equal. clear. induction k; [reflexivity|].
    cbn [repeat rev]. rewrite IHk. clear. induction k; [reflexivity|].
    cbn [repeat app]. now rewrite IHk. }
  exists (rev kept). split; [exact H1|].
  pose proof (le_digits_range 4 height) as Hr. rewrite Hfour in Hr.
  apply Forall_app in Hr. destruct Hr as [Hr _].
  repeat split.
  - exact Hr.
  - rewrite Hfour, from_le_app, from_le_zeros in Hd. lia.
  - intros E. apply H4. now rewrite <- (rev_involutive kept), E.
  - now rewrite last_rev_hd.
  - pose proof (le_digits_length 4 height) as Hl.
    rewrite Hfour, length_app in Hl. lia.
Qed.

(** C4, as the code has it: for a height of 1 up to [2^32 - 1] the pushed
    height is a length byte and the little-endian bytes of the height without
    trailing zero bytes, the shortest byte string that denotes the height;
    [bip34_height] is that followed by the node's flags, or by one zero byte
    when the node gives no flags; the height 255 is pushed as [01 FF]. *)
Theorem height_push_minimal (height : Z) (flags : string) :
  1 <= height < 2 ^ 32 ->
  exists mh,
    make_height height = Ok mh /\
    Forall (fun b => 0 <= b < 256) mh /\
    Py.from_le mh = height /\
    last mh 0 <> 0 /\
    (forall b, Forall (fun x => 0 <= x < 256) b -> Py.from_le b = height ->
               (length mh <= length b)%nat) /\
    height_push height = Ok (Py.len mh :: mh) /\
    bip34_height height flags =
      (if Py.str_truthy flags
       then rbind (Py.fromhex flags) (fun fl => Ok ((Py.len mh :: mh) ++ fl))
       else Ok ((Py.len mh :: mh) ++ [0])) /\
    (height = 255 -> height_push height = Ok [0x01; 0xFF]).
Proof.
  intros H.
  destruct (make_height_spec height H) as [mh [H1 [H2 [H3 [H4 [H5 H6]]]]]].
  exists mh. repeat split; auto.
  - intros b Hb Hv.
    pose proof (from_le_lower_bound mh H2 H4 H5) as Hlow.
    pose proof (from_le_range b Hb) as Hup.
    destruct (Nat.le_gt_cases (length mh) (length b)) as [|Hlt]; [assumption|].
    exfalso.
    assert (256 ^ Z.of_nat (length b) <= 256 ^ (Z.of_nat (length mh) - 1))
      by (apply Z.pow_le_mono_r; lia).
    lia.
  - unfold height_push. now rewrite H1.
  - unfold bip34_height, height_push. rewrite H1. cbn [rbind].
    destruct (Py.str_truthy flags); [|reflexivity].
    destruct (Py.fromhex flags); reflexivity.
  - intros ->. reflexivity.
Qed.

Lemma height_push_minimal_witness :
  1 <= 255 < 2 ^ 32 /\
  exists mh,
    make_height 255 = Ok mh /\
    Forall (fun b => 0 <= b < 256) mh /\
    Py.from_le mh = 255 /\
    last mh 0 <> 0 /\
    (forall b, Forall (fun x => 0 <= x < 256) b -> Py.from_le b = 255 ->
               (length mh <= length b)%nat) /\
    height_push 255 = Ok (Py.len mh :: mh) /\
    bip34_height 255 "" =
      (if Py.str_truthy ""
       then rbind (Py.fromhex "") (fun fl => Ok ((Py.len mh :: mh) ++ fl))
       else Ok ((Py.len mh :: mh) ++ [0])) /\
    (255 = 255 -> height_push 255 = Ok [0x01; 0xFF]).
Proof.
  split; [lia|]. apply (height_push_minimal 255 ""). lia.
Defined.

(** C4 as stated fails at the height 0: the four bytes are all zero, the loop
    strips them all and then indexes the empty byte string; and the single
    zero byte the script may carry follows every height, 255 too, when the
    node gives no flags. *)
Lemma height_zero_raises :
  make_height 0 = Raise IndexError /\
  height_push 0 = Raise IndexError /\
  bip34_height 0 "" = Raise IndexError /\
  bip34_height 255 "" = Ok [0x01; 0xFF; 0x00].
Proof. repeat split. Qed.

(** ** The Merkle root *)

Section MerkleFacts.
Context {crypto : Crypto}.

Lemma merkle_while_more (txids : list bytes) :
  (1 < length txids)%nat -> merkle_while txids = merkle_while (level txids).
Proof.
  intros H. apply Nat.ltb_lt in H.
  rewrite merkle_while_equation_1.
  destruct (inspect (1 <? length txids)%nat) as [[|] e]; simpl.
  - reflexivity.
  - congruence.
Qed.

Lemma merkle_while_done (txids : list bytes) :
  (length txids <= 1)%nat -> merkle_while txids = Py.first_item txids.
Proof.
  intros H. apply Nat.ltb_ge in H.
  rewrite merkle_while_equation_1.
  destruct (inspect (1 <? length txids)%nat) as [[|] e]; simpl.
  - congruence.
  - reflexivity.
Qed.

Lemma level_nonempty (txids : list bytes) :
  txids <> [] -> level txids <> [].
Proof.
  intros H E. apply (f_equal (@length _)) in E. rewrite level_length in E.
  destruct txids as [|a [|b t]]; [congruence|discriminate|].
  cbn [length Nat.div2] in E. discriminate.
Qed.

(** The loop always reaches its [return]: from a non-empty list it yields a
    value, never an exception. *)
Lemma merkle_while_returns (txids : list bytes) :
  txids <> [] -> exists root, merkle_while txids = Ok root.
Proof.
  induction txids as [txids IH] using (well_founded_induction
    (Wf_nat.well_founded_ltof _ (@length (list Z)))).
  intros Hne.
  destruct (Nat.lt_ge_cases 1 (length txids)) as [Hlt|Hge].
  - rewrite merkle_while_more by assumption.
    apply IH; [now apply level_shrinks|now apply level_nonempty].
  - rewrite merkle_while_done by assumption.
    destruct txids; [congruence|]. now eexists.
Qed.

Lemma pairs_app_even {A} (l : list A) (x : A) :
  Nat.even (length l) = true -> pairs (l ++ [x]) = pairs l.
Proof.
  induction l as [l IH] using (well_founded_induction
    (Wf_nat.well_founded_ltof _ (@length A))).
  destruct l as [|a [|b t]]; intros H.
  - reflexivity.
  - discriminate.
  - cbn [app pairs]. f_equal. apply IH; [unfold Wf_nat.ltof; simpl; lia|exact H].
Qed.

Lemma pairs_app_odd {A} (l : list A) (x y : A) :
  Nat.odd (length l) = true -> pairs (l ++ [x; y]) = pairs (l ++ [x]).
Proof.
  induction l as [l IH] using (well_founded_induction
    (Wf_nat.well_founded_ltof _ (@length A))).
  destruct l as [|a [|b t]]; intros H.
  - discriminate.
  - reflexivity.
  - cbn [app pairs]. f_equal. apply IH; [unfold Wf_nat.ltof; simpl; lia|exact H].
Qed.

Lemma pairs_app_even_pair {A} (l : list A) (x y : A) :
  Nat.even (length l) = true -> pairs (l ++ [x; y]) = pairs l ++ [(x, y)].
Proof.
  induction l as [l IH] using (well_founded_induction
    (Wf_nat.well_founded_ltof _ (@length A))).
  destruct l as [|a [|b t]]; intros H.
  - reflexivity.
  - discriminate.
  - cbn [app pairs]. f_equal. apply IH; [unfold Wf_nat.ltof; simpl; lia|exact H].
Qed.

(** *** The root as the specification words it

    "Empty input returns [doubleHash(empty)]; single input returns it
    unchanged; otherwise iteratively pairs adjacent leaves (duplicating the
    last leaf when the count is odd at that level) replacing each pair with
    [doubleHash(left || right)] until one value remains." *)
Definition spec_level (leaves : list bytes) : list bytes :=
  map (fun '(l, r) => dsha256 (l ++ r))
      (pairs (if Nat.odd (length leaves) then leaves ++ [last leaves []]
              else leaves)).

Lemma spec_level_is_level (leaves : list bytes) :
  spec_level leaves = level leaves.
Proof.
  unfold spec_level, level, appended.
  destruct (Nat.odd (length leaves)) eqn:E; [reflexivity|].
  rewrite pairs_app_even; [reflexivity|].
  now rewrite <- Nat.negb_odd, E.
Qed.

Equations? merkleRoot (leaves : list bytes) : bytes
  by wf (length leaves) lt :=
  merkleRoot [] := dsha256 [];
  merkleRoot [x] := x;
  merkleRoot (a :: b :: rest) := merkleRoot (spec_level (a :: b :: rest)).
Proof.
  rewrite spec_level_is_level.
  apply (level_shrinks (a :: b :: rest)). simpl. lia.
Qed.

Lemma merkle_while_is_merkleRoot (txids : list bytes) :
  txids <> [] -> merkle_while txids = Ok (merkleRoot txids).
Proof.
  induction txids as [txids IH] using (well_founded_induction
    (Wf_nat.well_founded_ltof _ (@length (list Z)))).
  intros Hne.
  destruct txids as [|a [|b rest]]; [congruence| |].
  - rewrite merkle_while_done by (simpl; lia). now simp merkleRoot.
  - rewrite merkle_while_more by (simpl; lia).
    simp merkleRoot. rewrite spec_level_is_level.
    apply IH; [apply level_shrinks; simpl; lia|now apply level_nonempty].
Qed.

Lemma merkle_from_txids_root (txids : list bytes) :
  fst (merkle_from_txids txids) = Ok (merkleRoot txids).
Proof.
  unfold merkle_from_txids.
  destruct txids as [|a [|b rest]]; cbn [length Nat.eqb fst].
  - now simp merkleRoot.
  - now simp merkleRoot.
  - now apply merkle_while_is_merkleRoot.
Qed.

(** C7: [merkle_from_txids] returns the root the specification describes:
    [dsha256] of the empty byte string for no leaf, the leaf itself for one
    leaf, and for more the root of the next level, in which adjacent pairs
    are hashed and the last leaf is duplicated when the level is odd. *)
Theorem merkle_from_txids_is_merkleRoot (txids : list bytes) :
  fst (merkle_from_txids txids) = Ok (merkleRoot txids) /\
  fst (merkle_from_txids []) = Ok (dsha256 []) /\
  (forall x, fst (merkle_from_txids [x]) = Ok x) /\
  (forall a b rest,
     fst (merkle_from_txids (a :: b :: rest)) =
     fst (merkle_from_txids (spec_level (a :: b :: rest)))).
Proof.
  split; [apply merkle_from_txids_root|].
  split; [reflexivity|]. split; [reflexivity|].
  intros a b rest. rewrite !merkle_from_txids_root. now simp merkleRoot.
Qed.

(** *** What the call does to the caller's list *)

Lemma last_app_single {A} (l : list A) (x d : A) : last (l ++ [x]) d = x.
Proof. apply last_last. Qed.

Lemma level_after_odd (txids : list bytes) :
  Nat.odd (length txids) = true ->
  level (appended txids) = level txids.
Proof.
  intros H. unfold level, appended.
  rewrite last_app_single, <- app_assoc. cbn [app].
  now rewrite pairs_app_odd by assumption.
Qed.

Lemma level_after_even (txids : list bytes) :
  Nat.even (length txids) = true ->
  level (appended txids) =
  level txids ++ [dsha256 (last txids [] ++ last txids [])].
Proof.
  intros H. unfold level, appended.
  rewrite last_app_single, <- app_assoc. cbn [app].
  rewrite pairs_app_even_pair by assumption.
  rewrite map_app. cbn [map].
  now rewrite pairs_app_even by assumption.
Qed.

(** C10, as the code has it: on a list of two or more ids the call leaves
    the caller's list one element longer, its last element duplicated. A
    second call on the same list object then starts from the longer list:
    when the first length is odd it computes the same root again (the extra
    element is the one the pairing drops); when it is even, its first level
    has one more hash, that of the last id paired with itself. *)
Theorem merkle_from_txids_appends (txids : list bytes) :
  (2 <= length txids)%nat ->
  snd (merkle_from_txids txids) = txids ++ [last txids []] /\
  (Nat.odd (length txids) = true ->
   fst (merkle_from_txids (snd (merkle_from_txids txids))) =
   fst (merkle_from_txids txids)) /\
  (Nat.even (length txids) = true ->
   fst (merkle_from_txids (snd (merkle_from_txids txids))) =
   merkle_while (level txids ++ [dsha256 (last txids [] ++ last txids [])])).
Proof.
  intros H.
  assert (Hafter : snd (merkle_from_txids txids) = appended txids).
  { unfold merkle_from_txids. destruct txids as [|a [|b rest]];
      [simpl in H; lia|simpl in H; lia|reflexivity]. }
  assert (Hsecond : fst (merkle_from_txids (appended txids)) =
                    merkle_while (level (appended txids))).
  { unfold merkle_from_txids.
    assert (Hlen : (2 <= length (appended txids))%nat)
      by (unfold appended; rewrite length_app; simpl; lia).
    destruct (appended txids) as [|a [|b rest]] eqn:E;
      [simpl in Hlen; lia|simpl in Hlen; lia|].
    cbn [length Nat.eqb fst]. apply merkle_while_more. simpl. lia. }
  rewrite Hafter. repeat split.
  - intros Hodd. rewrite Hsecond, level_after_odd by assumption.
    unfold merkle_from_txids. destruct txids as [|a [|b rest]];
      [simpl in H; lia|simpl in H; lia|].
    cbn [length Nat.eqb fst]. symmetry. apply merkle_while_more. simpl. lia.
  - intros Heven. now rewrite Hsecond, level_after_even by assumption.
Qed.

End MerkleFacts.

(** ** The statement monad *)

Section MonadFacts.
Context {S A B : Type}.

Lemma bind_ok (m : M S A) (k : A -> M S B) (s s' : S) (b : B) :
  bind m k s = (Ok b, s') ->
  exists a s1, m s = (Ok a, s1) /\ k a s1 = (Ok b, s').
Proof.
  unfold bind. destruct (m s) as [[a|e] s1]; intros H.
  - now exists a, s1.
  - discriminate.
Qed.

Lemma bind_step (m : M S A) (k : A -> M S B) (s s1 : S) (a : A) :
  m s = (Ok a, s1) -> bind m k s = k a s1.
Proof. unfold bind. now intros ->. Qed.


End MonadFacts.

Lemma need_ok {S A} (e : exn) (o : option A) (s s' : S) (a : A) :
  need e o s = (Ok a, s') -> o = Some a /\ s' = s.
Proof.
  unfold need, ret, throw. destruct o; intros H; inversion H; auto.
Qed.

Lemma lift_ok {S A} (r : result A) (s s' : S) (a : A) :
  lift r s = (Ok a, s') -> r = Ok a /\ s' = s.
Proof. unfold lift. intros H; inversion H; auto. Qed.

(** Invert a computation that returned: one equation per statement. *)
Ltac minv H :=
  repeat
    (let a := fresh "v" in
     let s := fresh "s" in
     let E := fresh "E" in
     apply bind_ok in H; destruct H as (a & s & E & H)).

Ltac mfacts :=
  repeat
    match goal with
    | E : bind _ _ _ = (Ok _, _) |- _ => minv E
    | E : need _ _ _ = (Ok _, _) |- _ =>
        apply need_ok in E; destruct E as [? ?]
    | E : lift _ _ = (Ok _, _) |- _ =>
        apply lift_ok in E; destruct E as [? ?]
    | E : read _ _ = (Ok _, _) |- _ => unfold read in E; inversion E; clear E
    | E : write _ _ = (Ok _, _) |- _ => unfold write in E; inversion E; clear E
    | E : ret _ _ = (Ok _, _) |- _ => unfold ret in E; inversion E; clear E
    end.

(** ** The work state *)

Section StateFacts.
Context {crypto : Crypto}.

(** What "recalculate everything" stores, when it runs to its end. *)
Definition recalculated (st : TransactionState) (cb : bytes)
    (raws : list bytes) (root header : bytes) (height : Z)
  : TransactionState :=
  set_seed_hash (Some (seed_of_height height))
    (set_header_hash (Some (rev (dsha256 (rev header))))
       (set_partial_header (Some header)
          (set_merkle (Some root)
             (set_transactions (cb :: raws) st)))).

Lemma recalculate_ok version height bits prev_hash incoming st st' :
  recalculate version height bits prev_hash incoming st = (Ok tt, st') ->
  exists cb cb_no_wit raws ids held h4 t4 v4,
    coinbase st = Some cb /\ coinbase_no_wit st = Some cb_no_wit /\
    collect incoming = Ok (raws, ids) /\
    last_ts st = Some held /\
    Py.to_bytes height 4 Py.big = Ok h4 /\
    Py.to_bytes held 4 Py.big = Ok t4 /\
    Py.to_bytes version 4 Py.big = Ok v4 /\
    st' = recalculated st cb raws (merkleRoot (dsha256 cb_no_wit :: ids))
            (h4 ++ bits ++ t4 ++ rev (merkleRoot (dsha256 cb_no_wit :: ids))
                ++ prev_hash ++ v4)
            height.
Proof.
  unfold recalculate. intros H. mfacts. subst.
  match goal with
  | Hc : collect _ = Ok ?p |- _ => destruct p as [raws ids]
  end.
  match goal with
  | Hm : fst (merkle_from_txids _) = Ok _ |- _ =>
      rewrite merkle_from_txids_root in Hm; inversion Hm; subst; clear Hm
  end.
  cbn [fst snd] in *.
  do 8 eexists. repeat split; eauto.
Qed.

(** The attributes that only "recalculate everything", [clear_for_new_height]
    and the handlers assign. *)
Definition same_work (st st' : TransactionState) : Prop :=
  transport st' = transport st /\
  transactions st' = transactions st /\
  my_address st' = my_address st /\
  merkle st' = merkle st /\
  header_hash st' = header_hash st /\
  seed_hash st' = seed_hash st /\
  partial_header st' = partial_header st /\
  wait_for_new_block st' = wait_for_new_block st.

Lemma same_work_refl st : same_work st st.
Proof. repeat split. Qed.

Lemma same_work_trans st1 st2 st3 :
  same_work st1 st2 -> same_work st2 st3 -> same_work st1 st3.
Proof.
  unfold same_work. intros H1 H2.
  decompose [and] H1. decompose [and] H2. repeat split; congruence.
Qed.

Lemma hold_on_same_work ts st r st' :
  hold_on ts st = (r, st') -> same_work st st'.
Proof.
  unfold hold_on, bind, read, need, write, ret, throw.
  destruct (Py.endswith (Py.str_opt (last_ts st)) "420"
            || Py.endswith (Py.str_opt (last_ts st)) "69").
  - destruct (last_ts st) as [held|].
    + destruct (held + 60 * 5 <? ts); intros H; inversion H; repeat split.
    + intros H; inversion H; repeat split.
  - intros H; inversion H; repeat split.
Qed.

Lemma build_coinbase_same_work height flags a sats wc st r st' :
  build_coinbase_transaction height flags a sats wc st = (r, st') ->
  same_work st st'.
Proof.
  unfold build_coinbase_transaction, bind, lift, write.
  destruct (coinbase_txin height flags);
    [|intros H; inversion H; apply same_work_refl].
  destruct (vout1 a); [|intros H; inversion H; apply same_work_refl].
  destruct (Py.to_bytes 1 4 Py.little);
    [|intros H; inversion H; apply same_work_refl].
  destruct (outputs sats _ wc); intros H; inversion H; repeat split.
Qed.

End StateFacts.
Section StateFacts2.
Context {crypto : Crypto}.

Lemma set_update_counter_same_work n st : same_work st (set_update_counter n st).
Proof. repeat split. Qed.

(** An [update_transactions] that finds no submission pending either ends in
    "recalculate everything" and answers [True], or answers [False]; up to
    there it assigns nothing but the time stamp, the counter and the
    coinbase. *)
Lemma update_unlocked new_height version height bits ts prev_hash incoming
    my_sats commitment flags st b st' :
  wait_for_new_block st = false ->
  update_transactions new_height version height bits ts prev_hash incoming
    my_sats commitment flags st = (Ok b, st') ->
  exists st1,
    same_work st st1 /\
    ((b = true /\ address_truthy (my_address st) = true /\
      recalculate version height bits prev_hash incoming st1 = (Ok tt, st'))
     \/ (b = false /\ st' = st1)).
Proof.
  unfold update_transactions. intros Hw H.
  apply bind_ok in H. destruct H as (waiting & s & E & H).
  unfold read in E. inversion E; subst; clear E. rewrite Hw in H.
  minv H.
  apply lift_ok in E. destruct E as [_ ->].
  unfold read in E1, E3, E4, E6. unfold write in E2.
  inversion E1; subst; clear E1. inversion E2; subst; clear E2.
  inversion E3; subst; clear E3. inversion E4; subst; clear E4.
  inversion E6; subst; clear E6.
  match goal with
  | Hh : hold_on _ ?a = (Ok _, ?h) |- _ =>
      pose proof (hold_on_same_work _ _ _ _ Hh) as Hf1;
      rename a into st; rename h into held
  end.
  match goal with
  | Hb : _ (set_update_counter _ held) = (Ok ?c, ?t) |- _ =>
      rename Hb into Hbuild; rename c into changed_mine; rename t into built
  end.
  assert (Hf2 : same_work (set_update_counter (update_counter held + 1) held)
                  built).
  { destruct (address_truthy (my_address held)
              && (new_height
                  || (update_coinbase_every <=? update_counter held + 1))).
    - minv Hbuild.
      repeat match goal with
             | Hx : write _ _ = _ |- _ => unfold write in Hx; inversion Hx; subst; clear Hx
             | Hx : need _ _ _ = _ |- _ => apply need_ok in Hx; destruct Hx as [_ ->]
             | Hx : ret _ _ = _ |- _ => unfold ret in Hx; inversion Hx; subst; clear Hx
             end.
      match goal with
      | Hx : build_coinbase_transaction _ _ _ _ _ _ = _ |- _ =>
          apply build_coinbase_same_work in Hx;
          eapply same_work_trans; [|exact Hx]
      end.
      repeat split.
    - unfold ret in Hbuild. inversion Hbuild. apply same_work_refl. }
  assert (Hf : same_work st built).
  { eapply same_work_trans; [exact Hf1|].
    eapply same_work_trans; [apply set_update_counter_same_work|exact Hf2]. }
  exists built. split; [exact Hf|].
  destruct (address_truthy (my_address held)
            && (changed_mine
                || negb (Py.len (transactions built) =? Py.len incoming + 1)))
    eqn:C.
  - left. minv H. unfold ret in H. inversion H; subst; clear H.
    match goal with
    | Hr : recalculate _ _ _ _ _ _ = (Ok ?u, _) |- _ => destruct u
    end.
    repeat split; [|assumption].
    apply andb_prop in C. destruct C as [C _].
    destruct Hf1 as (_ & _ & Ha & _). now rewrite Ha in C.
  - right. unfold ret in H. inversion H. auto.
Qed.

(** With a submission pending, [update_transactions] answers [True] at once
    and assigns nothing. *)
Lemma update_locked new_height version height bits ts prev_hash incoming
    my_sats commitment flags st :
  wait_for_new_block st = true ->
  update_transactions new_height version height bits ts prev_hash incoming
    my_sats commitment flags st = (Ok true, st).
Proof.
  intros Hw. unfold update_transactions, bind, read, ret. now rewrite Hw.
Qed.

End StateFacts2.

Lemma var_int_shape (i : Z) :
  0 <= i < 2 ^ 64 ->
  var_int i =
  Ok (if i <? 0xfd then [i]
      else if i <=? 0xffff then 0xfd :: rev (Py.le_digits 2 i)
      else if i <=? 0xffffffff then 0xfe :: rev (Py.le_digits 4 i)
      else 0xff :: rev (Py.le_digits 8 i)).
Proof.
  intros H. unfold var_int.
  destruct (0 <=? i) eqn:E0; [|apply Z.leb_gt in E0; lia]. cbn [negb].
  destruct (i <? 0xfd) eqn:E1.
  { apply Z.ltb_lt in E1. rewrite to_bytes_ok by (simpl; lia).
    cbn [Py.le_digits rev app]. now rewrite Z.mod_small by lia. }
  destruct (i <=? 0xffff) eqn:E2.
  { apply Z.leb_le in E2. now rewrite to_bytes_ok by (simpl; lia). }
  destruct (i <=? 0xffffffff) eqn:E3.
  { apply Z.leb_le in E3. now rewrite to_bytes_ok by (simpl; lia). }
  rewrite to_bytes_ok; [reflexivity|].
  change (256 ^ Z.of_nat 8) with (2 ^ 64). lia.
Qed.

(** ** [update_transactions] with no submission pending *)

Section UpdateSteps.
Context {crypto : Crypto}.

Lemma hold_on_cases (t : Z) (st : TransactionState) :
  hold_on t st = (Ok tt, st) \/
  hold_on t st = (Ok tt, set_last_ts (Some t) st).
Proof.
  unfold hold_on, bind, read, need, write, ret.
  destruct (last_ts st) as [held|]; cbn [Py.str_opt].
  - destruct (Py.endswith (Py.str held) "420"
              || Py.endswith (Py.str held) "69"); [|now right].
    destruct (held + 60 * 5 <? t); [now right|now left].
  - change (Py.endswith "None" "420" || Py.endswith "None" "69") with false.
    now right.
Qed.

(** The object once the time stamp is settled and the counter has moved. *)
Definition counted (t : Z) (st : TransactionState) : TransactionState :=
  set_update_counter (update_counter st + 1) (snd (hold_on t st)).

Lemma counted_fields (t : Z) (st : TransactionState) :
  coinbase (counted t st) = coinbase st /\
  coinbase_no_wit (counted t st) = coinbase_no_wit st /\
  update_counter (counted t st) = update_counter st + 1 /\
  same_work st (counted t st).
Proof.
  unfold counted.
  destruct (hold_on_cases t st) as [E|E]; rewrite E; cbn [snd];
    repeat split.
Qed.

(** Without an address the call counts and answers [False]. *)
Lemma update_no_address new_height version height bits ts prev_hash incoming
    my_sats commitment flags st t :
  wait_for_new_block st = false ->
  lock_in ts = Ok t ->
  address_truthy (my_address st) = false ->
  update_transactions new_height version height bits ts prev_hash incoming
    my_sats commitment flags st = (Ok false, counted t st).
Proof.
  intros Hw Hl Ha. unfold update_transactions, counted, bind, read, lift,
    write, ret.
  rewrite Hw, Hl.
  destruct (hold_on_cases t st) as [E|E]; rewrite E;
    cbn [snd my_address update_counter set_update_counter set_last_ts];
    rewrite Ha; reflexivity.
Qed.

(** With an address: the coinbase is built again when the height is new or
    the counter is due, and then everything is recalculated; otherwise
    everything is recalculated only when the number of held transactions
    differs from the template's plus one. *)
Lemma update_with_address new_height version height bits ts prev_hash incoming
    my_sats commitment flags st t a :
  wait_for_new_block st = false ->
  lock_in ts = Ok t ->
  my_address st = Some a ->
  Py.str_truthy a = true ->
  update_transactions new_height version height bits ts prev_hash incoming
    my_sats commitment flags st =
  if new_height || (update_coinbase_every <=? update_counter st + 1)
  then
    bind (build_coinbase_transaction height flags a my_sats commitment)
      (fun _ => bind (recalculate version height bits prev_hash incoming)
                  (fun _ => ret true))
      (set_update_counter 0 (counted t st))
  else if negb (Py.len (transactions st) =? Py.len incoming + 1)
  then bind (recalculate version height bits prev_hash incoming)
         (fun _ => ret true) (counted t st)
  else (Ok false, counted t st).
Proof.
  intros Hw Hl Ha Ht. unfold update_transactions, counted.
  unfold bind at 1. unfold read at 1. rewrite Hw.
  unfold bind at 1. unfold lift at 1. rewrite Hl.
  unfold bind at 1.
  destruct (hold_on_cases t st) as [E|E]; rewrite E; cbn [snd];
    unfold bind at 1; unfold read at 1;
    unfold bind at 1; unfold write at 1;
    unfold bind at 1; unfold read at 1;
    unfold bind at 1; unfold read at 1;
    cbn [my_address update_counter set_update_counter set_last_ts];
    rewrite Ha; cbn [address_truthy]; rewrite Ht; cbn [andb];
    destruct (new_height || (update_coinbase_every <=? update_counter st + 1)).
  all: unfold bind, read, write, need, ret;
    cbn [my_address update_counter transactions set_update_counter
         set_last_ts].
  all: try reflexivity.
  all: try
    match goal with
    | |- context [build_coinbase_transaction ?h ?f ?x ?s ?c ?z] =>
        destruct (build_coinbase_transaction h f x s c z) as [[[]|e] s2];
        cbn [orb andb]; try reflexivity
    end.
  all: try
    match goal with
    | |- context [negb ?c] => destruct c; cbn [negb orb andb]; reflexivity
    end.
Qed.

End UpdateSteps.

(** ** Submitting a share *)


Lemma submit_prepare_ok (args : list string) (st st1 : TransactionState)
    (block : string) :
  submit_prepare args st = (Ok block, st1) ->
  wait_for_new_block st = false /\ transactions st <> [] /\
  st1 = set_transactions [] st.
Proof.
  unfold submit_prepare. intros H.
  apply bind_ok in H. destruct H as (waiting & s & E & H).
  unfold read in E. inversion E; subst; clear E.
  apply bind_ok in H. destruct H as (held & s' & E & H).
  unfold read in E. inversion E; subst; clear E.
  destruct (wait_for_new_block s') eqn:Hw; [discriminate|].
  destruct (transactions s') as [|t ts] eqn:Ht; [discriminate|].
  cbn [Py.list_truthy negb orb] in H.
  destruct args as [|a1 [|a2 [|a3 [|a4 [|a5 [|a6 rest]]]]]]; try discriminate.
  unfold partial_block in H. mfacts. subst.
  unfold clear_for_new_height, write in *.
  repeat match goal with
         | Hx : (_, _) = (_, _) |- _ => inversion Hx; subst; clear Hx
         end.
  repeat split; congruence.
Qed.

(** Whatever [handle_submit] answers, it assigns nothing but the held
    transactions and the guard. *)
Lemma submit_prepare_frame (args : list string) (st st1 : TransactionState)
    (r : result string) :
  submit_prepare args st = (r, st1) ->
  st1 = st \/ st1 = set_transactions [] st.
Proof.
  unfold submit_prepare, partial_block, clear_for_new_height,
    bind, read, write, lift, need, ret, throw.
  destruct (wait_for_new_block st || negb (Py.list_truthy (transactions st)));
    [intros H; inversion H; auto|].
  destruct args as [|a1 [|a2 [|a3 [|a4 [|a5 [|a6 rest]]]]]];
    try (intros H; inversion H; now auto).
  destruct (partial_header st); [|intros H; inversion H; now auto].
  destruct (var_int (Py.len (transactions st)));
    [|intros H; inversion H; now auto].
  destruct (Py.fromhex (from_2 a3)); [|intros H; inversion H; now auto].
  destruct (Py.fromhex (from_2 a5)); intros H; inversion H; auto.
Qed.

Lemma submit_conclude_accepted (json_resp : submit_response)
    (st : TransactionState) :
  json_truthy (resp_error json_resp) = false ->
  json_truthy (resp_result json_resp) = false ->
  submit_conclude json_resp st = (Ok true, set_wait_for_new_block true st).
Proof.
  intros He Hr. unfold submit_conclude. now rewrite He, Hr.
Qed.

Lemma submit_conclude_rejected (json_resp : submit_response)
    (st : TransactionState) :
  json_truthy (resp_error json_resp) = true \/
  json_truthy (resp_result json_resp) = true ->
  exists reason,
    submit_conclude json_resp st = (Raise (RPCError 1 reason), set_transactions [] st).
Proof.
  unfold submit_conclude, clear_for_new_height, bind, write, throw.
  intros [He|Hr].
  - rewrite He. now eexists.
  - rewrite Hr. destruct (json_truthy (resp_error json_resp)); now eexists.
Qed.

Lemma handle_submit_ok (node : string -> submit_response) (args : list string)
    (st st' : TransactionState) :
  handle_submit node args st = (Ok true, st') ->
  wait_for_new_block st = false /\ transactions st <> [] /\
  st' = set_wait_for_new_block true (set_transactions [] st).
Proof.
  unfold handle_submit. intros H.
  apply bind_ok in H. destruct H as (block & st1 & E & H).
  apply submit_prepare_ok in E. destruct E as (Hw & Ht & ->).
  repeat split; auto.
  unfold submit_conclude, clear_for_new_height, bind, write, throw, ret in H.
  destruct (json_truthy (resp_error (node block))); [discriminate|].
  destruct (json_truthy (resp_result (node block))); [discriminate|].
  now inversion H.
Qed.


Lemma handle_submit_while_alone (node : string -> submit_response)
    (args : list string) (w : World) :
  handle_submit_while node args (fun w => w) w
  = on_tx (handle_submit node args) w.
Proof.
  unfold handle_submit_while, handle_submit, bind, on_tx, write.
  destruct (submit_prepare args (tx w)) as [[block|e] st1]; cbn [tx];
    [|reflexivity].
  destruct (submit_conclude (node block) st1) as [[b|e] st2]; reflexivity.
Qed.


Lemma handle_submit_while_accepted (node : string -> submit_response)
    (args : list string) (meanwhile : World -> World) (w : World)
    (block : string) (st1 : TransactionState) :
  submit_prepare args (tx w) = (Ok block, st1) ->
  json_truthy (resp_error (node block)) = false ->
  json_truthy (resp_result (node block)) = false ->
  handle_submit_while node args meanwhile w
  = (Ok true, locked (meanwhile (posting w))).
Proof.
  intros Hp He Hr. unfold handle_submit_while, bind, on_tx, write.
  rewrite Hp. apply submit_prepare_ok in Hp. destruct Hp as (_ & _ & ->).
  cbn [tx connected outbox]. fold (posting w).
  now rewrite submit_conclude_accepted.
Qed.


(** C1, as the code has it: when the block is built and the node accepts it
    (no error, no result), [handle_submit] has first emptied the held
    transactions itself, before it posts the block, and after the answer it
    sets the guard and returns success, assigning nothing else. Whatever the
    other tasks do while the answer is awaited, the guard is set at the
    return, and the transactions held then are the ones those tasks left:
    none when no other task ran. *)
Theorem accepted_submit_clears_and_locks (node : string -> submit_response)
    (args : list string) (meanwhile : World -> World) (w : World)
    (block : string) (st1 : TransactionState) :
  submit_prepare args (tx w) = (Ok block, st1) ->
  json_truthy (resp_error (node block)) = false ->
  json_truthy (resp_result (node block)) = false ->
  transactions (tx w) <> [] /\
  st1 = set_transactions [] (tx w) /\
  handle_submit_while node args meanwhile w
    = (Ok true, locked (meanwhile (posting w))) /\
  wait_for_new_block (tx (snd (handle_submit_while node args meanwhile w)))
    = true /\
  transactions (tx (snd (handle_submit_while node args meanwhile w)))
    = transactions (tx (meanwhile (posting w))) /\
  handle_submit node args (tx w)
    = (Ok true, set_wait_for_new_block true (set_transactions [] (tx w))) /\
  transactions (tx (snd (handle_submit_while node args (fun w => w) w))) = [].
Proof.
  intros Hp He Hr.
  pose proof (handle_submit_while_accepted node args meanwhile w block st1
                Hp He Hr) as Hm.
  pose proof (handle_submit_while_accepted node args (fun w => w) w block st1
                Hp He Hr) as Hi.
  assert (Hs : handle_submit node args (tx w) =
               (Ok true,
                set_wait_for_new_block true (set_transactions [] (tx w)))).
  { unfold handle_submit. rewrite (bind_step _ _ _ _ _ Hp).
    apply submit_prepare_ok in Hp. destruct Hp as (_ & _ & ->).
    now apply submit_conclude_accepted. }
  apply submit_prepare_ok in Hp. destruct Hp as (Hw & Ht & ->).
  rewrite Hm, Hi. repeat split; auto.
Qed.

(** ** One turn of the synchronizer *)

Section TurnFacts.
Context {crypto : Crypto}.

(** The [clear_work] of a turn: no transactions held, or another height. *)
Definition clear_work_of (result : template) (height : Z) (w : World) : bool :=
  negb (Py.list_truthy (transactions (tx w)))
  || negb (height =? t_height result).

(** The work state [update_transactions] is called on: cleared first when
    the height differs. *)
Definition before_update (result : template) (height : Z) (w : World)
  : TransactionState :=
  if negb (height =? t_height result) then set_transactions [] (tx w) else tx w.

(** What a turn sends on session [s] when it notifies. *)
Definition announcement (s : session) (result : template) (clear_work : bool)
    (hh sh : bytes) : list (session * notification) :=
  (if clear_work then [(s, mining_set_target (t_target result))] else [])
  ++ [(s, mining_notify "0" (Py.hex hh) (Py.hex sh) (t_target result)
            clear_work (t_height result) (t_bits result))].

Lemma query_loop_turn_notifies result now height w bits prev_hash commitment
    st2 s hh sh :
  Py.fromhex (t_bits result) = Ok bits ->
  Py.fromhex (t_previousblockhash result) = Ok prev_hash ->
  Py.fromhex (t_default_witness_commitment result) = Ok commitment ->
  update_transactions (clear_work_of result height w) (t_version result)
    (t_height result) bits now prev_hash (t_transactions result)
    (t_coinbasevalue result) commitment (t_flags result)
    (before_update result height w) = (Ok true, st2) ->
  transport st2 = Some s ->
  header_hash st2 = Some hh ->
  seed_hash st2 = Some sh ->
  query_loop_turn result now height w =
  (Ok (t_height result),
   mkWorld (if clear_work_of result height w
            then set_wait_for_new_block false st2 else st2)
           (connected w)
           (outbox w ++ announcement s result (clear_work_of result height w)
                                     hh sh)).
Proof.
  intros Hb Hp Hc Hu Ht Hh Hs.
  destruct w as [t c o]. unfold clear_work_of, before_update in *.
  cbn [tx connected outbox] in *.
  unfold query_loop_turn, clear_for_new_height.
  unfold bind, on_tx, read, write, lift, ret, send_notification, need.
  cbn [tx connected outbox].
  rewrite Hb, Hp, Hc.
  destruct (height =? t_height result) eqn:Eh; cbn [negb orb] in *;
    cbn [tx connected outbox]; rewrite Hu; cbn [tx connected outbox];
    rewrite Ht.
  - apply Z.eqb_eq in Eh. subst height.
    destruct (negb (Py.list_truthy (transactions t))); unfold write;
      cbn [tx connected outbox orb]; rewrite Hh; unfold ret;
      cbn [tx connected outbox]; rewrite Hs; unfold announcement;
      cbn [tx connected outbox]; rewrite <- ?app_assoc; reflexivity.
  - rewrite orb_true_r. unfold write.
    cbn [tx connected outbox orb]; rewrite Hh; unfold ret;
      cbn [tx connected outbox]; rewrite Hs; unfold announcement;
      cbn [tx connected outbox]; rewrite <- ?app_assoc; reflexivity.
Qed.

Lemma before_update_same_candidate result height w :
  transport (before_update result height w) = transport (tx w) /\
  wait_for_new_block (before_update result height w)
    = wait_for_new_block (tx w) /\
  coinbase (before_update result height w) = coinbase (tx w) /\
  merkle (before_update result height w) = merkle (tx w) /\
  header_hash (before_update result height w) = header_hash (tx w) /\
  seed_hash (before_update result height w) = seed_hash (tx w) /\
  partial_header (before_update result height w) = partial_header (tx w).
Proof.
  unfold before_update. destruct (negb (height =? t_height result));
    repeat split.
Qed.

Lemma clear_work_of_true result height w :
  clear_work_of result height w = true <->
  transactions (tx w) = [] \/ height <> t_height result.
Proof.
  unfold clear_work_of. rewrite orb_true_iff, !negb_true_iff, Z.eqb_neq.
  destruct (transactions (tx w)); cbn [Py.list_truthy];
    intuition congruence.
Qed.

(** C2, as the code has it: with a submission pending, [update_transactions]
    answers [True] (not [False]) at once and assigns nothing, so no candidate
    is built; the turn of the synchronizer that made the call then notifies
    the session it knows, as after a rebuild, and the coinbase, Merkle root,
    header hash, seed hash and header it holds stay as they were. *)
Theorem pending_submission_answers_true result now height w bits prev_hash
    commitment s hh sh :
  wait_for_new_block (tx w) = true ->
  Py.fromhex (t_bits result) = Ok bits ->
  Py.fromhex (t_previousblockhash result) = Ok prev_hash ->
  Py.fromhex (t_default_witness_commitment result) = Ok commitment ->
  transport (tx w) = Some s ->
  header_hash (tx w) = Some hh ->
  seed_hash (tx w) = Some sh ->
  (forall new_height version h b ts p incoming sats c flags,
     update_transactions new_height version h b ts p incoming sats c flags
       (tx w) = (Ok true, tx w)) /\
  query_loop_turn result now height w =
  (Ok (t_height result),
   mkWorld (if clear_work_of result height w
            then set_wait_for_new_block false (before_update result height w)
            else before_update result height w)
           (connected w)
           (outbox w ++ announcement s result (clear_work_of result height w)
                                     hh sh)) /\
  coinbase (tx (snd (query_loop_turn result now height w))) = coinbase (tx w) /\
  merkle (tx (snd (query_loop_turn result now height w))) = merkle (tx w) /\
  header_hash (tx (snd (query_loop_turn result now height w)))
    = header_hash (tx w) /\
  seed_hash (tx (snd (query_loop_turn result now height w)))
    = seed_hash (tx w) /\
  partial_header (tx (snd (query_loop_turn result now height w)))
    = partial_header (tx w).
Proof.
  intros Hw Hb Hp Hc Ht Hh Hs.
  destruct (before_update_same_candidate result height w)
    as (Bt & Bw & Bc & Bm & Bh & Bs & Bp).
  assert (Hturn : query_loop_turn result now height w =
    (Ok (t_height result),
     mkWorld (if clear_work_of result height w
              then set_wait_for_new_block false (before_update result height w)
              else before_update result height w)
             (connected w)
             (outbox w ++ announcement s result (clear_work_of result height w)
                                       hh sh))).
  { apply query_loop_turn_notifies with (bits := bits) (prev_hash := prev_hash)
      (commitment := commitment); try assumption; try congruence.
    apply update_locked. congruence. }
  split; [intros; now apply update_locked|].
  split; [exact Hturn|].
  rewrite Hturn. cbn [snd tx].
  destruct (clear_work_of result height w); repeat split; assumption.
Qed.

(** A turn that finds a submission pending and no transactions held leaves
    none held, whatever the template and however the turn ends. *)
Lemma pending_turn_holds_nothing result now height w :
  wait_for_new_block (tx w) = true ->
  transactions (tx w) = [] ->
  transactions (tx (snd (query_loop_turn result now height w))) = [].
Proof.
  intros Hw Ht. destruct w as [t c o]. cbn [tx] in *.
  unfold query_loop_turn, clear_for_new_height.
  unfold bind, on_tx, read, write, lift, ret, send_notification, need, throw.
  cbn [tx connected outbox].
  assert (Hu1 : forall cw bits ph cm,
    update_transactions cw (t_version result) (t_height result) bits now ph
      (t_transactions result) (t_coinbasevalue result) cm (t_flags result) t
    = (Ok true, t)) by (intros; now apply update_locked).
  assert (Hu2 : forall cw bits ph cm,
    update_transactions cw (t_version result) (t_height result) bits now ph
      (t_transactions result) (t_coinbasevalue result) cm (t_flags result)
      (set_transactions [] t)
    = (Ok true, set_transactions [] t)) by (intros; now apply update_locked).
  destruct (height =? t_height result); cbn [negb orb tx connected outbox fst snd];
    destruct (Py.fromhex (t_bits result)); cbn [tx snd]; try assumption; try reflexivity;
    destruct (Py.fromhex (t_previousblockhash result)); cbn [tx snd]; try assumption; try reflexivity;
    destruct (Py.fromhex (t_default_witness_commitment result)); cbn [tx snd]; try assumption; try reflexivity;
    rewrite ?Hu1, ?Hu2; cbn [tx connected outbox snd transport set_transactions];
    rewrite ?Ht; cbn [Py.list_truthy negb orb];
    (destruct (transport t); [|cbn [tx snd]; try assumption; reflexivity]);
    unfold write, ret; cbn [tx connected outbox header_hash seed_hash
                              set_transactions];
    (destruct (header_hash t); [|cbn [tx snd]; try assumption; reflexivity]);
    cbn [tx connected outbox header_hash seed_hash set_transactions];
    (destruct (seed_hash t); [|cbn [tx snd]; try assumption; reflexivity]);
    cbn [tx connected outbox snd]; try assumption; reflexivity.
Qed.




End TurnFacts.

(** ** Consistency of the stored candidate *)

Lemma handle_submit_frame (node : string -> submit_response)
    (args : list string) (st st' : TransactionState) (r : result bool) :
  handle_submit node args st = (r, st') ->
  st' = st \/ st' = set_transactions [] st \/
  st' = set_wait_for_new_block true (set_transactions [] st).
Proof.
  unfold handle_submit, bind.
  destruct (submit_prepare args st) as [[block|e] st1] eqn:E.
  - apply submit_prepare_ok in E. destruct E as (_ & _ & ->).
    unfold submit_conclude, clear_for_new_height, bind, write, throw, ret.
    destruct (json_truthy (resp_error (node block)));
      [intros H; inversion H; auto|].
    destruct (json_truthy (resp_result (node block)));
      intros H; inversion H; auto.
  - apply submit_prepare_frame in E. intros H; inversion H; subst.
    destruct E; auto.
Qed.

Section Consistency.
Context {crypto : Crypto}.

(** The stored Merkle root, header hash and seed hash are those of the
    stored transactions and of [height]: the transactions are the coinbase
    followed by the template's, the root is that of their ids, the header
    starts with the height and carries the reversed root, the header hash is
    the reversed double hash of the reversed header, the seed hash is that
    of the height. *)
Definition candidate_consistent (height : Z) (incoming : list tx_data)
    (st : TransactionState) : Prop :=
  exists cb cb_no_wit raws ids root header h4 before after,
    coinbase st = Some cb /\
    coinbase_no_wit st = Some cb_no_wit /\
    collect incoming = Ok (raws, ids) /\
    transactions st = cb :: raws /\
    root = merkleRoot (dsha256 cb_no_wit :: ids) /\
    merkle st = Some root /\
    Py.to_bytes height 4 Py.big = Ok h4 /\
    header = h4 ++ before ++ rev root ++ after /\
    partial_header st = Some header /\
    header_hash st = Some (rev (dsha256 (rev header))) /\
    seed_hash st = Some (seed_of_height height).

Lemma rebuilt_is_consistent new_height version height bits ts prev_hash
    incoming my_sats commitment flags st st' :
  wait_for_new_block st = false ->
  update_transactions new_height version height bits ts prev_hash incoming
    my_sats commitment flags st = (Ok true, st') ->
  candidate_consistent height incoming st'.
Proof.
  intros Hw H.
  destruct (update_unlocked _ _ _ _ _ _ _ _ _ _ _ _ _ Hw H)
    as (st1 & _ & [(_ & _ & Hr) | (Hb & _)]); [|discriminate].
  apply recalculate_ok in Hr.
  destruct Hr as (cb & cbn & raws & ids & held & h4 & t4 & v4 &
                  Hc & Hn & Hcol & Hl & Hh4 & Ht4 & Hv4 & ->).
  exists cb, cbn, raws, ids, (merkleRoot (dsha256 cbn :: ids)),
    (h4 ++ bits ++ t4 ++ rev (merkleRoot (dsha256 cbn :: ids))
        ++ prev_hash ++ v4),
    h4, (bits ++ t4), (prev_hash ++ v4).
  repeat split; try assumption.
  now rewrite <- !app_assoc.
Qed.

Lemma unchanged_when_false new_height version height bits ts prev_hash
    incoming my_sats commitment flags st st' :
  wait_for_new_block st = false ->
  update_transactions new_height version height bits ts prev_hash incoming
    my_sats commitment flags st = (Ok false, st') ->
  same_work st st'.
Proof.
  intros Hw H.
  destruct (update_unlocked _ _ _ _ _ _ _ _ _ _ _ _ _ Hw H)
    as (st1 & Hf & [(Hb & _) | (_ & ->)]); [discriminate|exact Hf].
Qed.

(** C3, as the code has it: a rebuild by [update_transactions] leaves the
    Merkle root, header hash and seed hash derived from the transactions and
    height it stores, and an [update_transactions] that answers [False]
    leaves all of them as they were; [clear_for_new_height], and with it
    every [mining.submit], empties the held transactions and keeps the old
    Merkle root, header hash and seed hash, which then belong to no stored
    transaction list until the next rebuild. *)
Theorem derived_fields_follow_rebuilds :
  (forall new_height version height bits ts prev_hash incoming my_sats
          commitment flags st b st',
     wait_for_new_block st = false ->
     update_transactions new_height version height bits ts prev_hash incoming
       my_sats commitment flags st = (Ok b, st') ->
     (b = true -> candidate_consistent height incoming st') /\
     (b = false ->
      transactions st' = transactions st /\ merkle st' = merkle st /\
      header_hash st' = header_hash st /\ seed_hash st' = seed_hash st)) /\
  (forall st,
     clear_for_new_height st = (Ok tt, set_transactions [] st) /\
     transactions (set_transactions [] st) = [] /\
     merkle (set_transactions [] st) = merkle st /\
     header_hash (set_transactions [] st) = header_hash st /\
     seed_hash (set_transactions [] st) = seed_hash st /\
     (forall height incoming,
        ~ candidate_consistent height incoming (set_transactions [] st))) /\
  (forall node args st r st',
     handle_submit node args st = (r, st') ->
     (transactions st' = transactions st \/ transactions st' = []) /\
     merkle st' = merkle st /\ header_hash st' = header_hash st /\
     seed_hash st' = seed_hash st).
Proof.
  split; [|split].
  - intros nh v h bits ts prev inc sats wc flags st b st' Hw H. split.
    + intros ->. eapply rebuilt_is_consistent; eassumption.
    + intros ->. apply unchanged_when_false in H; [|assumption].
      destruct H as (_ & H1 & _ & H2 & H3 & H4 & _). auto.
  - intros st. repeat split.
    intros h inc (cb & cbn & raws & ids & root & header & h4 & bf & af &
                  _ & _ & _ & Ht & _).
    discriminate Ht.
  - intros node args st r st' H.
    apply handle_submit_frame in H.
    destruct H as [-> | [-> | ->]]; repeat split; auto.
Qed.

End Consistency.

(** ** The seed hash *)

Section SeedFacts.
Context {crypto : Crypto}.

Lemma seed_loop_iter (n : nat) (seed : bytes) :
  seed_loop n seed = Nat.iter n keccak_256 seed.
Proof.
  revert seed. induction n as [|n IH]; intros seed; [reflexivity|].
  cbn [seed_loop]. rewrite IH. symmetry. apply Nat.iter_succ_r.
Qed.

Lemma rebuilt_seed_hash new_height version height bits ts prev_hash incoming
    my_sats commitment flags st st' :
  wait_for_new_block st = false ->
  update_transactions new_height version height bits ts prev_hash incoming
    my_sats commitment flags st = (Ok true, st') ->
  seed_hash st' = Some (seed_of_height height).
Proof.
  intros Hw H.
  destruct (rebuilt_is_consistent _ _ _ _ _ _ _ _ _ _ _ _ Hw H)
    as (cb & cbn & raws & ids & root & header & h4 & bf & af & Hc).
  decompose [and] Hc. assumption.
Qed.

(** "Hold on" leaves a stamp stored: the new one, or the one it held. *)
Lemma hold_on_stamp (t : Z) (st : TransactionState) :
  exists x,
    last_ts (snd (hold_on t st)) = Some x /\ (x = t \/ last_ts st = Some x).
Proof.
  unfold hold_on, bind, read, need, write, ret, throw.
  destruct (last_ts st) as [held|] eqn:El; cbn [Py.str_opt].
  - destruct (Py.endswith (Py.str held) "420"
              || Py.endswith (Py.str held) "69").
    + destruct (held + 60 * 5 <? t); cbn [snd last_ts set_last_ts].
      * exists t. auto.
      * exists held. auto.
    + exists t. cbn [snd last_ts set_last_ts]. auto.
  - change (Py.endswith "None" "420" || Py.endswith "None" "69") with false.
    exists t. cbn [snd last_ts set_last_ts]. auto.
Qed.

(** [build_coinbase_transaction] returns whenever the height, the value and
    the lengths fit their encodings and the flags and the address decode. *)
Lemma build_coinbase_returns height flags address my_sats commitment st fl
    decoded :
  1 <= height < 2 ^ 32 ->
  (if Py.str_truthy flags then Py.fromhex flags else Ok [0]) = Ok fl ->
  Py.len fl < 2 ^ 32 ->
  b58decode_check address = Ok decoded ->
  Py.len decoded < 2 ^ 31 ->
  0 <= my_sats < 2 ^ 64 ->
  Py.len commitment < 2 ^ 32 ->
  exists cb cb_no_wit,
    build_coinbase_transaction height flags address my_sats commitment st
    = (Ok tt, set_coinbase_no_wit (Some cb_no_wit) (set_coinbase (Some cb) st)).
Proof.
  intros Hh Hf Hfl Hd Hdl Hs Hc.
  destruct (make_height_spec height Hh) as (mh & Hmh & _ & _ & _ & _ & Hlen).
  assert (Htxin : exists txin, coinbase_txin height flags = Ok txin).
  { unfold coinbase_txin, bip34_height, height_push.
    rewrite Hmh. cbn [rbind]. rewrite Hf. cbn [rbind].
    rewrite var_int_shape; [cbn [rbind]; now eexists|].
    unfold Py.len in *. rewrite length_app. cbn [length].
    assert (0 <= Z.of_nat (length arbitrary_data) < 100)
      by (change (length arbitrary_data) with 77%nat; lia).
    lia. }
  destruct Htxin as (txin & Htxin).
  assert (Hv : vout1 address
               = Ok ([0x76; 0xa9; 0x14] ++ tl decoded ++ [0x88; 0xac])).
  { unfold vout1. now rewrite Hd. }
  assert (Hv1 : 0 <= Py.len ([0x76; 0xa9; 0x14] ++ tl decoded ++ [0x88; 0xac])
                < 2 ^ 32).
  { unfold Py.len in *. cbn [app length]. rewrite length_app. cbn [length].
    assert (length (tl decoded) <= length decoded)%nat
      by (destruct decoded; cbn [tl length]; lia).
    lia. }
  assert (Houts : exists outs,
            outputs my_sats ([0x76; 0xa9; 0x14] ++ tl decoded ++ [0x88; 0xac])
              commitment = Ok outs).
  { unfold outputs.
    rewrite to_bytes_ok by (change (256 ^ Z.of_nat 8) with (2 ^ 64); lia).
    cbn [rbind]. rewrite (op_push_shape _ Hv1). cbn [rbind].
    rewrite op_push_shape by (unfold Py.len in *; lia).
    cbn [rbind]. now eexists. }
  destruct Houts as (outs & Houts).
  unfold build_coinbase_transaction, bind, lift, write.
  rewrite Htxin, Hv.
  change (Py.to_bytes 1 4 Py.little) with (Ok [1; 0; 0; 0]).
  rewrite Houts. now do 2 eexists.
Qed.

(** "Recalculate everything" returns whenever both serializations are
    stored, the template's transactions are hex, and the height, the stored
    stamp and the version fit in four bytes. *)
Lemma recalculate_returns version height bits prev_hash incoming collected
    st cb cb_no_wit held :
  coinbase st = Some cb ->
  coinbase_no_wit st = Some cb_no_wit ->
  collect incoming = Ok collected ->
  last_ts st = Some held ->
  0 <= height < 2 ^ 32 ->
  0 <= held < 2 ^ 32 ->
  0 <= version < 2 ^ 32 ->
  exists st', recalculate version height bits prev_hash incoming st
              = (Ok tt, st').
Proof.
  intros Hc Hn Hcol Hl Hh Hs Hv.
  unfold recalculate, bind, read, need, lift, write, ret.
  rewrite Hc, Hn, Hcol.
  cbn [transactions coinbase coinbase_no_wit last_ts set_transactions
       set_merkle].
  rewrite merkle_from_txids_root.
  rewrite to_bytes_ok by (change (256 ^ Z.of_nat 4) with (2 ^ 32); lia).
  cbn [last_ts set_transactions set_merkle].
  rewrite Hl.
  rewrite !to_bytes_ok by (change (256 ^ Z.of_nat 4) with (2 ^ 32); lia).
  now eexists.
Qed.

(** At a new height, with an address that decodes and values that fit their
    encodings, [update_transactions] does rebuild: it answers [True]. *)
Lemma rebuild_returns version height bits ts t prev_hash incoming collected
    my_sats commitment flags fl a decoded st :
  wait_for_new_block st = false ->
  my_address st = Some a ->
  Py.str_truthy a = true ->
  b58decode_check a = Ok decoded ->
  Py.len decoded < 2 ^ 31 ->
  lock_in ts = Ok t ->
  0 <= t < 2 ^ 32 ->
  (forall x, last_ts st = Some x -> 0 <= x < 2 ^ 32) ->
  1 <= height < 2 ^ 32 ->
  0 <= version < 2 ^ 32 ->
  (if Py.str_truthy flags then Py.fromhex flags else Ok [0]) = Ok fl ->
  Py.len fl < 2 ^ 32 ->
  0 <= my_sats < 2 ^ 64 ->
  Py.len commitment < 2 ^ 32 ->
  collect incoming = Ok collected ->
  exists st',
    update_transactions true version height bits ts prev_hash incoming
      my_sats commitment flags st = (Ok true, st').
Proof.
  intros Hw Ha Ht Hd Hdl Hl Htr Hold Hh Hv Hf Hfl Hs Hc Hcol.
  rewrite (update_with_address _ _ _ _ _ _ _ _ _ _ _ _ _ Hw Hl Ha Ht).
  cbn [orb].
  destruct (build_coinbase_returns height flags a my_sats commitment
              (set_update_counter 0 (counted t st)) fl decoded
              Hh Hf Hfl Hd Hdl Hs Hc) as (cb & cbn & Hb).
  unfold bind at 1. rewrite Hb.
  destruct (hold_on_stamp t st) as (x & Hx & Hxt).
  assert (Hxr : 0 <= x < 2 ^ 32) by (destruct Hxt as [-> | Hxo]; auto).
  destruct (recalculate_returns version height bits prev_hash incoming
              collected
              (set_coinbase_no_wit (Some cbn)
                 (set_coinbase (Some cb)
                    (set_update_counter 0 (counted t st))))
              cb cbn x eq_refl eq_refl Hcol Hx ltac:(lia) Hxr Hv)
    as (st' & Hr).
  exists st'. unfold bind. rewrite Hr. reflexivity.
Qed.

(** C9: the seed hash for a height is [keccak_256] applied [height // 7500]
    times to 32 zero bytes, each time to the previous seed; two heights of
    one epoch have the same seed hash, and a height one epoch further has
    one more application. This is the value [update_transactions] stores:
    every rebuild stores it, and at a new height, with an address that
    decodes and values that fit their encodings, [update_transactions] does
    rebuild and store it. *)
Theorem seed_hash_by_epoch (h1 h2 : Z) :
  seed_of_height h1 =
    Nat.iter (Z.to_nat (h1 / 7500)) keccak_256 (repeat 0 32) /\
  (h1 / 7500 = h2 / 7500 -> seed_of_height h1 = seed_of_height h2) /\
  (0 <= h1 -> h2 / 7500 = h1 / 7500 + 1 ->
   seed_of_height h2 = keccak_256 (seed_of_height h1)) /\
  (forall new_height version bits ts prev_hash incoming my_sats commitment
          flags st st',
     wait_for_new_block st = false ->
     update_transactions new_height version h1 bits ts prev_hash incoming
       my_sats commitment flags st = (Ok true, st') ->
     seed_hash st' = Some (seed_of_height h1)) /\
  (forall version bits ts t prev_hash incoming collected my_sats commitment
          flags fl a decoded st,
     wait_for_new_block st = false ->
     my_address st = Some a ->
     Py.str_truthy a = true ->
     b58decode_check a = Ok decoded ->
     Py.len decoded < 2 ^ 31 ->
     lock_in ts = Ok t ->
     0 <= t < 2 ^ 32 ->
     (forall x, last_ts st = Some x -> 0 <= x < 2 ^ 32) ->
     1 <= h1 < 2 ^ 32 ->
     0 <= version < 2 ^ 32 ->
     (if Py.str_truthy flags then Py.fromhex flags else Ok [0]) = Ok fl ->
     Py.len fl < 2 ^ 32 ->
     0 <= my_sats < 2 ^ 64 ->
     Py.len commitment < 2 ^ 32 ->
     collect incoming = Ok collected ->
     exists st',
       update_transactions true version h1 bits ts prev_hash incoming
         my_sats commitment flags st = (Ok true, st') /\
       seed_hash st' =
         Some (Nat.iter (Z.to_nat (h1 / 7500)) keccak_256 (repeat 0 32))).
Proof.
  assert (H1 : seed_of_height h1 =
               Nat.iter (Z.to_nat (h1 / 7500)) keccak_256 (repeat 0 32)).
  { unfold seed_of_height, KAWPOW_EPOCH_LENGTH, Py.zeros.
    apply seed_loop_iter. }
  split; [exact H1|]. split; [|split; [|split]].
  - unfold seed_of_height, KAWPOW_EPOCH_LENGTH. intros ->. reflexivity.
  - unfold seed_of_height, KAWPOW_EPOCH_LENGTH, Py.zeros.
    intros H0 ->. rewrite !seed_loop_iter.
    assert (0 <= h1 / 7500) by (apply Z.div_pos; lia).
    rewrite Z2Nat.inj_add by lia. rewrite Nat.add_comm. reflexivity.
  - intros. eapply rebuilt_seed_hash; eassumption.
  - intros version bits ts t prev_hash incoming collected my_sats commitment
           flags fl a decoded st Hw Ha Ht Hd Hdl Hl Htr Hold Hh Hv Hf Hfl Hs
           Hc Hcol.
    destruct (rebuild_returns version h1 bits ts t prev_hash incoming
                collected my_sats commitment flags fl a decoded st
                Hw Ha Ht Hd Hdl Hl Htr Hold Hh Hv Hf Hfl Hs Hc Hcol)
      as (st' & Hu).
    exists st'. split; [exact Hu|].
    rewrite <- H1. eapply rebuilt_seed_hash; eassumption.
Qed.

End SeedFacts.

Section TurnAnnounces.
Context {crypto : Crypto}.

(** A turn whose rebuild check answers [False], or that knows no session,
    sends nothing. *)
Lemma query_loop_turn_silent result now height w bits prev_hash commitment
    b st2 :
  Py.fromhex (t_bits result) = Ok bits ->
  Py.fromhex (t_previousblockhash result) = Ok prev_hash ->
  Py.fromhex (t_default_witness_commitment result) = Ok commitment ->
  update_transactions (clear_work_of result height w) (t_version result)
    (t_height result) bits now prev_hash (t_transactions result)
    (t_coinbasevalue result) commitment (t_flags result)
    (before_update result height w) = (Ok b, st2) ->
  b = false \/ transport st2 = None ->
  query_loop_turn result now height w =
  (Ok (t_height result), mkWorld st2 (connected w) (outbox w)).
Proof.
  intros Hb Hp Hc Hu Hq.
  destruct w as [t c o]. unfold clear_work_of, before_update in *.
  cbn [tx connected outbox] in *.
  unfold query_loop_turn, clear_for_new_height.
  unfold bind, on_tx, read, write, lift, ret, send_notification, need.
  cbn [tx connected outbox].
  rewrite Hb, Hp, Hc.
  destruct (height =? t_height result) eqn:Eh; cbn [negb orb] in *;
    cbn [tx connected outbox]; rewrite Hu; cbn [tx connected outbox];
    try (apply Z.eqb_eq in Eh; subst height);
    (destruct Hq as [-> | ->]; [reflexivity|]);
    destruct b; reflexivity.
Qed.

Lemma new_session_sets_transport (s : session) (w : World) :
  new_session s w =
  (Ok tt, mkWorld (set_transport (Some s) (tx w)) (connected w ++ [s])
            (outbox w)).
Proof. reflexivity. Qed.

(** C5, as the code has it: when a turn of the synchronizer builds a new
    candidate and the work state knows a session (the last one created), the
    turn sends to that one session, and to no other, the job notification,
    preceded by the target notification exactly when [clear_work] holds; the
    clean-jobs flag is [clear_work], which holds when the height differs from
    the one last seen or when no transactions were held as the turn began. *)
Theorem new_candidate_is_sent_to_transport result now height w bits prev_hash
    commitment st2 s :
  Py.fromhex (t_bits result) = Ok bits ->
  Py.fromhex (t_previousblockhash result) = Ok prev_hash ->
  Py.fromhex (t_default_witness_commitment result) = Ok commitment ->
  wait_for_new_block (tx w) = false ->
  update_transactions (clear_work_of result height w) (t_version result)
    (t_height result) bits now prev_hash (t_transactions result)
    (t_coinbasevalue result) commitment (t_flags result)
    (before_update result height w) = (Ok true, st2) ->
  transport (tx w) = Some s ->
  exists hh sh,
    header_hash st2 = Some hh /\ seed_hash st2 = Some sh /\
    query_loop_turn result now height w =
    (Ok (t_height result),
     mkWorld (if clear_work_of result height w
              then set_wait_for_new_block false st2 else st2)
             (connected w)
             (outbox w
              ++ (if clear_work_of result height w
                  then [(s, mining_set_target (t_target result))] else [])
              ++ [(s, mining_notify "0" (Py.hex hh) (Py.hex sh)
                        (t_target result) (clear_work_of result height w)
                        (t_height result) (t_bits result))])) /\
    (clear_work_of result height w = true <->
     transactions (tx w) = [] \/ height <> t_height result).
Proof.
  intros Hb Hp Hc Hw Hu Ht.
  destruct (before_update_same_candidate result height w)
    as (Bt & Bw & _).
  assert (Hw1 : wait_for_new_block (before_update result height w) = false)
    by congruence.
  destruct (update_unlocked _ _ _ _ _ _ _ _ _ _ _ _ _ Hw1 Hu)
    as (st1 & Hf & [(_ & _ & Hr) | (Hfalse & _)]); [|discriminate].
  apply recalculate_ok in Hr.
  destruct Hr as (cb & cbn & raws & ids & held & h4 & t4 & v4 &
                  _ & _ & _ & _ & _ & _ & _ & Hst2).
  destruct Hf as (Hft & _).
  eexists. eexists. split; [subst st2; reflexivity|].
  split; [subst st2; reflexivity|].
  split; [|apply clear_work_of_true].
  apply query_loop_turn_notifies with (bits := bits) (prev_hash := prev_hash)
    (commitment := commitment); try assumption.
  - subst st2. cbn. congruence.
  - subst st2. reflexivity.
  - subst st2. reflexivity.
Qed.

End TurnAnnounces.

(** * The claims on the run *)

Section RunFacts.
#[local] Existing Instance reference_crypto.

(** ** The library hashes on their test vectors *)

Example sha256_empty :
  Py.hex (Reference.sha256 []) =
  "e3b0c44298fc1c149afbf4c8996fb92427ae41e4649b934ca495991b7852b855"%string.
Proof. vm_compute. reflexivity. Qed.

Example sha256_abc :
  Py.hex (Reference.sha256 (Py.ascii_bytes "abc")) =
  "ba7816bf8f01cfea414140de5dae2223b00361a396177a9cb410ff61f20015ad"%string.
Proof. vm_compute. reflexivity. Qed.

Example keccak_256_empty :
  Py.hex (Reference.keccak_256 []) =
  "c5d2460186f7233c927e7db2dcc703c0e500b653ca82273b7bfad8045d85a470"%string.
Proof. vm_compute. reflexivity. Qed.

Example keccak_256_zero_word :
  Py.hex (Reference.keccak_256 (repeat 0 32)) =
  "290decd9548b62a8d60345a988386fc84ba6bc95484008f6362f93160ef3e563"%string.
Proof. vm_compute. reflexivity. Qed.

(** The address the source itself carries decodes, with version byte 60. *)
Example b58decode_check_source_address :
  rbind (Reference.b58decode_check demo_address) Py.first_item = Ok 60 /\
  Reference.b58decode_check "RMbuKtJdFf66Pr31shRZFf7fk3QsgJHbPT"
    = Raise ValueError.
Proof. vm_compute. split; reflexivity. Qed.

(** ** The codec on examples *)

Example b58decode_check_trailing_whitespace :
  b58decode_check (demo_address ++ String " " (String "010" EmptyString))
  = b58decode_check demo_address.
Proof. vm_compute. reflexivity. Qed.

Example op_push_boundaries :
  op_push 0 = Ok [0x00] /\ op_push 0x4B = Ok [0x4B] /\
  op_push 0x4C = Ok [0x4C; 0x4C] /\ op_push 0xFF = Ok [0x4C; 0xFF] /\
  op_push 0x100 = Ok [0x4D; 0x01; 0x00] /\
  op_push 0xFFFF = Ok [0x4D; 0xFF; 0xFF] /\
  op_push 0x10000 = Ok [0x4E; 0x00; 0x01; 0x00; 0x00] /\
  op_push 0x100000000 = Raise OverflowError.
Proof. repeat split. Qed.

Example var_int_boundaries :
  var_int 0 = Ok [0x00] /\ var_int 0xFC = Ok [0xFC] /\
  var_int 0xFD = Ok [0xFD; 0x00; 0xFD] /\
  var_int 0xFFFF = Ok [0xFD; 0xFF; 0xFF] /\
  var_int 0x10000 = Ok [0xFE; 0x00; 0x01; 0x00; 0x00] /\
  var_int 0xFFFFFFFF = Ok [0xFE; 0xFF; 0xFF; 0xFF; 0xFF] /\
  var_int (-1) = Raise AssertionError.
Proof. repeat split. Qed.

Example lock_in_examples :
  lock_in 1700000460 = Ok 1700000420 /\ lock_in 1700000065 = Ok 1700000069 /\
  lock_in 1700000001 = Ok 1700000001 /\ lock_in 12 = Raise IndexError.
Proof. vm_compute. repeat split. Qed.

Example height_push_examples :
  height_push 1 = Ok [1; 1] /\ height_push 100 = Ok [1; 100] /\
  height_push 255 = Ok [1; 255] /\ height_push 256 = Ok [2; 0; 1] /\
  height_push 7500 = Ok [2; 76; 29] /\
  bip34_height 255 "" = Ok [1; 255; 0] /\
  bip34_height 255 "abcd" = Ok [1; 255; 0xab; 0xcd].
Proof. vm_compute. repeat split. Qed.

Example seed_hash_examples :
  Py.hex (seed_of_height 100) =
    "0000000000000000000000000000000000000000000000000000000000000000"%string /\
  Py.hex (seed_of_height 7500) =
    "290decd9548b62a8d60345a988386fc84ba6bc95484008f6362f93160ef3e563"%string /\
  seed_of_height 14999 = seed_of_height 7500.
Proof. vm_compute. repeat split. Qed.

(** On two ids the second call on the same list gives another root. *)
Example second_call_on_two_ids :
  snd (merkle_from_txids two_ids) = two_ids ++ [repeat 2 32] /\
  Py.hex (merkleRoot two_ids) =
    Py.hex (dsha256 (repeat 1 32 ++ repeat 2 32)) /\
  Py.hex (merkleRoot (snd (merkle_from_txids two_ids))) =
    Py.hex (dsha256 (dsha256 (repeat 1 32 ++ repeat 2 32)
                     ++ dsha256 (repeat 2 32 ++ repeat 2 32))) /\
  (if list_eq_dec Z.eq_dec (merkleRoot two_ids)
        (merkleRoot (snd (merkle_from_txids two_ids)))
   then false else true) = true.
Proof. vm_compute. repeat split. Qed.

(** C10 as stated fails on three ids: the second call on the same list
    object returns the same root as the first. *)
Lemma second_call_on_three_ids_same_root :
  (2 <= length three_ids)%nat /\
  snd (merkle_from_txids three_ids) = three_ids ++ [repeat 3 32] /\
  fst (merkle_from_txids (snd (merkle_from_txids three_ids))) =
  fst (merkle_from_txids three_ids).
Proof. vm_compute. repeat split. lia. Qed.

Lemma merkle_from_txids_appends_witness :
  snd (merkle_from_txids three_ids) = three_ids ++ [last three_ids []] /\
  fst (merkle_from_txids (snd (merkle_from_txids three_ids))) =
  fst (merkle_from_txids three_ids).
Proof.
  assert (H : (2 <= length three_ids)%nat) by (simpl; lia).
  split.
  - exact (proj1 (merkle_from_txids_appends three_ids H)).
  - exact (proj1 (proj2 (merkle_from_txids_appends three_ids H)) eq_refl).
Defined.

(** The decoded address of the run: the version byte and the key hash. *)
Definition demo_decoded : bytes :=
  Eval vm_compute in
    match b58decode_check demo_address with
    | Ok b => b
    | Raise _ => []
    end.

(** The template's transactions, decoded. *)
Definition demo_collected : list bytes * list bytes :=
  Eval vm_compute in
    match collect (t_transactions demo_template) with
    | Ok c => c
    | Raise _ => ([], [])
    end.

Lemma seed_hash_by_epoch_witness :
  seed_of_height 7499 = repeat 0 32 /\
  seed_of_height 7500 = keccak_256 (seed_of_height 7499) /\
  seed_of_height 7500 = seed_of_height 14999 /\
  exists st',
    update_transactions true 0x30000000 15000 demo_bits 1700000001
      demo_prev_hash (t_transactions demo_template) 500000000000
      demo_commitment "" (tx world_authorized) = (Ok true, st') /\
    seed_hash st' = Some (keccak_256 (keccak_256 (repeat 0 32))).
Proof.
  split; [reflexivity|]. split; [|split].
  - apply (proj1 (proj2 (proj2 (seed_hash_by_epoch 7499 7500))));
      [lia|reflexivity].
  - apply (proj1 (proj2 (seed_hash_by_epoch 7500 14999))). reflexivity.
  - apply (proj2 (proj2 (proj2 (proj2 (seed_hash_by_epoch 15000 0))))
             0x30000000 demo_bits 1700000001 1700000001 demo_prev_hash
             (t_transactions demo_template) demo_collected 500000000000
             demo_commitment EmptyString [0] demo_address demo_decoded
             (tx world_authorized)).
    + reflexivity.
    + reflexivity.
    + reflexivity.
    + vm_compute. reflexivity.
    + vm_compute. reflexivity.
    + vm_compute. reflexivity.
    + lia.
    + intros x Hx. vm_compute in Hx. injection Hx as <-. lia.
    + lia.
    + lia.
    + reflexivity.
    + vm_compute. reflexivity.
    + lia.
    + vm_compute. reflexivity.
    + vm_compute. reflexivity.
Defined.

(** C1 as stated fails on the run: two transactions are held, the handler
    empties the list itself before it posts the block, the node accepts, and
    the handler returns with none held. *)
Lemma accepted_submit_drops_held_work :
  length (transactions (tx world_working)) = 2%nat /\
  transactions (snd (submit_prepare demo_share (tx world_working))) = [] /\
  fst (handle_submit accepting_node demo_share (tx world_working)) = Ok true /\
  transactions
    (snd (handle_submit accepting_node demo_share (tx world_working))) = [].
Proof. vm_compute. repeat split. Qed.

(** A turn of the synchronizer that runs while the post is awaited. *)
Definition turn_during_post (w : World) : World :=
  snd (query_loop_turn demo_template 1700000002 100 w).

Lemma accepted_submit_clears_and_locks_witness :
  wait_for_new_block
    (tx (snd (handle_submit_while accepting_node demo_share turn_during_post
                world_working))) = true /\
  length
    (transactions
       (tx (snd (handle_submit_while accepting_node demo_share
                   turn_during_post world_working)))) = 2%nat /\
  transactions
    (tx (snd (handle_submit_while accepting_node demo_share (fun w => w)
                world_working))) = [].
Proof.
  destruct (accepted_submit_clears_and_locks accepting_node demo_share
              turn_during_post world_working demo_block
              (snd (submit_prepare demo_share (tx world_working))))
    as (_ & _ & _ & Hw & Ht & _ & Hn).
  - vm_compute. reflexivity.
  - reflexivity.
  - reflexivity.
  - split; [exact Hw|]. split; [|exact Hn].
    rewrite Ht. vm_compute. reflexivity.
Defined.



(** C2 as stated fails on the run: with the accepted share pending, the
    rebuild check answers [True], and the turn that made the call sends two
    more notifications. *)
Lemma pending_update_answers_true_and_notifies :
  wait_for_new_block (tx world_submitted) = true /\
  fst (update_transactions true (t_version demo_template)
         (t_height demo_template) demo_bits 1700000002 demo_prev_hash
         (t_transactions demo_template) (t_coinbasevalue demo_template)
         demo_commitment (t_flags demo_template) (tx world_submitted))
    = Ok true /\
  length (outbox world_submitted) = 2%nat /\
  length (outbox (snd (query_loop_turn demo_template 1700000002 100
                         world_submitted))) = 4%nat.
Proof. vm_compute. repeat split. Qed.

Lemma pending_submission_answers_true_witness :
  update_transactions true (t_version demo_template)
    (t_height demo_template) demo_bits 1700000002 demo_prev_hash
    (t_transactions demo_template) (t_coinbasevalue demo_template)
    demo_commitment (t_flags demo_template) (tx world_submitted)
    = (Ok true, tx world_submitted) /\
  merkle (tx (snd (query_loop_turn demo_template 1700000002 100
                     world_submitted)))
    = merkle (tx world_submitted) /\
  map fst (outbox (snd (query_loop_turn demo_template 1700000002 100
                          world_submitted))) = [2; 2; 2; 2]%nat.
Proof.
  assert (Hw : wait_for_new_block (tx world_submitted) = true)
    by reflexivity.
  assert (Hb : Py.fromhex (t_bits demo_template) = Ok demo_bits)
    by reflexivity.
  assert (Hp : Py.fromhex (t_previousblockhash demo_template)
               = Ok demo_prev_hash) by (vm_compute; reflexivity).
  assert (Hc : Py.fromhex (t_default_witness_commitment demo_template)
               = Ok demo_commitment) by (vm_compute; reflexivity).
  assert (Ht : transport (tx world_submitted) = Some 2%nat) by reflexivity.
  destruct (header_hash (tx world_submitted)) as [hh|] eqn:Hh;
    [|discriminate Hh].
  destruct (seed_hash (tx world_submitted)) as [sh|] eqn:Hs;
    [|discriminate Hs].
  pose proof (pending_submission_answers_true demo_template 1700000002 100
                world_submitted demo_bits demo_prev_hash demo_commitment
                2%nat hh sh Hw Hb Hp Hc Ht Hh Hs) as H.
  destruct H as (Hu & Hturn & _ & Hm & _).
  split; [apply Hu|]. split; [exact Hm|].
  rewrite Hturn. reflexivity.
Defined.

(** C3 as stated fails on the run: the working state is consistent; after
    [clear_for_new_height] no transactions are held, and the Merkle root of
    the two transactions is still stored. *)
Lemma cleared_state_keeps_old_root :
  length (transactions (tx world_working)) = 2%nat /\
  transactions (snd (clear_for_new_height (tx world_working))) = [] /\
  merkle (snd (clear_for_new_height (tx world_working)))
    = merkle (tx world_working) /\
  option_map Py.hex (merkle (tx world_working)) =
    Some "5043a6abe1c7580067bc3adc3d3c14d22c2b97e392ae6eec2163303c35bebd94"%string /\
  (forall height incoming,
     ~ candidate_consistent height incoming
         (snd (clear_for_new_height (tx world_working)))).
Proof.
  split; [reflexivity|]. split; [reflexivity|]. split; [reflexivity|].
  split; [vm_compute; reflexivity|].
  intros h inc (cb & cbn & raws & ids & root & header & h4 & bf & af &
                _ & _ & _ & Ht & _).
  discriminate Ht.
Qed.

Lemma derived_fields_follow_rebuilds_witness :
  candidate_consistent 100 (t_transactions demo_template) (tx world_working) /\
  merkle (snd (handle_submit accepting_node demo_share (tx world_working)))
    = merkle (tx world_working).
Proof.
  destruct derived_fields_follow_rebuilds as (Hupdate & _ & Hsubmit).
  split.
  - apply (Hupdate true (t_version demo_template) 100 demo_bits 1700000001
             demo_prev_hash (t_transactions demo_template)
             (t_coinbasevalue demo_template) demo_commitment
             (t_flags demo_template) (tx world_authorized) true
             (tx world_working)).
    + reflexivity.
    + vm_compute. reflexivity.
    + reflexivity.
  - apply (Hsubmit accepting_node demo_share (tx world_working)
             (fst (handle_submit accepting_node demo_share (tx world_working)))
             (snd (handle_submit accepting_node demo_share
                     (tx world_working)))).
    now destruct (handle_submit accepting_node demo_share (tx world_working)).
Defined.

(** C5 as stated fails on the run: sessions 1 and 2 are connected, the turn
    builds a candidate, and both notifications go to session 2 alone; the
    target notification is sent and the clean-jobs flag is true although the
    turn ran at the height it had already seen. *)
Lemma first_session_is_not_notified :
  connected world_authorized = [1; 2]%nat /\
  outbox world_authorized = [] /\
  transactions (tx world_authorized) = [] /\
  fst (query_loop_turn demo_template 1700000001 (t_height demo_template)
         world_authorized) = Ok 100 /\
  length (transactions (tx world_working)) = 2%nat /\
  outbox world_working =
    [(2%nat, mining_set_target (t_target demo_template));
     (2%nat,
      mining_notify "0"
        "0da5071ac867105c5c5ab1f1d87676d6991acbee95dfc19fd729e215d04088c4"
        "0000000000000000000000000000000000000000000000000000000000000000"
        (t_target demo_template) true 100 "1e00ffff")].
Proof. vm_compute. repeat split. Qed.

Lemma new_candidate_is_sent_to_transport_witness :
  exists hh sh,
    header_hash (tx world_working) = Some hh /\
    seed_hash (tx world_working) = Some sh /\
    query_loop_turn demo_template 1700000001 100 world_authorized =
    (Ok 100,
     mkWorld (set_wait_for_new_block false (tx world_working))
             [1; 2]%nat
             [(2%nat, mining_set_target (t_target demo_template));
              (2%nat, mining_notify "0" (Py.hex hh) (Py.hex sh)
                        (t_target demo_template) true 100 "1e00ffff")]).
Proof.
  destruct (new_candidate_is_sent_to_transport demo_template 1700000001 100
              world_authorized demo_bits demo_prev_hash demo_commitment
              (tx world_working) 2%nat)
    as (hh & sh & Hh & Hs & Hturn & _).
  - reflexivity.
  - vm_compute. reflexivity.
  - vm_compute. reflexivity.
  - reflexivity.
  - vm_compute. reflexivity.
  - reflexivity.
  - exists hh, sh. split; [exact Hh|]. split; [exact Hs|].
    rewrite Hturn. reflexivity.
Defined.

End RunFacts.

(** * Further properties of the code *)

(** ** [var_int] and [op_push] as encodings *)

Lemma rev_le_digits_inj (n : nat) (i j : Z) :
  0 <= i < 256 ^ Z.of_nat n -> 0 <= j < 256 ^ Z.of_nat n ->
  rev (Py.le_digits n i) = rev (Py.le_digits n j) -> i = j.
Proof.
  intros Hi Hj H. apply (f_equal Py.from_be) in H.
  now rewrite !rev_le_digits_be in H by assumption.
Qed.

(** X1: [var_int] is defined exactly on the integers from 0 to [2^64 - 1]:
    the [assert] stops a negative one, [to_bytes] one that needs more than
    eight bytes; where it is defined the result has 1, 3, 5 or 9 bytes, by
    the thresholds [0xfd], [0xffff] and [0xffffffff]. *)
Theorem var_int_domain (i : Z) :
  (i < 0 -> var_int i = Raise AssertionError) /\
  (2 ^ 64 <= i -> var_int i = Raise OverflowError) /\
  (0 <= i < 2 ^ 64 ->
   exists b,
     var_int i = Ok b /\
     length b = if i <? 0xfd then 1%nat else if i <=? 0xffff then 3%nat
                else if i <=? 0xffffffff then 5%nat else 9%nat).
Proof.
  split; [|split].
  - intros H. unfold var_int.
    destruct (0 <=? i) eqn:E; [apply Z.leb_le in E; lia|reflexivity].
  - intros H. unfold var_int.
    destruct (0 <=? i) eqn:E0; [|apply Z.leb_gt in E0; lia]. cbn [negb].
    destruct (i <? 0xfd) eqn:E1; [apply Z.ltb_lt in E1; lia|].
    destruct (i <=? 0xffff) eqn:E2; [apply Z.leb_le in E2; lia|].
    destruct (i <=? 0xffffffff) eqn:E3; [apply Z.leb_le in E3; lia|].
    unfold Py.to_bytes.
    destruct (i <? 0) eqn:E4; [reflexivity|].
    destruct (256 ^ Z.of_nat 8 <=? i) eqn:E5; [reflexivity|].
    apply Z.leb_gt in E5. change (256 ^ Z.of_nat 8) with (2 ^ 64) in E5. lia.
  - intros H. rewrite (var_int_shape i H). eexists. split; [reflexivity|].
    destruct (i <? 0xfd); [reflexivity|].
    destruct (i <=? 0xffff); [reflexivity|].
    destruct (i <=? 0xffffffff); reflexivity.
Qed.

Lemma var_int_domain_witness :
  var_int (-1) = Raise AssertionError /\
  var_int (2 ^ 64) = Raise OverflowError /\
  exists b, var_int 300 = Ok b /\ length b = 3%nat.
Proof.
  split; [|split].
  - apply (proj1 (var_int_domain (-1))). lia.
  - apply (proj1 (proj2 (var_int_domain (2 ^ 64)))). lia.
  - apply (proj2 (proj2 (var_int_domain 300))). lia.
Defined.

(** X2: [var_int] never gives two counts the same bytes: a reader of the
    block can tell every transaction count from every other. *)
Theorem var_int_injective (i j : Z) :
  0 <= i < 2 ^ 64 -> 0 <= j < 2 ^ 64 -> var_int i = var_int j -> i = j.
Proof.
  intros Hi Hj H.
  rewrite (var_int_shape i Hi), (var_int_shape j Hj) in H.
  injection H as H.
  destruct (i <? 0xfd) eqn:I1; destruct (j <? 0xfd) eqn:J1;
    try (injection H; intros; subst; reflexivity);
    try (destruct (j <=? 0xffff); [|destruct (j <=? 0xffffffff)];
         discriminate H);
    try (destruct (i <=? 0xffff); [|destruct (i <=? 0xffffffff)];
         discriminate H).
  apply Z.ltb_ge in I1, J1.
  destruct (i <=? 0xffff) eqn:I2; destruct (j <=? 0xffff) eqn:J2;
    try (destruct (j <=? 0xffffffff); discriminate H);
    try (destruct (i <=? 0xffffffff); discriminate H).
  { apply Z.leb_le in I2, J2. apply (f_equal (@tl Z)) in H. cbn [tl] in H.
    apply (rev_le_digits_inj 2); try exact H;
      change (256 ^ Z.of_nat 2) with 65536; lia. }
  apply Z.leb_gt in I2, J2.
  destruct (i <=? 0xffffffff) eqn:I3; destruct (j <=? 0xffffffff) eqn:J3;
    try discriminate H.
  { apply Z.leb_le in I3, J3. apply (f_equal (@tl Z)) in H. cbn [tl] in H.
    apply (rev_le_digits_inj 4); try exact H;
      change (256 ^ Z.of_nat 4) with (2 ^ 32); lia. }
  apply (f_equal (@tl Z)) in H. cbn [tl] in H.
  apply (rev_le_digits_inj 8); try exact H;
    change (256 ^ Z.of_nat 8) with (2 ^ 64); lia.
Qed.

Lemma var_int_injective_witness : 0x10000 = 65000 + 536.
Proof.
  apply (var_int_injective 0x10000 (65000 + 536)); [lia|lia|reflexivity].
Defined.

(** X3: the multi-byte forms carry the count most significant byte first:
    for a count from 253 to 65535, [var_int] gives [0xfd], then the high
    byte, then the low byte. *)
Theorem var_int_two_byte_form (i : Z) :
  0xfd <= i <= 0xffff ->
  var_int i = Ok [0xfd; i / 256; i mod 256].
Proof.
  intros H. rewrite var_int_shape by lia.
  destruct (i <? 0xfd) eqn:E1; [apply Z.ltb_lt in E1; lia|].
  destruct (i <=? 0xffff) eqn:E2; [|apply Z.leb_gt in E2; lia].
  cbn [Py.le_digits rev app]. do 3 f_equal.
  rewrite Z.mod_small; [reflexivity|].
  split; [apply Z.div_pos; lia|apply Z.div_lt_upper_bound; lia].
Qed.

Lemma var_int_two_byte_form_witness :
  var_int 300 = Ok [0xfd; 1; 44].
Proof. exact (var_int_two_byte_form 300 ltac:(lia)). Defined.

(** X4: [op_push] never gives two lengths below [2^32] the same bytes. *)
Theorem op_push_injective (i j : Z) :
  0 <= i < 2 ^ 32 -> 0 <= j < 2 ^ 32 -> op_push i = op_push j -> i = j.
Proof.
  intros Hi Hj H.
  rewrite (op_push_shape i Hi), (op_push_shape j Hj) in H.
  injection H as H.
  destruct (i <? 0x4C) eqn:I1; destruct (j <? 0x4C) eqn:J1;
    try (injection H; intros; subst; reflexivity);
    try (destruct (j <=? 0xff); [|destruct (j <=? 0xffff)]; discriminate H);
    try (destruct (i <=? 0xff); [|destruct (i <=? 0xffff)]; discriminate H).
  destruct (i <=? 0xff) eqn:I2; destruct (j <=? 0xff) eqn:J2;
    try (injection H; intros; subst; reflexivity);
    try (destruct (j <=? 0xffff); discriminate H);
    try (destruct (i <=? 0xffff); discriminate H).
  apply Z.leb_gt in I2, J2.
  destruct (i <=? 0xffff) eqn:I3; destruct (j <=? 0xffff) eqn:J3;
    try discriminate H.
  { apply Z.leb_le in I3, J3. apply (f_equal (@tl Z)) in H. cbn [tl] in H.
    apply (rev_le_digits_inj 2); try exact H;
      change (256 ^ Z.of_nat 2) with 65536; lia. }
  apply (f_equal (@tl Z)) in H. cbn [tl] in H.
  apply (rev_le_digits_inj 4); try exact H;
    change (256 ^ Z.of_nat 4) with (2 ^ 32); lia.
Qed.

Lemma op_push_injective_witness : 0x100 = 200 + 56.
Proof.
  apply (op_push_injective 0x100 (200 + 56)); [lia|lia|reflexivity].
Defined.

(** ** The coinbase transaction *)

Section CoinbaseFacts.
Context {crypto : Crypto}.

(** The part both serializations share: the input count and input, the
    output count and outputs. *)
Definition coinbase_body (txin outs : bytes) : bytes :=
  [0x01] ++ txin ++ [0x02] ++ outs.

(** X5: [build_coinbase_transaction] either raises and assigns nothing, or
    assigns both [coinbase] and [coinbase_no_wit] and nothing else. The two
    then hold the same version, input, outputs and lock time; [coinbase] has
    in addition the marker and flag [00 01] after the version and, before
    the lock time, a witness of one item of 32 zero bytes, so it is 36 bytes
    longer. *)
Theorem build_coinbase_all_or_nothing height flags address my_sats commitment
    st r st' :
  build_coinbase_transaction height flags address my_sats commitment st
    = (r, st') ->
  (exists e, r = Raise e /\ st' = st) \/
  (r = Ok tt /\
   exists txin v1 outs,
     coinbase_txin height flags = Ok txin /\
     vout1 address = Ok v1 /\
     outputs my_sats v1 commitment = Ok outs /\
     st' = set_coinbase_no_wit
             (Some ([1; 0; 0; 0] ++ coinbase_body txin outs ++ [0; 0; 0; 0]))
             (set_coinbase
                (Some ([1; 0; 0; 0] ++ [0x00; 0x01] ++ coinbase_body txin outs
                       ++ [0x01; 0x20] ++ repeat 0 32 ++ [0; 0; 0; 0]))
                st) /\
     (forall cb cbn, coinbase st' = Some cb -> coinbase_no_wit st' = Some cbn ->
                     length cb = (length cbn + 36)%nat)).
Proof.
  unfold build_coinbase_transaction, bind, lift, write.
  destruct (coinbase_txin height flags) as [txin|e] eqn:Etxin;
    [|intros H; inversion H; left; now exists e].
  destruct (vout1 address) as [v1|e] eqn:Ev1;
    [|intros H; inversion H; left; now exists e].
  change (Py.to_bytes 1 4 Py.little) with (Ok [1; 0; 0; 0]).
  destruct (outputs my_sats v1 commitment) as [outs|e] eqn:Eouts;
    [|intros H; inversion H; left; now exists e].
  intros H. inversion H; subst; clear H. right. split; [reflexivity|].
  exists txin, v1, outs.
  split; [reflexivity|]. split; [reflexivity|]. split; [exact Eouts|].
  split.
  - unfold coinbase_body, Py.zeros. cbn [repeat app].
    now rewrite <- !app_assoc.
  - intros cb cbn Hcb Hcbn. cbn in Hcb, Hcbn.
    inversion Hcb; inversion Hcbn; subst.
    cbn [length]. rewrite !length_app. cbn [length]. rewrite !length_app.
    cbn [length Py.zeros repeat]. lia.
Qed.

(** X6: in the coinbase input the byte string written in front of the script
    is [var_int] of the script's length, and the script is the pushed
    height, then the flags (or one zero byte), then the proxy's tag of 77
    bytes; the input starts with 32 zero bytes and [ff ff ff ff] and ends
    with [ff ff ff ff]. *)
Theorem coinbase_script_length_prefix height flags txin :
  coinbase_txin height flags = Ok txin ->
  exists n script hp fl,
    height_push height = Ok hp /\
    (if Py.str_truthy flags then Py.fromhex flags else Ok [0]) = Ok fl /\
    script = hp ++ fl ++ arbitrary_data /\
    length arbitrary_data = 77%nat /\
    var_int (Py.len script) = Ok n /\
    txin = repeat 0 32 ++ [0xff; 0xff; 0xff; 0xff] ++ n ++ script
                       ++ [0xff; 0xff; 0xff; 0xff].
Proof.
  unfold coinbase_txin, bip34_height. intros H.
  destruct (height_push height) as [hp|e]; [|discriminate H].
  cbn [rbind] in H.
  destruct (if Py.str_truthy flags then Py.fromhex flags else Ok [0])
    as [fl|e]; [|discriminate H].
  cbn [rbind] in H.
  destruct (var_int (Py.len (hp ++ fl) + Py.len arbitrary_data)) as [n|e] eqn:E;
    [|discriminate H].
  cbn [rbind] in H. inversion H; subst; clear H.
  exists n, (hp ++ fl ++ arbitrary_data), hp, fl.
  repeat split.
  - rewrite <- E. f_equal. unfold Py.len.
    rewrite app_assoc, (length_app (hp ++ fl)). lia.
  - unfold Py.zeros, ffffffff. now rewrite <- !app_assoc.
Qed.

End CoinbaseFacts.

Section CoinbaseRun.
#[local] Existing Instance reference_crypto.

(** The coinbase input of the run's template: height 100, no flags. *)
Definition demo_txin : bytes :=
  Eval vm_compute in
    match coinbase_txin 100 "" with
    | Ok b => b
    | Raise _ => []
    end.

Lemma build_coinbase_all_or_nothing_witness :
  fst (build_coinbase_transaction 100 "" demo_address 500000000000
         demo_commitment initial_state) = Ok tt /\
  exists cb cbn,
    coinbase (snd (build_coinbase_transaction 100 "" demo_address 500000000000
                     demo_commitment initial_state)) = Some cb /\
    coinbase_no_wit (snd (build_coinbase_transaction 100 "" demo_address
                            500000000000 demo_commitment initial_state))
      = Some cbn /\
    length cb = (length cbn + 36)%nat.
Proof.
  destruct (build_coinbase_all_or_nothing 100 "" demo_address 500000000000
              demo_commitment initial_state _ _ (surjective_pairing _))
    as [(e & He & _) | (Hr & txin & v1 & outs & _ & _ & _ & Hst & Hlen)].
  - vm_compute in He. discriminate He.
  - split; [exact Hr|]. rewrite Hst.
    eexists. eexists. split; [reflexivity|]. split; [reflexivity|].
    apply Hlen; rewrite Hst; reflexivity.
Defined.

Lemma coinbase_script_length_prefix_witness :
  exists n script hp fl,
    height_push 100 = Ok hp /\
    (if Py.str_truthy "" then Py.fromhex "" else Ok [0]) = Ok fl /\
    script = hp ++ fl ++ arbitrary_data /\ length arbitrary_data = 77%nat /\
    var_int (Py.len script) = Ok n /\
    demo_txin = repeat 0 32 ++ [0xff;0xff;0xff;0xff] ++ n ++ script
                ++ [0xff;0xff;0xff;0xff].
Proof.
  apply (coinbase_script_length_prefix 100 "" demo_txin).
  vm_compute. reflexivity.
Defined.

End CoinbaseRun.

(** ** Attributes a computation never assigns *)

(** [keeps f m]: whatever [m] returns or raises, it leaves [f] of the object
    as it found it. *)
Definition keeps {S A B} (f : S -> B) (m : M S A) : Prop :=
  forall s r s', m s = (r, s') -> f s' = f s.

Section KeepsFacts.
Context {S B : Type} (f : S -> B).

Lemma keeps_bind {A C} (m : M S A) (k : A -> M S C) :
  keeps f m -> (forall a, keeps f (k a)) -> keeps f (bind m k).
Proof.
  intros Hm Hk s r s'. unfold bind.
  destruct (m s) as [[a|e] s1] eqn:E; intros H.
  - rewrite (Hk a _ _ _ H). exact (Hm _ _ _ E).
  - inversion H; subst. exact (Hm _ _ _ E).
Qed.

Lemma keeps_ret {A} (a : A) : keeps f (ret a).
Proof. intros s r s' H. now inversion H. Qed.

Lemma keeps_throw {A} (e : exn) : keeps f (@throw S A e).
Proof. intros s r s' H. now inversion H. Qed.

Lemma keeps_lift {A} (x : result A) : keeps f (lift x).
Proof. intros s r s' H. now inversion H. Qed.

Lemma keeps_read {A} (g : S -> A) : keeps f (read g).
Proof. intros s r s' H. now inversion H. Qed.

Lemma keeps_need {A} (e : exn) (o : option A) : keeps f (need e o).
Proof. destruct o; [apply keeps_ret|apply keeps_throw]. Qed.

Lemma keeps_write (g : S -> S) :
  (forall s, f (g s) = f s) -> keeps f (write g).
Proof. intros Hg s r s' H. inversion H. apply Hg. Qed.

End KeepsFacts.

(** Decompose a computation into its statements. *)
Ltac keeps_steps :=
  repeat
    first
      [ (apply keeps_bind; [|intros])
      | apply keeps_ret | apply keeps_throw | apply keeps_lift
      | apply keeps_read | apply keeps_need
      | (apply keeps_write; intros; reflexivity)
      | match goal with
        | |- keeps _ (if ?c then _ else _) => destruct c
        | |- keeps _ (match ?x with _ => _ end) => destruct x
        | |- keeps _ (let _ := _ in _) => cbv zeta
        end ].

Section UpdateKeeps.
Context {crypto : Crypto} {B : Type} (f : TransactionState -> B).

Lemma hold_on_keeps (ts : Z) :
  (forall v s, f (set_last_ts v s) = f s) -> keeps f (hold_on ts).
Proof. intros H. unfold hold_on. keeps_steps; apply keeps_write; auto. Qed.

Lemma build_coinbase_keeps height flags address my_sats commitment :
  (forall v s, f (set_coinbase v s) = f s) ->
  (forall v s, f (set_coinbase_no_wit v s) = f s) ->
  keeps f (build_coinbase_transaction height flags address my_sats commitment).
Proof.
  intros H1 H2. unfold build_coinbase_transaction.
  keeps_steps; apply keeps_write; auto.
Qed.

Lemma recalculate_keeps version height bits prev_hash incoming :
  (forall v s, f (set_transactions v s) = f s) ->
  (forall v s, f (set_merkle v s) = f s) ->
  (forall v s, f (set_partial_header v s) = f s) ->
  (forall v s, f (set_header_hash v s) = f s) ->
  (forall v s, f (set_seed_hash v s) = f s) ->
  keeps f (recalculate version height bits prev_hash incoming).
Proof.
  intros H1 H2 H3 H4 H5. unfold recalculate.
  keeps_steps; apply keeps_write; auto.
Qed.

Lemma update_transactions_keeps
    new_height version height bits ts prev_hash incoming my_sats commitment
    flags :
  (forall v s, f (set_last_ts v s) = f s) ->
  (forall v s, f (set_update_counter v s) = f s) ->
  (forall v s, f (set_coinbase v s) = f s) ->
  (forall v s, f (set_coinbase_no_wit v s) = f s) ->
  (forall v s, f (set_transactions v s) = f s) ->
  (forall v s, f (set_merkle v s) = f s) ->
  (forall v s, f (set_partial_header v s) = f s) ->
  (forall v s, f (set_header_hash v s) = f s) ->
  (forall v s, f (set_seed_hash v s) = f s) ->
  keeps f (update_transactions new_height version height bits ts prev_hash
             incoming my_sats commitment flags).
Proof.
  intros H1 H2 H3 H4 H5 H6 H7 H8 H9. unfold update_transactions.
  repeat
    first
      [ (apply keeps_bind; [|intros])
      | apply keeps_ret | apply keeps_lift | apply keeps_read
      | apply keeps_need
      | (apply hold_on_keeps; now auto)
      | (apply build_coinbase_keeps; now auto)
      | (apply recalculate_keeps; now auto)
      | (apply keeps_write; now auto)
      | match goal with
        | |- keeps _ (if ?c then _ else _) => destruct c
        end ].
Qed.

End UpdateKeeps.

(** ** [mining.authorize] *)

Lemma before_dot_app (a w : string) :
  before_dot (a ++ String "." w) = before_dot a.
Proof.
  induction a as [|c a IH]; cbn [String.append before_dot].
  - reflexivity.
  - destruct (Ascii.eqb c "."); [reflexivity|]. now rewrite IH.
Qed.

Section AuthorizeFacts.
Context {crypto : Crypto}.

(** X7: [mining.authorize] either returns [True], and then it has stored, as
    the only assignment, the text before the first dot of its first argument,
    which decodes to a payload whose first byte is the version (60, or 111 on
    testnet); or it raises and assigns nothing. *)
Theorem authorize_stores_address_or_nothing (testnet : bool)
    (args : list string) (st : TransactionState) (r : result bool)
    (st' : TransactionState) :
  authorize_handler testnet args st = (r, st') ->
  (r = Ok true /\
   exists first rest payload,
     args = first :: rest /\
     b58decode_check (before_dot first)
       = Ok ((if testnet then 111 else 60) :: payload) /\
     st' = set_my_address (Some (before_dot first)) st)
  \/ (exists e, r = Raise e /\ st' = st).
Proof.
  unfold authorize_handler, bind, lift, throw, write, ret.
  destruct args as [|first rest]; cbn [Py.first_item].
  { intros H; inversion H. right. now eexists. }
  destruct (b58decode_check (before_dot first)) as [decoded|e] eqn:Ed.
  - destruct decoded as [|version payload]; cbn [Py.first_item].
    { intros H; inversion H. right. now eexists. }
    destruct (version =? (if testnet then 111 else 60)) eqn:Ev;
      cbn [negb]; intros H; inversion H; subst.
    + left. split; [reflexivity|].
      apply Z.eqb_eq in Ev. subst version.
      exists first, rest, payload. repeat split. exact Ed.
    + right. now eexists.
  - destruct e; intros H; inversion H; right; now eexists.
Qed.

(** X8: [mining.authorize] reads nothing but the text before the first dot
    of its first argument: the worker name after the dot, the password and
    any further argument change neither the answer nor what is stored. *)
Theorem authorize_ignores_worker_and_password (testnet : bool)
    (first worker : string) (rest : list string) (st : TransactionState) :
  authorize_handler testnet ((first ++ String "." worker)%string :: rest) st
  = authorize_handler testnet [first] st.
Proof.
  unfold authorize_handler, bind, lift. cbn [Py.first_item].
  now rewrite before_dot_app.
Qed.

(** X9: an address that passes the checksum with an empty payload makes
    [mining.authorize] raise [IndexError], not an error of the protocol:
    the handler catches [ValueError] only. *)
Theorem authorize_empty_payload_raises (testnet : bool) (first : string)
    (rest : list string) (st : TransactionState) :
  b58decode_check (before_dot first) = Ok [] ->
  authorize_handler testnet (first :: rest) st = (Raise IndexError, st).
Proof.
  intros H. unfold authorize_handler, bind, lift. cbn [Py.first_item].
  now rewrite H.
Qed.

(** X10: the payload's length is never checked. Whatever its length, an
    address whose payload starts with the version byte is authorized, and
    the output script built for it is [76 a9 14], the rest of the payload,
    [88 ac]: the push length written is always [0x14], as for 20 bytes. *)
Theorem payload_length_is_not_checked (testnet : bool) (first : string)
    (rest : list string) (payload : bytes) (st : TransactionState) :
  b58decode_check (before_dot first)
    = Ok ((if testnet then 111 else 60) :: payload) ->
  authorize_handler testnet (first :: rest) st
    = (Ok true, set_my_address (Some (before_dot first)) st) /\
  vout1 (before_dot first)
    = Ok ([0x76; 0xa9; 0x14] ++ payload ++ [0x88; 0xac]) /\
  length ([0x76; 0xa9; 0x14] ++ payload ++ [0x88; 0xac])
    = (length payload + 5)%nat.
Proof.
  intros H. split; [|split].
  - unfold authorize_handler, bind, lift, write, ret. cbn [Py.first_item].
    rewrite H. cbn [Py.first_item]. now rewrite Z.eqb_refl.
  - unfold vout1. now rewrite H.
  - cbn [app length]. rewrite length_app. cbn [length]. lia.
Qed.

End AuthorizeFacts.

Section AuthorizeRun.
#[local] Existing Instance reference_crypto.

Lemma authorize_stores_address_or_nothing_witness :
  fst (authorize_handler false [demo_user; "x"%string] initial_state) = Ok true /\
  snd (authorize_handler false [demo_user; "x"%string] initial_state)
  = set_my_address (Some demo_address) initial_state.
Proof.
  destruct (authorize_stores_address_or_nothing false
              [demo_user; "x"%string] initial_state _ _
              (surjective_pairing _))
    as [(Hr & first & rest & payload & Ha & _ & Hst) | (e & He & _)].
  - split; [exact Hr|]. rewrite Hst.
    injection Ha as <- _. reflexivity.
  - vm_compute in He. discriminate He.
Defined.

Lemma authorize_empty_payload_raises_witness :
  authorize_handler false ["3QJmnh.rig"%string; "x"%string] initial_state
  = (Raise IndexError, initial_state).
Proof.
  apply (authorize_empty_payload_raises false "3QJmnh.rig"
           ["x"%string] initial_state).
  vm_compute. reflexivity.
Defined.

Lemma payload_length_is_not_checked_witness :
  authorize_handler false ["B37aKSgTNSh.rig"%string; "x"%string] initial_state
    = (Ok true, set_my_address (Some "B37aKSgTNSh"%string) initial_state) /\
  vout1 "B37aKSgTNSh" = Ok ([0x76; 0xa9; 0x14] ++ [1; 2; 3] ++ [0x88; 0xac]) /\
  length ([0x76; 0xa9; 0x14] ++ [1; 2; 3] ++ [0x88; 0xac]) = (3 + 5)%nat.
Proof.
  apply (payload_length_is_not_checked false "B37aKSgTNSh.rig" ["x"%string]
           [1; 2; 3] initial_state).
  vm_compute. reflexivity.
Defined.

End AuthorizeRun.


Section UpdateFacts.
Context {crypto : Crypto}.

Lemma collect_length (incoming : list tx_data) (raws ids : list bytes) :
  collect incoming = Ok (raws, ids) ->
  length raws = length incoming /\ length ids = length incoming.
Proof.
  revert raws ids. induction incoming as [|t rest IH]; intros raws ids H.
  - cbn in H. inversion H. now split.
  - cbn [collect rbind] in H.
    destruct (Py.fromhex (data t)) as [raw|]; [|discriminate].
    destruct (Py.fromhex (txid t)) as [id|]; [|discriminate].
    destruct (collect rest) as [[raws' ids']|]; [|discriminate].
    cbn [rbind fst snd] in H. inversion H; subst.
    destruct (IH raws' ids' eq_refl) as [Hr Hi].
    cbn [length]. now rewrite Hr, Hi.
Qed.

(** X11: whatever it answers or raises, [update_transactions] never assigns
    the session, the miner's address or the guard of a pending
    submission. *)
Theorem update_transactions_leaves_session_address_guard
    new_height version height bits ts prev_hash incoming my_sats commitment
    flags st :
  transport (snd (update_transactions new_height version height bits ts
                    prev_hash incoming my_sats commitment flags st))
    = transport st /\
  my_address (snd (update_transactions new_height version height bits ts
                     prev_hash incoming my_sats commitment flags st))
    = my_address st /\
  wait_for_new_block (snd (update_transactions new_height version height bits
                             ts prev_hash incoming my_sats commitment flags
                             st))
    = wait_for_new_block st.
Proof.
  repeat split;
    (eapply update_transactions_keeps;
     [reflexivity .. | apply surjective_pairing]).
Qed.

(** X12: while no miner has authorized (no address, or an empty one),
    [update_transactions] with no submission pending never answers [True]:
    it answers [False], or raises what the time stamp's string indexing
    raised; it builds no coinbase and leaves the held work as it was. *)
Theorem update_without_address_builds_nothing
    new_height version height bits ts prev_hash incoming my_sats commitment
    flags st r st' :
  wait_for_new_block st = false ->
  address_truthy (my_address st) = false ->
  update_transactions new_height version height bits ts prev_hash incoming
    my_sats commitment flags st = (r, st') ->
  (r = Ok false \/ exists e, r = Raise e /\ lock_in ts = Raise e /\ st' = st)
  /\ coinbase st' = coinbase st /\ coinbase_no_wit st' = coinbase_no_wit st
  /\ same_work st st'.
Proof.
  intros Hw Ha H.
  destruct (lock_in ts) as [t|e] eqn:Hl.
  - rewrite (update_no_address _ _ _ _ _ _ _ _ _ _ _ _ Hw Hl Ha) in H.
    inversion H; subst.
    destruct (counted_fields t st) as (Hc & Hn & _ & Hs).
    repeat split; auto; apply Hs.
  - unfold update_transactions, bind, read, lift in H.
    rewrite Hw, Hl in H. inversion H; subst.
    split; [right; now exists e|]. repeat split.
Qed.

(** X13: staleness is judged by count alone. With an address set, no
    submission pending, the height not new and the counter not due, a
    template with as many transactions as are held besides the coinbase is
    answered [False], whatever its transactions, previous hash, bits,
    version, value or commitment are: only the time stamp and the counter
    move. *)
Theorem same_count_is_answered_false
    version height bits ts prev_hash incoming my_sats commitment flags st t a :
  wait_for_new_block st = false ->
  lock_in ts = Ok t ->
  my_address st = Some a ->
  Py.str_truthy a = true ->
  update_counter st + 1 < update_coinbase_every ->
  Py.len (transactions st) = Py.len incoming + 1 ->
  update_transactions false version height bits ts prev_hash incoming
    my_sats commitment flags st = (Ok false, counted t st) /\
  coinbase (counted t st) = coinbase st /\
  update_counter (counted t st) = update_counter st + 1 /\
  same_work st (counted t st).
Proof.
  intros Hw Hl Ha Ht Hc Hn.
  rewrite (update_with_address _ _ _ _ _ _ _ _ _ _ _ _ _ Hw Hl Ha Ht).
  cbn [orb].
  destruct (update_coinbase_every <=? update_counter st + 1) eqn:E;
    [apply Z.leb_le in E; lia|].
  rewrite Hn, Z.eqb_refl. cbn [negb].
  destruct (counted_fields t st) as (H1 & _ & H3 & H4). auto.
Qed.

(** X14: with an address set and no submission pending, the counter after
    the call is zero when the height is new or the counter was due (6000
    calls), and one more than before otherwise, also when the call raises
    later on: so it stays below 6000. *)
Theorem update_counter_after_call
    new_height version height bits ts prev_hash incoming my_sats commitment
    flags st t a :
  wait_for_new_block st = false ->
  lock_in ts = Ok t ->
  my_address st = Some a ->
  Py.str_truthy a = true ->
  update_counter
    (snd (update_transactions new_height version height bits ts prev_hash
            incoming my_sats commitment flags st))
  = (if new_height || (update_coinbase_every <=? update_counter st + 1)
     then 0 else update_counter st + 1) /\
  update_counter
    (snd (update_transactions new_height version height bits ts prev_hash
            incoming my_sats commitment flags st)) < update_coinbase_every.
Proof.
  intros Hw Hl Ha Ht.
  assert (Hb : forall s,
    update_counter
      (snd (bind (build_coinbase_transaction height flags a my_sats commitment)
              (fun _ => bind (recalculate version height bits prev_hash
                                incoming) (fun _ => ret true)) s))
    = update_counter s).
  { intros s. eapply (keeps_bind update_counter); [| |apply surjective_pairing].
    - apply build_coinbase_keeps; reflexivity.
    - intros u. apply keeps_bind; [|intros; apply keeps_ret].
      apply recalculate_keeps; reflexivity. }
  assert (Hr : forall s,
    update_counter
      (snd (bind (recalculate version height bits prev_hash incoming)
              (fun _ => ret true) s))
    = update_counter s).
  { intros s. eapply (keeps_bind update_counter); [| |apply surjective_pairing].
    - apply recalculate_keeps; reflexivity.
    - intros; apply keeps_ret. }
  rewrite (update_with_address _ _ _ _ _ _ _ _ _ _ _ _ _ Hw Hl Ha Ht).
  destruct (counted_fields t st) as (_ & _ & H3 & _).
  destruct (new_height || (update_coinbase_every <=? update_counter st + 1))
    eqn:E.
  - rewrite Hb. cbn [update_counter set_update_counter].
    split; [reflexivity|]. unfold update_coinbase_every. lia.
  - apply orb_false_elim in E. destruct E as [_ E]. apply Z.leb_gt in E.
    destruct (negb (Py.len (transactions st) =? Py.len incoming + 1)).
    + rewrite Hr, H3. split; [reflexivity|assumption].
    + cbn [snd]. rewrite H3. split; [reflexivity|assumption].
Qed.

(** X15: a rebuild at a new height settles: the next call with a template
    of as many transactions, the height not new, answers [False] and
    changes nothing of the candidate, whatever else the template holds. *)
Theorem rebuild_then_same_count_is_quiet
    version height bits ts prev_hash incoming my_sats commitment flags st st'
    version2 height2 bits2 ts2 t2 prev_hash2 incoming2 my_sats2 commitment2
    flags2 :
  wait_for_new_block st = false ->
  update_transactions true version height bits ts prev_hash incoming
    my_sats commitment flags st = (Ok true, st') ->
  lock_in ts2 = Ok t2 ->
  length incoming2 = length incoming ->
  update_transactions false version2 height2 bits2 ts2 prev_hash2 incoming2
    my_sats2 commitment2 flags2 st' = (Ok false, counted t2 st') /\
  coinbase (counted t2 st') = coinbase st' /\
  same_work st' (counted t2 st').
Proof.
  intros Hw H Hl2 Hlen.
  destruct (lock_in ts) as [t|e] eqn:Hl.
  2:{ unfold update_transactions, bind, read, lift in H.
      rewrite Hw, Hl in H. discriminate H. }
  destruct (address_truthy (my_address st)) eqn:Ha.
  2:{ rewrite (update_no_address _ _ _ _ _ _ _ _ _ _ _ _ Hw Hl Ha) in H.
      discriminate H. }
  destruct (my_address st) as [a|] eqn:Em; [|discriminate Ha].
  cbn [address_truthy] in Ha.
  rewrite (update_with_address _ _ _ _ _ _ _ _ _ _ _ _ _ Hw Hl Em Ha) in H.
  cbn [orb] in H.
  apply bind_ok in H. destruct H as ([] & s2 & Eb & H).
  apply bind_ok in H. destruct H as ([] & s3 & Er & H).
  unfold ret in H. inversion H; subst s3; clear H.
  destruct (counted_fields t st) as (_ & _ & _ & Hs).
  assert (Hs0 : my_address (set_update_counter 0 (counted t st)) = Some a /\
                wait_for_new_block (set_update_counter 0 (counted t st))
                  = false).
  { destruct Hs as (_ & _ & Hm & _ & _ & _ & _ & Hww).
    cbn [my_address wait_for_new_block set_update_counter].
    split; congruence. }
  destruct Hs0 as [Hm0 Hw0].
  assert (Hm2 : my_address s2 = Some a).
  { rewrite <- Hm0.
    eapply (build_coinbase_keeps my_address); [reflexivity..|exact Eb]. }
  assert (Hw2 : wait_for_new_block s2 = false).
  { rewrite <- Hw0.
    eapply (build_coinbase_keeps wait_for_new_block); [reflexivity..|exact Eb]. }
  assert (Hc2 : update_counter s2 = 0).
  { change 0 with (update_counter (set_update_counter 0 (counted t st))).
    eapply (build_coinbase_keeps update_counter); [reflexivity..|exact Eb]. }
  assert (Hm3 : my_address st' = Some a).
  { rewrite <- Hm2.
    eapply (recalculate_keeps my_address); [reflexivity..|exact Er]. }
  assert (Hw3 : wait_for_new_block st' = false).
  { rewrite <- Hw2.
    eapply (recalculate_keeps wait_for_new_block); [reflexivity..|exact Er]. }
  assert (Hc3 : update_counter st' = 0).
  { rewrite <- Hc2.
    eapply (recalculate_keeps update_counter); [reflexivity..|exact Er]. }
  assert (Hn : Py.len (transactions st') = Py.len incoming2 + 1).
  { apply recalculate_ok in Er.
    destruct Er as (cb & cbn & raws & ids & held & h4 & t4 & v4 &
                    _ & _ & Hcol & _ & _ & _ & _ & ->).
    apply collect_length in Hcol. destruct Hcol as [Hraws _].
    unfold recalculated, Py.len.
    cbn [transactions set_seed_hash set_header_hash set_partial_header
         set_merkle set_transactions length].
    rewrite Hraws, Hlen. lia. }
  rewrite (update_with_address _ _ _ _ _ _ _ _ _ _ _ _ _ Hw3 Hl2 Hm3 Ha).
  cbn [orb]. rewrite Hc3.
  change (update_coinbase_every <=? 0 + 1) with false.
  rewrite Hn, Z.eqb_refl. cbn [negb].
  destruct (counted_fields t2 st') as (H1 & _ & _ & H4). auto.
Qed.

(** X16: a template without transactions gives a candidate of the coinbase
    alone, and the stored Merkle root is then the coinbase's id itself, the
    double hash of the serialization without witness: nothing is paired. *)
Theorem rebuild_of_empty_template
    new_height version height bits ts prev_hash my_sats commitment flags
    st st' :
  wait_for_new_block st = false ->
  update_transactions new_height version height bits ts prev_hash []
    my_sats commitment flags st = (Ok true, st') ->
  exists cb cb_no_wit,
    coinbase st' = Some cb /\ coinbase_no_wit st' = Some cb_no_wit /\
    transactions st' = [cb] /\ merkle st' = Some (dsha256 cb_no_wit).
Proof.
  intros Hw H.
  destruct (update_unlocked _ _ _ _ _ _ _ _ _ _ _ _ _ Hw H)
    as (st1 & _ & [(_ & _ & Hr) | (Hb & _)]); [|discriminate].
  apply recalculate_ok in Hr.
  destruct Hr as (cb & cbn & raws & ids & held & h4 & t4 & v4 &
                  Hc & Hn & Hcol & _ & _ & _ & _ & ->).
  cbn in Hcol. inversion Hcol; subst.
  exists cb, cbn. repeat split; assumption.
Qed.

End UpdateFacts.

Section TemplateFacts.
Context {crypto : Crypto}.

(** X17: the loop over the template's transactions keeps their number and
    their order: it returns exactly when every [data] and every [txid] is
    hex, and then the raw transactions are the decoded [data] and the ids
    the decoded [txid], byte-reversed, each at its transaction's place. *)
Theorem collect_in_template_order (incoming : list tx_data)
    (raws ids : list bytes) :
  collect incoming = Ok (raws, ids) <->
  Forall2 (fun t raw => Py.fromhex (data t) = Ok raw) incoming raws /\
  Forall2 (fun t id => exists b, Py.fromhex (txid t) = Ok b /\ id = rev b)
    incoming ids.
Proof.
  revert raws ids. induction incoming as [|t rest IH]; intros raws ids.
  - cbn [collect]. split.
    + intros H. inversion H. split; constructor.
    + intros [H1 H2]. inversion H1. inversion H2. reflexivity.
  - cbn [collect rbind]. split.
    + intros H.
      destruct (Py.fromhex (data t)) as [raw|] eqn:Er; [|discriminate].
      destruct (Py.fromhex (txid t)) as [id|] eqn:Ei; [|discriminate].
      destruct (collect rest) as [[raws' ids']|] eqn:Ec; [|discriminate].
      cbn [rbind fst snd] in H. inversion H; subst.
      destruct (proj1 (IH raws' ids') eq_refl) as [H1 H2].
      split; constructor; try assumption. now exists id.
    + intros [H1 H2]. inversion H1 as [|? raw ? raws' Hr Hrs]; subst.
      inversion H2 as [|? id ? ids' (b & Hb & ->) His]; subst.
      rewrite Hr, Hb. cbn [rbind].
      rewrite (proj2 (IH raws' ids') (conj Hrs His)). reflexivity.
Qed.

Lemma recalculate_collect_raises version height bits prev_hash incoming e st :
  collect incoming = Raise e ->
  exists e', recalculate version height bits prev_hash incoming st
             = (Raise e', st).
Proof.
  intros Hc. unfold recalculate, bind, read, need, lift, ret, throw.
  destruct (coinbase st); [|now eexists].
  destruct (coinbase_no_wit st); [|now eexists].
  rewrite Hc. now eexists.
Qed.

(** X18: a template with a transaction that is not hex is never adopted:
    with no submission pending, [update_transactions] does not answer
    [True] for it, and the held transactions, Merkle root, header and
    hashes stay as they were, also when the coinbase had been built again
    before the error. *)
Theorem malformed_template_keeps_candidate
    new_height version height bits ts prev_hash incoming my_sats commitment
    flags st e r st' :
  wait_for_new_block st = false ->
  collect incoming = Raise e ->
  update_transactions new_height version height bits ts prev_hash incoming
    my_sats commitment flags st = (r, st') ->
  r <> Ok true /\ same_work st st'.
Proof.
  intros Hw Hc H.
  destruct (lock_in ts) as [t|e0] eqn:Hl.
  2:{ unfold update_transactions, bind, read, lift in H.
      rewrite Hw, Hl in H. inversion H; subst.
      split; [discriminate|apply same_work_refl]. }
  destruct (counted_fields t st) as (_ & _ & _ & Hs).
  destruct (address_truthy (my_address st)) eqn:Ha.
  2:{ rewrite (update_no_address _ _ _ _ _ _ _ _ _ _ _ _ Hw Hl Ha) in H.
      inversion H; subst. split; [discriminate|exact Hs]. }
  destruct (my_address st) as [a|] eqn:Em; [|discriminate Ha].
  cbn [address_truthy] in Ha.
  rewrite (update_with_address _ _ _ _ _ _ _ _ _ _ _ _ _ Hw Hl Em Ha) in H.
  assert (Hrec : forall s r0 s0,
            bind (recalculate version height bits prev_hash incoming)
              (fun _ => ret true) s = (r0, s0) ->
            r0 <> Ok true /\ s0 = s).
  { intros s r0 s0 Hb. unfold bind in Hb.
    destruct (recalculate_collect_raises version height bits prev_hash
                incoming e s Hc) as (e' & He').
    rewrite He' in Hb. inversion Hb; subst. split; [discriminate|reflexivity]. }
  destruct (new_height || (update_coinbase_every <=? update_counter st + 1)).
  - unfold bind at 1 in H.
    destruct (build_coinbase_transaction height flags a my_sats commitment
                (set_update_counter 0 (counted t st)))
      as [[[]|e1] s2] eqn:Eb.
    + apply build_coinbase_same_work in Eb.
      destruct (Hrec _ _ _ H) as [Hr ->]. split; [exact Hr|].
      eapply same_work_trans; [exact Hs|].
      eapply same_work_trans; [apply set_update_counter_same_work|exact Eb].
    + apply build_coinbase_same_work in Eb.
      inversion H; subst. split; [discriminate|].
      eapply same_work_trans; [exact Hs|].
      eapply same_work_trans; [apply set_update_counter_same_work|exact Eb].
  - destruct (negb (Py.len (transactions st) =? Py.len incoming + 1)).
    + destruct (Hrec _ _ _ H) as [Hr ->]. split; [exact Hr|exact Hs].
    + inversion H; subst. split; [discriminate|exact Hs].
Qed.

(** X19: emptying the held transactions does trigger the rebuild: with an
    address set and no submission pending, [update_transactions] on an
    empty list never answers [False]; it answers [True] with a candidate
    consistent with the template, or it raises. *)
Theorem emptied_list_forces_rebuild
    new_height version height bits ts prev_hash incoming my_sats commitment
    flags st r st' :
  wait_for_new_block st = false ->
  address_truthy (my_address st) = true ->
  transactions st = [] ->
  update_transactions new_height version height bits ts prev_hash incoming
    my_sats commitment flags st = (r, st') ->
  (r = Ok true /\ candidate_consistent height incoming st') \/
  (exists e, r = Raise e).
Proof.
  intros Hw Ha Ht H.
  destruct r as [[|]|e]; [left|exfalso|right; now exists e].
  - split; [reflexivity|].
    eapply rebuilt_is_consistent; eassumption.
  - destruct (lock_in ts) as [t|e0] eqn:Hl.
    2:{ unfold update_transactions, bind, read, lift in H.
        rewrite Hw, Hl in H. discriminate H. }
    destruct (my_address st) as [a|] eqn:Em; [|discriminate Ha].
    cbn [address_truthy] in Ha.
    rewrite (update_with_address _ _ _ _ _ _ _ _ _ _ _ _ _ Hw Hl Em Ha) in H.
    assert (Hrec : forall s s0,
              bind (recalculate version height bits prev_hash incoming)
                (fun _ => ret true) s <> (Ok false, s0)).
    { intros s s0 Hb. unfold bind in Hb.
      destruct (recalculate version height bits prev_hash incoming s)
        as [[u|e1] s1]; unfold ret in Hb; discriminate Hb. }
    destruct (new_height || (update_coinbase_every <=? update_counter st + 1)).
    + unfold bind at 1 in H.
      destruct (build_coinbase_transaction height flags a my_sats commitment
                  (set_update_counter 0 (counted t st)))
        as [[[]|e1] s2]; [|discriminate H].
      exact (Hrec _ _ H).
    + rewrite Ht in H.
      assert (Hn : (Py.len (@nil bytes) =? Py.len incoming + 1) = false).
      { apply Z.eqb_neq. unfold Py.len. cbn [length]. lia. }
      rewrite Hn in H. cbn [negb] in H. exact (Hrec _ _ H).
Qed.

End TemplateFacts.

Section TemplateRun.
#[local] Existing Instance reference_crypto.

(** A template whose one transaction is not hex. *)
Definition malformed_transactions : list tx_data :=
  [ {| data := "zz"; txid := "00" |} ].

Lemma malformed_template_keeps_candidate_witness :
  fst (update_transactions true 0x30000000 100 demo_bits 1700000002
         demo_prev_hash malformed_transactions 500000000000 demo_commitment ""
         (tx world_working)) = Raise ValueError /\
  same_work (tx world_working)
    (snd (update_transactions true 0x30000000 100 demo_bits 1700000002
            demo_prev_hash malformed_transactions 500000000000
            demo_commitment "" (tx world_working))).
Proof.
  split; [vm_compute; reflexivity|].
  apply (malformed_template_keeps_candidate true 0x30000000 100 demo_bits
           1700000002 demo_prev_hash malformed_transactions 500000000000
           demo_commitment "" (tx world_working) ValueError _ _
           eq_refl eq_refl (surjective_pairing _)).
Defined.

Lemma emptied_list_forces_rebuild_witness :
  candidate_consistent 100 (t_transactions demo_template) (tx world_working).
Proof.
  assert (Hu : update_transactions true 0x30000000 100 demo_bits 1700000001
                 demo_prev_hash (t_transactions demo_template) 500000000000
                 demo_commitment "" (tx world_authorized)
               = (Ok true, tx world_working)) by (vm_compute; reflexivity).
  destruct (emptied_list_forces_rebuild true 0x30000000 100 demo_bits
              1700000001 demo_prev_hash (t_transactions demo_template)
              500000000000 demo_commitment "" (tx world_authorized) (Ok true)
              (tx world_working) eq_refl eq_refl eq_refl Hu)
    as [[_ H] | [e He]]; [exact H | discriminate He].
Defined.

End TemplateRun.

Section UpdateRun.
#[local] Existing Instance reference_crypto.

(** Another template of one transaction, none of whose fields is the run's. *)
Definition other_transactions : list tx_data :=
  [ {| data := "ff"; txid := "00" |} ].

Lemma update_without_address_builds_nothing_witness :
  fst (update_transactions true 0x30000000 100 demo_bits 1700000000
         demo_prev_hash (t_transactions demo_template) 500000000000
         demo_commitment "" initial_state) = Ok false /\
  coinbase (snd (update_transactions true 0x30000000 100 demo_bits 1700000000
                   demo_prev_hash (t_transactions demo_template) 500000000000
                   demo_commitment "" initial_state)) = None.
Proof.
  destruct (update_without_address_builds_nothing true 0x30000000 100
              demo_bits 1700000000 demo_prev_hash
              (t_transactions demo_template) 500000000000 demo_commitment ""
              initial_state _ _ eq_refl eq_refl (surjective_pairing _))
    as ([Hr | (e & _ & He & _)] & Hc & _).
  - split; [exact Hr | exact Hc].
  - vm_compute in He. discriminate He.
Defined.

Lemma same_count_is_answered_false_witness :
  update_transactions false 0 100 [] 1700000002 [] other_transactions 0 [] ""
    (tx world_working)
  = (Ok false, counted 1700000002 (tx world_working)) /\
  coinbase (counted 1700000002 (tx world_working))
  = coinbase (tx world_working) /\
  update_counter (counted 1700000002 (tx world_working))
  = update_counter (tx world_working) + 1 /\
  same_work (tx world_working) (counted 1700000002 (tx world_working)).
Proof.
  apply (same_count_is_answered_false 0 100 [] 1700000002 [] other_transactions
           0 [] "" (tx world_working) 1700000002 demo_address).
  - reflexivity.
  - vm_compute. reflexivity.
  - reflexivity.
  - reflexivity.
  - vm_compute. reflexivity.
  - reflexivity.
Defined.

Lemma update_counter_after_call_witness :
  update_counter
    (snd (update_transactions true 0x30000000 100 demo_bits 1700000002
            demo_prev_hash (t_transactions demo_template) 500000000000
            demo_commitment "" (tx world_working)))
  = 0 /\
  update_counter
    (snd (update_transactions true 0x30000000 100 demo_bits 1700000002
            demo_prev_hash (t_transactions demo_template) 500000000000
            demo_commitment "" (tx world_working))) < update_coinbase_every.
Proof.
  apply (update_counter_after_call true 0x30000000 100 demo_bits 1700000002
           demo_prev_hash (t_transactions demo_template) 500000000000
           demo_commitment "" (tx world_working) 1700000002 demo_address).
  - reflexivity.
  - vm_compute. reflexivity.
  - reflexivity.
  - reflexivity.
Defined.

Lemma rebuild_then_same_count_is_quiet_witness :
  update_transactions false 0 100 [] 1700000002 [] other_transactions 0 [] ""
    (tx world_working)
  = (Ok false, counted 1700000002 (tx world_working)) /\
  coinbase (counted 1700000002 (tx world_working))
  = coinbase (tx world_working) /\
  same_work (tx world_working) (counted 1700000002 (tx world_working)).
Proof.
  apply (rebuild_then_same_count_is_quiet 0x30000000 100 demo_bits 1700000001
           demo_prev_hash (t_transactions demo_template) 500000000000
           demo_commitment "" (tx world_authorized) (tx world_working)
           0 100 [] 1700000002 1700000002 [] other_transactions 0 [] "").
  - reflexivity.
  - vm_compute. reflexivity.
  - vm_compute. reflexivity.
  - reflexivity.
Defined.

Lemma rebuild_of_empty_template_witness :
  exists cb cb_no_wit,
    coinbase (snd (update_transactions true 0x30000000 100 demo_bits
                     1700000001 demo_prev_hash [] 500000000000 demo_commitment
                     "" (tx world_authorized))) = Some cb /\
    coinbase_no_wit (snd (update_transactions true 0x30000000 100 demo_bits
                            1700000001 demo_prev_hash [] 500000000000
                            demo_commitment "" (tx world_authorized)))
      = Some cb_no_wit /\
    transactions (snd (update_transactions true 0x30000000 100 demo_bits
                         1700000001 demo_prev_hash [] 500000000000
                         demo_commitment "" (tx world_authorized))) = [cb] /\
    merkle (snd (update_transactions true 0x30000000 100 demo_bits
                   1700000001 demo_prev_hash [] 500000000000 demo_commitment
                   "" (tx world_authorized))) = Some (dsha256 cb_no_wit).
Proof.
  apply (rebuild_of_empty_template true 0x30000000 100 demo_bits 1700000001
           demo_prev_hash 500000000000 demo_commitment ""
           (tx world_authorized)).
  - reflexivity.
  - vm_compute. reflexivity.
Defined.

End UpdateRun.

(** ** [mining.submit]: what is posted, and what an error leaves *)

Section SubmitFacts.
Context {crypto : Crypto}.

(** X20: the block [mining.submit] posts is, in hex, the stored header
    reversed, the nonce reversed, the mix hash reversed (each without its
    first two characters), the count of held transactions as [var_int], and
    the held transactions; the worker name, the job id and the header hash
    the miner sends are not read. *)
Theorem posted_block_layout (worker job_id nonce_hex header_hex mixhash_hex
    block : string) (st st1 : TransactionState) :
  submit_prepare [worker; job_id; nonce_hex; header_hex; mixhash_hex] st
    = (Ok block, st1) ->
  (exists header nonce mix count,
     partial_header st = Some header /\
     Py.fromhex (from_2 nonce_hex) = Ok nonce /\
     Py.fromhex (from_2 mixhash_hex) = Ok mix /\
     var_int (Py.len (transactions st)) = Ok count /\
     block = Py.hex (rev header ++ rev nonce ++ rev mix ++ count
                     ++ concat (transactions st))) /\
  (forall worker' job_id' header_hex',
     submit_prepare [worker'; job_id'; nonce_hex; header_hex'; mixhash_hex] st
     = (Ok block, st1)).
Proof.
  intros H. split; [|intros; exact H].
  unfold submit_prepare in H.
  apply bind_ok in H. destruct H as (waiting & s & E & H).
  unfold read in E. inversion E; subst; clear E.
  apply bind_ok in H. destruct H as (held & s' & E & H).
  unfold read in E. inversion E; subst; clear E.
  destruct (wait_for_new_block s' || negb (Py.list_truthy (transactions s')));
    [discriminate|].
  unfold partial_block in H. mfacts. subst.
  unfold clear_for_new_height, write in *.
  repeat match goal with
         | Hx : (_, _) = (_, _) |- _ => inversion Hx; subst; clear Hx
         end.
  cbn [fst snd]. unfold Py.join.
  do 4 eexists. repeat split; eassumption.
Qed.

(** X21: a [mining.submit] that raises never sets the guard. When the error
    comes before the post (the guard, the arguments, the hex, the header),
    nothing is assigned and the held work stays; when the node refuses the
    block, the error has code 1 and the node's own reason, its [error] before
    its [result], and the held transactions are gone. *)
Theorem failed_submit_never_locks (node : string -> submit_response)
    (args : list string) (st st' : TransactionState) (e : exn) :
  handle_submit node args st = (Raise e, st') ->
  wait_for_new_block st' = wait_for_new_block st /\
  ((submit_prepare args st = (Raise e, st') /\ st' = st) \/
   (exists block,
      submit_prepare args st = (Ok block, set_transactions [] st) /\
      st' = set_transactions [] st /\
      e = RPCError 1 (if json_truthy (resp_error (node block))
                      then resp_error (node block)
                      else resp_result (node block)) /\
      (json_truthy (resp_error (node block))
       || json_truthy (resp_result (node block))) = true)).
Proof.
  unfold handle_submit, bind.
  destruct (submit_prepare args st) as [[block|e0] st1] eqn:E.
  - pose proof (submit_prepare_ok _ _ _ _ E) as (_ & _ & ->).
    unfold submit_conclude, clear_for_new_height, bind, write, throw, ret.
    destruct (json_truthy (resp_error (node block))) eqn:Ee.
    + intros H; inversion H; subst. split; [reflexivity|].
      right. exists block. repeat split; try assumption;
        rewrite ?Ee, ?Er; reflexivity.
    + destruct (json_truthy (resp_result (node block))) eqn:Er;
        intros H; inversion H; subst. split; [reflexivity|].
      right. exists block. repeat split; try assumption;
        rewrite ?Ee, ?Er; reflexivity.
  - intros H; inversion H; subst.
    assert (Hst : st' = st).
    { revert E. unfold submit_prepare, partial_block, clear_for_new_height,
        bind, read, write, lift, need, ret, throw.
      destruct (wait_for_new_block st
                || negb (Py.list_truthy (transactions st)));
        [intros H0; now inversion H0|].
      destruct args as [|a1 [|a2 [|a3 [|a4 [|a5 [|a6 rest]]]]]];
        try (intros H0; now inversion H0).
      destruct (partial_header st); [|intros H0; now inversion H0].
      destruct (var_int (Py.len (transactions st)));
        [|intros H0; now inversion H0].
      destruct (Py.fromhex (from_2 a3)); [|intros H0; now inversion H0].
      destruct (Py.fromhex (from_2 a5)); intros H0; now inversion H0. }
    subst st'. split; [reflexivity|]. left. now split.
Qed.

(** X22: the block posted for a consistent candidate is the one announced:
    the bytes in front of the nonce hash, doubly and reversed, to the stored
    header hash, and behind the mix hash come the count of the template's
    transactions plus one, the coinbase, and the template's transactions in
    order. *)
Theorem posted_block_is_the_candidate (height : Z) (incoming : list tx_data)
    (worker job_id nonce_hex header_hex mixhash_hex block : string)
    (st st1 : TransactionState) :
  candidate_consistent height incoming st ->
  submit_prepare [worker; job_id; nonce_hex; header_hex; mixhash_hex] st
    = (Ok block, st1) ->
  exists front nonce mix count cb raws,
    block = Py.hex (front ++ rev nonce ++ rev mix ++ count ++ cb
                    ++ concat raws) /\
    header_hash st = Some (rev (dsha256 front)) /\
    var_int (Py.len incoming + 1) = Ok count /\
    coinbase st = Some cb /\
    length raws = length incoming /\
    Py.fromhex (from_2 nonce_hex) = Ok nonce /\
    Py.fromhex (from_2 mixhash_hex) = Ok mix.
Proof.
  intros (cb & cbn & raws & ids & root & header & h4 & bf & af &
          Hc & _ & Hcol & Ht & _ & _ & _ & _ & Hp & Hh & _) H.
  unfold submit_prepare in H.
  apply bind_ok in H. destruct H as (waiting & s & E & H).
  unfold read in E. inversion E; subst; clear E.
  apply bind_ok in H. destruct H as (held & s' & E & H).
  unfold read in E. inversion E; subst; clear E.
  destruct (wait_for_new_block s' || negb (Py.list_truthy (transactions s')));
    [discriminate|].
  unfold partial_block in H. mfacts. subst.
  unfold clear_for_new_height, write in *.
  repeat match goal with
         | Hx : (_, _) = (_, _) |- _ => inversion Hx; subst; clear Hx
         end.
  cbn [fst snd]. unfold Py.join.
  apply collect_length in Hcol. destruct Hcol as [Hraws _].
  match goal with
  | Hx : partial_header _ = Some ?x |- _ =>
      rewrite Hp in Hx; inversion Hx; subst x
  end.
  match goal with
  | Hx : var_int _ = Ok ?c,
    Hn : Py.fromhex (from_2 nonce_hex) = Ok ?n,
    Hm : Py.fromhex (from_2 mixhash_hex) = Ok ?m |- _ =>
      exists (rev header), n, m, c, cb, raws
  end.
  rewrite Ht in *. cbn [concat].
  repeat split; try assumption.
  match goal with
  | Hx : var_int _ = Ok _ |- _ => rewrite <- Hx
  end.
  f_equal. unfold Py.len. cbn [length]. lia.
Qed.

End SubmitFacts.

Section SubmitRun.
#[local] Existing Instance reference_crypto.

Lemma posted_block_layout_witness :
  (exists header nonce mix count,
     partial_header (tx world_working) = Some header /\
     Py.fromhex (from_2 "0x0123456789abcdef") = Ok nonce /\
     Py.fromhex
       (from_2
          "0x00000000000000000000000000000000000000000000000000000000000000bb")
       = Ok mix /\
     var_int (Py.len (transactions (tx world_working))) = Ok count /\
     demo_block = Py.hex (rev header ++ rev nonce ++ rev mix ++ count
                          ++ concat (transactions (tx world_working)))) /\
  (forall worker' job_id' header_hex',
     submit_prepare
       [worker'; job_id'; "0x0123456789abcdef"%string; header_hex';
        "0x00000000000000000000000000000000000000000000000000000000000000bb"%string]
       (tx world_working)
     = (Ok demo_block, set_transactions [] (tx world_working))).
Proof.
  apply (posted_block_layout "miner1" "0" "0x0123456789abcdef"
           "0x00000000000000000000000000000000000000000000000000000000000000aa"
           "0x00000000000000000000000000000000000000000000000000000000000000bb"
           demo_block (tx world_working)
           (set_transactions [] (tx world_working))).
  vm_compute. reflexivity.
Defined.

Lemma failed_submit_never_locks_witness :
  wait_for_new_block (set_transactions [] (tx world_working))
  = wait_for_new_block (tx world_working) /\
  ((submit_prepare demo_share (tx world_working)
    = (Raise (RPCError 1 (JStr "high-hash")),
       set_transactions [] (tx world_working)) /\
    set_transactions [] (tx world_working) = tx world_working) \/
   (exists block,
      submit_prepare demo_share (tx world_working)
      = (Ok block, set_transactions [] (tx world_working)) /\
      set_transactions [] (tx world_working)
      = set_transactions [] (tx world_working) /\
      RPCError 1 (JStr "high-hash")
      = RPCError 1 (if json_truthy (resp_error (rejecting_node block))
                    then resp_error (rejecting_node block)
                    else resp_result (rejecting_node block)) /\
      (json_truthy (resp_error (rejecting_node block))
       || json_truthy (resp_result (rejecting_node block))) = true)).
Proof.
  apply (failed_submit_never_locks rejecting_node demo_share
           (tx world_working) (set_transactions [] (tx world_working))
           (RPCError 1 (JStr "high-hash"))).
  vm_compute. reflexivity.
Defined.

Lemma posted_block_is_the_candidate_witness :
  exists front nonce mix count cb raws,
    demo_block = Py.hex (front ++ rev nonce ++ rev mix ++ count ++ cb
                         ++ concat raws) /\
    header_hash (tx world_working) = Some (rev (dsha256 front)) /\
    var_int (Py.len (t_transactions demo_template) + 1) = Ok count /\
    coinbase (tx world_working) = Some cb /\
    length raws = length (t_transactions demo_template) /\
    Py.fromhex (from_2 "0x0123456789abcdef") = Ok nonce /\
    Py.fromhex
      (from_2
         "0x00000000000000000000000000000000000000000000000000000000000000bb")
      = Ok mix.
Proof.
  apply (posted_block_is_the_candidate 100 (t_transactions demo_template)
           "miner1" "0" "0x0123456789abcdef"
           "0x00000000000000000000000000000000000000000000000000000000000000aa"
           "0x00000000000000000000000000000000000000000000000000000000000000bb"
           demo_block (tx world_working)
           (set_transactions [] (tx world_working))).
  - apply (rebuilt_is_consistent true 0x30000000 100 demo_bits 1700000001
             demo_prev_hash (t_transactions demo_template) 500000000000
             demo_commitment "" (tx world_authorized) (tx world_working)).
    + reflexivity.
    + vm_compute. reflexivity.
  - vm_compute. reflexivity.
Defined.

End SubmitRun.

(** ** What a turn of the synchronizer never does *)

Section TurnInvariants.
Context {crypto : Crypto}.

(** X23: however a turn of [query_loop] ends, it opens and closes no
    session, keeps the session and the address stored in the work state,
    never sets the guard of a pending submission, sends at most two
    notifications, all of them to the stored session, and when it returns,
    the height it returns is the template's. *)
Theorem query_loop_turn_invariants (result : template) (now height : Z)
    (w : World) :
  connected (snd (query_loop_turn result now height w)) = connected w /\
  transport (tx (snd (query_loop_turn result now height w)))
    = transport (tx w) /\
  my_address (tx (snd (query_loop_turn result now height w)))
    = my_address (tx w) /\
  (wait_for_new_block (tx w) = false ->
   wait_for_new_block (tx (snd (query_loop_turn result now height w)))
     = false) /\
  (exists sent,
     outbox (snd (query_loop_turn result now height w)) = outbox w ++ sent /\
     (length sent <= 2)%nat /\
     forall s n, In (s, n) sent -> transport (tx w) = Some s) /\
  (forall h, fst (query_loop_turn result now height w) = Ok h ->
             h = t_height result).
Proof.
  destruct w as [t c o].
  unfold query_loop_turn, clear_for_new_height.
  unfold send_notification, need, bind, on_tx, read, write, lift, ret, throw.
  cbn [tx connected outbox].
  assert (Hnil : exists sent : list (session * notification),
            o = o ++ sent /\ (length sent <= 2)%nat /\
            forall s n, In (s, n) sent -> transport t = Some s).
  { exists []. rewrite app_nil_r. repeat split; [cbn; lia|intros s n []]. }
  assert (Hone : forall s x, transport t = Some s ->
            exists sent : list (session * notification),
              o ++ [(s, x)] = o ++ sent /\ (length sent <= 2)%nat /\
              forall s' n, In (s', n) sent -> transport t = Some s').
  { intros s x Hs. exists [(s, x)]. repeat split; [cbn; lia|].
    intros s' n [E|[]]. now inversion E; subst. }
  assert (Htwo : forall s x y, transport t = Some s ->
            exists sent : list (session * notification),
              (o ++ [(s, x)]) ++ [(s, y)] = o ++ sent /\
              (length sent <= 2)%nat /\
              forall s' n, In (s', n) sent -> transport t = Some s').
  { intros s x y Hs. exists [(s, x); (s, y)]. rewrite <- app_assoc.
    repeat split; [cbn; lia|].
    intros s' n [E|[E|[]]]; now inversion E; subst. }
  destruct (height =? t_height result) eqn:Eh;
    cbn [negb orb tx connected outbox];
    try (apply Z.eqb_eq in Eh; subst height);
    (destruct (Py.fromhex (t_bits result)) as [bits|];
       [|cbn [fst snd tx connected outbox set_transactions transport
              my_address wait_for_new_block];
         repeat split; try assumption; try discriminate; auto]);
    (destruct (Py.fromhex (t_previousblockhash result)) as [prev|];
       [|cbn [fst snd tx connected outbox set_transactions transport
              my_address wait_for_new_block];
         repeat split; try assumption; try discriminate; auto]);
    (destruct (Py.fromhex (t_default_witness_commitment result)) as [wc|];
       [|cbn [fst snd tx connected outbox set_transactions transport
              my_address wait_for_new_block];
         repeat split; try assumption; try discriminate; auto]).
  all: rewrite ?orb_true_r.
  all: match goal with
       | |- context [update_transactions ?a ?b ?c ?d ?e ?f ?g ?h ?i ?j ?s] =>
           pose proof (update_transactions_keeps transport a b c d e f g h i j
                         (fun _ _ => eq_refl) (fun _ _ => eq_refl)
                         (fun _ _ => eq_refl) (fun _ _ => eq_refl)
                         (fun _ _ => eq_refl) (fun _ _ => eq_refl)
                         (fun _ _ => eq_refl) (fun _ _ => eq_refl)
                         (fun _ _ => eq_refl) s) as Kt;
           pose proof (update_transactions_keeps my_address a b c d e f g h i j
                         (fun _ _ => eq_refl) (fun _ _ => eq_refl)
                         (fun _ _ => eq_refl) (fun _ _ => eq_refl)
                         (fun _ _ => eq_refl) (fun _ _ => eq_refl)
                         (fun _ _ => eq_refl) (fun _ _ => eq_refl)
                         (fun _ _ => eq_refl) s) as Ka;
           pose proof (update_transactions_keeps wait_for_new_block a b c d e
                         f g h i j
                         (fun _ _ => eq_refl) (fun _ _ => eq_refl)
                         (fun _ _ => eq_refl) (fun _ _ => eq_refl)
                         (fun _ _ => eq_refl) (fun _ _ => eq_refl)
                         (fun _ _ => eq_refl) (fun _ _ => eq_refl)
                         (fun _ _ => eq_refl) s) as Kw;
           destruct (update_transactions a b c d e f g h i j s)
             as [[b0|e0] st2];
           specialize (Kt _ _ eq_refl); specialize (Ka _ _ eq_refl);
           specialize (Kw _ _ eq_refl);
           cbn [transport my_address wait_for_new_block set_transactions]
             in Kt, Ka, Kw
       end.
  all: cbn [tx connected outbox fst snd orb negb].
  all: try (repeat split; try assumption; try discriminate; try congruence;
            now auto).
  all: destruct b0;
    [|cbn [tx connected outbox fst snd orb negb];
      destruct (transport st2);
      repeat split; try assumption; try discriminate; try congruence;
      try (intros h Hh; now inversion Hh)].
  all: destruct (transport st2) as [s|] eqn:Es;
    [|cbn [tx connected outbox fst snd orb negb];
      repeat split; try assumption; try discriminate; try congruence;
      try (intros h Hh; now inversion Hh)].
  all: try destruct (negb (Py.list_truthy (transactions t)));
    cbn [tx connected outbox fst snd orb negb];
    (destruct (header_hash st2) as [hh|];
       [|cbn [tx connected outbox fst snd orb negb];
         repeat split; try assumption; try discriminate; try congruence;
         try (apply Hone; congruence)]);
    cbn [tx connected outbox fst snd orb negb];
    (destruct (seed_hash st2) as [sh|];
       [|cbn [tx connected outbox fst snd orb negb];
         repeat split; try assumption; try discriminate; try congruence;
         try (apply Hone; congruence)]);
    cbn [tx connected outbox fst snd set_wait_for_new_block transport
         my_address wait_for_new_block];
    repeat split; try assumption; try discriminate; try congruence;
    try (apply Hone; congruence); try (apply Htwo; congruence);
    try (intros h Hh; now inversion Hh).
Qed.

(** X24: the guard of a pending submission is released by a turn only
    together with a clean-jobs announcement. If a turn finds the guard set
    and leaves it unset, then a session was stored, a header hash and a seed
    hash were stored, [clear_work] held, and the turn returned after sending
    that session the target and the job, with the hashes stored before, as
    its last two notifications. *)
Theorem guard_released_only_with_announcement (result : template)
    (now height : Z) (w : World) :
  wait_for_new_block (tx w) = true ->
  wait_for_new_block (tx (snd (query_loop_turn result now height w)))
    = false ->
  exists s hh sh,
    transport (tx w) = Some s /\ header_hash (tx w) = Some hh /\
    seed_hash (tx w) = Some sh /\
    clear_work_of result height w = true /\
    query_loop_turn result now height w =
    (Ok (t_height result),
     mkWorld (set_wait_for_new_block false (before_update result height w))
       (connected w) (outbox w ++ announcement s result true hh sh)).
Proof.
  intros Hw. destruct w as [t c o]. cbn [tx] in Hw.
  unfold clear_work_of, before_update, announcement.
  unfold query_loop_turn, clear_for_new_height.
  unfold send_notification, need, bind, on_tx, read, write, lift, ret, throw.
  cbn [tx connected outbox].
  assert (Hu1 : forall cw bits ph cm,
    update_transactions cw (t_version result) (t_height result) bits now ph
      (t_transactions result) (t_coinbasevalue result) cm (t_flags result) t
    = (Ok true, t)) by (intros; now apply update_locked).
  assert (Hu2 : forall cw bits ph cm,
    update_transactions cw (t_version result) (t_height result) bits now ph
      (t_transactions result) (t_coinbasevalue result) cm (t_flags result)
      (set_transactions [] t)
    = (Ok true, set_transactions [] t)) by (intros; now apply update_locked).
  destruct (height =? t_height result) eqn:Eh;
    cbn [negb orb tx connected outbox];
    try (apply Z.eqb_eq in Eh; subst height);
    (destruct (Py.fromhex (t_bits result)) as [bits|];
       [|cbn [fst snd tx set_transactions wait_for_new_block];
         intros Hf; congruence]);
    (destruct (Py.fromhex (t_previousblockhash result)) as [prev|];
       [|cbn [fst snd tx set_transactions wait_for_new_block];
         intros Hf; congruence]);
    (destruct (Py.fromhex (t_default_witness_commitment result)) as [wc|];
       [|cbn [fst snd tx set_transactions wait_for_new_block];
         intros Hf; congruence]);
    rewrite ?Hu1, ?Hu2, ?orb_true_r, ?orb_false_r;
    cbn [tx connected outbox fst snd transport set_transactions];
    (destruct (transport t) as [s|];
       [|cbn [fst snd tx set_transactions wait_for_new_block];
         intros Hf; congruence]);
    try (destruct (negb (Py.list_truthy (transactions t))));
    cbn [tx connected outbox fst snd header_hash seed_hash set_transactions];
    (destruct (header_hash t) as [hh|];
       [|cbn [fst snd tx set_transactions wait_for_new_block];
         intros Hf; congruence]);
    cbn [tx connected outbox fst snd header_hash seed_hash set_transactions];
    (destruct (seed_hash t) as [sh|];
       [|cbn [fst snd tx set_transactions wait_for_new_block];
         intros Hf; congruence]);
    cbn [tx connected outbox fst snd header_hash seed_hash set_transactions
         wait_for_new_block set_wait_for_new_block];
    intros Hf; try congruence;
    exists s, hh, sh; rewrite <- ?app_assoc; repeat split.
Qed.

End TurnInvariants.

Section TurnRun.
#[local] Existing Instance reference_crypto.

Lemma guard_released_only_with_announcement_witness :
  exists s hh sh,
    transport (tx world_submitted) = Some s /\
    header_hash (tx world_submitted) = Some hh /\
    seed_hash (tx world_submitted) = Some sh /\
    clear_work_of demo_template 100 world_submitted = true /\
    query_loop_turn demo_template 1700000003 100 world_submitted =
    (Ok (t_height demo_template),
     mkWorld (set_wait_for_new_block false
                (before_update demo_template 100 world_submitted))
       (connected world_submitted)
       (outbox world_submitted ++ announcement s demo_template true hh sh)).
Proof.
  apply (guard_released_only_with_announcement demo_template 1700000003 100
           world_submitted).
  - reflexivity.
  - vm_compute. reflexivity.
Defined.

End TurnRun.

(** ** The time stamp: decimal strings as arithmetic *)

(** *** Strings *)

Lemma append_assoc (a b c : string) :
  ((a ++ b) ++ c = a ++ (b ++ c))%string.
Proof. induction a as [|x a IH]; cbn; [reflexivity|now rewrite IH]. Qed.

Lemma length_append (a b : string) :
  String.length (a ++ b) = (String.length a + String.length b)%nat.
Proof. induction a as [|x a IH]; cbn; [reflexivity|now rewrite IH]. Qed.

Lemma get_append (a b : string) (c : ascii) :
  String.get (String.length a) (a ++ String c b) = Some c.
Proof. induction a as [|x a IH]; cbn; [reflexivity|exact IH]. Qed.

Lemma substring_prefix (a b : string) :
  String.substring 0 (String.length a) (a ++ b) = a.
Proof.
  induction a as [|x a IH]; cbn.
  - now destruct b.
  - now rewrite IH.
Qed.

Lemma substring_suffix (a b : string) :
  String.substring (String.length a) (String.length b) (a ++ b) = b.
Proof.
  induction a as [|x a IH]; cbn; [|exact IH].
  induction b as [|y b IHb]; cbn; [reflexivity|now rewrite IHb].
Qed.

(** *** Digits *)

(** The character of a decimal digit. *)
Definition digit (r : Z) : ascii := ascii_of_nat (Z.to_nat (48 + r)).

(** One more digit in front of a little-endian numeral. *)
Definition push_digit (k : N) (d : Decimal.uint) : Decimal.uint :=
  match k with
  | 0 => Decimal.D0 d | 1 => Decimal.D1 d | 2 => Decimal.D2 d
  | 3 => Decimal.D3 d | 4 => Decimal.D4 d | 5 => Decimal.D5 d
  | 6 => Decimal.D6 d | 7 => Decimal.D7 d | 8 => Decimal.D8 d
  | _ => Decimal.D9 d
  end%N.

Lemma to_lu_add (n : N) (j : nat) :
  DecimalPos.Unsigned.to_lu (n + N.of_nat j)
  = Nat.iter j Decimal.Little.succ (DecimalPos.Unsigned.to_lu n).
Proof.
  induction j as [|j IH].
  - now rewrite N.add_0_r.
  - replace (n + N.of_nat (S j))%N with (N.succ (n + N.of_nat j)) by lia.
    rewrite DecimalPos.Unsigned.to_lu_succ, IH. reflexivity.
Qed.

Lemma to_lu_push (p : positive) (k : N) :
  (k < 10)%N ->
  DecimalPos.Unsigned.to_lu (10 * N.pos p + k)
  = push_digit k (DecimalPos.Unsigned.to_lu (N.pos p)).
Proof.
  intros Hk.
  replace (10 * N.pos p + k)%N
    with (10 * N.pos p + N.of_nat (N.to_nat k))%N by lia.
  rewrite to_lu_add, DecimalPos.Unsigned.to_ldec_tenfold.
  destruct k as [|k]; [reflexivity|].
  repeat (destruct k as [k|k|]; try lia; try reflexivity).
Qed.

Lemma string_of_revapp (l acc : Decimal.uint) :
  NilEmpty.string_of_uint (Decimal.revapp l acc)
  = (NilEmpty.string_of_uint (Decimal.revapp l Decimal.Nil)
     ++ NilEmpty.string_of_uint acc)%string.
Proof.
  revert acc. induction l; intros acc; cbn [Decimal.revapp];
    [reflexivity|..];
    rewrite IHl; symmetry; rewrite IHl, append_assoc; reflexivity.
Qed.

Lemma str_pos (p : positive) :
  Py.str (Z.pos p)
  = NilEmpty.string_of_uint
      (Decimal.rev (DecimalPos.Unsigned.to_lu (N.pos p))).
Proof.
  unfold Py.str. cbn [Z.to_int NilZero.string_of_int].
  pose proof (DecimalPos.Unsigned.to_uint_nonnil p) as Hn.
  unfold NilZero.string_of_uint.
  destruct (Pos.to_uint p) eqn:E; try reflexivity; [now elim Hn|..];
    rewrite <- E; reflexivity.
Qed.

(** [str] of a number of two digits or more is [str] of its tenth followed
    by its last digit. *)
Lemma str_snoc (q r : Z) :
  0 < q -> 0 <= r < 10 ->
  Py.str (10 * q + r) = (Py.str q ++ String (digit r) "")%string.
Proof.
  intros Hq Hr. destruct q as [|p|p]; try lia.
  assert (E : 10 * Z.pos p + r = Z.of_N (10 * N.pos p + Z.to_N r)) by lia.
  rewrite E.
  destruct (10 * N.pos p + Z.to_N r)%N as [|x] eqn:Ex; [lia|].
  cbn [Z.of_N]. rewrite !str_pos, <- Ex.
  rewrite to_lu_push by lia.
  assert (Hk : (Z.to_N r < 10)%N) by lia.
  assert (Hd : digit r = digit (Z.of_N (Z.to_N r))) by (f_equal; lia).
  rewrite Hd. clear E Ex Hd.
  destruct (Z.to_N r) as [|k];
    [|repeat (destruct k as [k|k|]; try lia)];
    cbn [push_digit]; unfold Decimal.rev; cbn [Decimal.revapp];
    rewrite string_of_revapp; reflexivity.
Qed.

Lemma str_digit (r : Z) :
  0 <= r < 10 -> Py.str r = String (digit r) "".
Proof.
  intros Hr. destruct r as [|p|p]; try lia; [reflexivity|].
  repeat (destruct p as [p|p|]; try lia; try reflexivity).
Qed.

(** All of [str n] but its last character. *)
Definition front (n : Z) : string :=
  if n <? 10 then EmptyString else Py.str (n / 10).

Lemma str_split (n : Z) :
  0 <= n -> Py.str n = (front n ++ String (digit (n mod 10)) "")%string.
Proof.
  intros Hn. unfold front. destruct (n <? 10) eqn:E.
  - apply Z.ltb_lt in E. rewrite Z.mod_small by lia. now apply str_digit.
  - apply Z.ltb_ge in E.
    rewrite (Z.div_mod n 10) at 1 by lia.
    apply str_snoc; [|apply Z.mod_pos_bound; lia].
    apply Z.div_str_pos. lia.
Qed.

Lemma length_str_digit (n : Z) :
  0 <= n < 10 -> String.length (Py.str n) = 1%nat.
Proof. intros H. now rewrite str_digit. Qed.

Lemma length_str_two (n : Z) :
  10 <= n < 100 -> String.length (Py.str n) = 2%nat.
Proof.
  intros H. rewrite str_split by lia. unfold front.
  destruct (n <? 10) eqn:E; [apply Z.ltb_lt in E; lia|].
  rewrite length_append, length_str_digit; [reflexivity|].
  split; [apply Z.div_pos; lia|apply Z.div_lt_upper_bound; lia].
Qed.

Lemma digit_eqb (r k : Z) :
  0 <= r < 10 -> 0 <= k < 10 -> Ascii.eqb (digit r) (digit k) = (r =? k).
Proof.
  intros Hr Hk.
  destruct r as [|p|p]; try lia;
    [|repeat (destruct p as [p|p|]; try lia)];
    (destruct k as [|q|q]; try lia;
     [|repeat (destruct q as [q|q|]; try lia)]); reflexivity.
Qed.

(** *** Indexing from the end *)

Lemma char_from_end_app (a b : string) (c : ascii) :
  Py.char_from_end (a ++ String c b) (S (String.length b)) = Ok c.
Proof.
  unfold Py.char_from_end. rewrite length_append. cbn [String.length].
  replace (String.length a + S (String.length b) - S (String.length b))%nat
    with (String.length a) by lia.
  rewrite get_append.
  destruct (S (String.length b)
            <=? String.length a + S (String.length b))%nat eqn:E;
    [reflexivity|]. apply Nat.leb_gt in E. lia.
Qed.

Lemma char_from_end_short (s : string) (k : nat) :
  (String.length s < k)%nat -> Py.char_from_end s k = Raise IndexError.
Proof.
  intros H. unfold Py.char_from_end.
  destruct (String.get (String.length s - k) s); [|reflexivity].
  destruct (k <=? String.length s)%nat eqn:E; [|reflexivity].
  apply Nat.leb_le in E. lia.
Qed.

Lemma drop_last_app (k : nat) (a b : string) :
  String.length b = k -> Py.drop_last k (a ++ b) = a.
Proof.
  intros <-. unfold Py.drop_last. rewrite length_append.
  replace (String.length a + String.length b - String.length b)%nat
    with (String.length a) by lia.
  apply substring_prefix.
Qed.

Lemma endswith_app (a b suffix : string) :
  String.length b = String.length suffix ->
  Py.endswith (a ++ b) suffix = String.eqb b suffix.
Proof.
  intros H. unfold Py.endswith. rewrite length_append, <- H.
  replace (String.length a + String.length b - String.length b)%nat
    with (String.length a) by lia.
  rewrite substring_suffix.
  destruct (String.length b <=? String.length a + String.length b)%nat eqn:E;
    [reflexivity|]. apply Nat.leb_gt in E. lia.
Qed.

Lemma endswith_short (s suffix : string) :
  (String.length s < String.length suffix)%nat ->
  Py.endswith s suffix = false.
Proof.
  intros H. unfold Py.endswith.
  destruct (String.length suffix <=? String.length s)%nat eqn:E;
    [|reflexivity]. apply Nat.leb_le in E. lia.
Qed.

Lemma int_str (x : Z) : Py.int (Py.str x) = Ok x.
Proof.
  unfold Py.int, Py.str. rewrite NilZero.isi.
  - now rewrite DecimalZ.of_to.
  - destruct x; cbn [Z.to_int]; try discriminate.
    intros E. injection E as E.
    now apply DecimalPos.Unsigned.to_uint_nonnil in E.
  - destruct x; cbn [Z.to_int]; try discriminate.
    intros E. injection E as E.
    now apply DecimalPos.Unsigned.to_uint_nonnil in E.
Qed.

(** The last three characters of [str n], for [n] of three digits or more. *)
Lemma str_three (n : Z) :
  100 <= n ->
  Py.str n
  = (front (n / 100)
     ++ String (digit ((n / 100) mod 10))
          (String (digit ((n / 10) mod 10))
             (String (digit (n mod 10)) "")))%string.
Proof.
  intros Hn.
  assert (H10 : 10 <= n / 10) by (apply Z.div_le_lower_bound; lia).
  assert (H100 : 1 <= n / 100) by (apply Z.div_le_lower_bound; lia).
  rewrite (str_split n) by lia. unfold front at 1.
  destruct (n <? 10) eqn:E; [apply Z.ltb_lt in E; lia|].
  rewrite (str_split (n / 10)) by lia. unfold front at 1.
  destruct (n / 10 <? 10) eqn:E1; [apply Z.ltb_lt in E1; lia|].
  rewrite Z.div_div by lia. change (10 * 10) with 100.
  rewrite (str_split (n / 100)) by lia.
  rewrite !append_assoc. reflexivity.
Qed.

(** The last two characters of [str n], for [n] of two digits or more. *)
Lemma str_two (n : Z) :
  10 <= n ->
  Py.str n
  = (front (n / 10)
     ++ String (digit ((n / 10) mod 10)) (String (digit (n mod 10)) ""))%string.
Proof.
  intros Hn.
  assert (H10 : 1 <= n / 10) by (apply Z.div_le_lower_bound; lia).
  rewrite (str_split n) by lia. unfold front at 1.
  destruct (n <? 10) eqn:E; [apply Z.ltb_lt in E; lia|].
  rewrite (str_split (n / 10)) by lia.
  rewrite !append_assoc. reflexivity.
Qed.


(** *** [lock_in] and [hold_on] on numbers *)

Lemma lock_in_short (ts : Z) :
  0 <= ts < 100 -> lock_in ts = Raise IndexError.
Proof.
  intros H. unfold lock_in.
  rewrite char_from_end_short; [reflexivity|].
  destruct (Z.lt_ge_cases ts 10).
  - rewrite length_str_digit by lia. lia.
  - rewrite length_str_two by lia. lia.
Qed.

Lemma lock_in_long (ts : Z) :
  100 <= ts ->
  lock_in ts =
  Ok (if (ts / 100) mod 10 =? 4 then ts / 100 * 100 + 20
      else if (ts / 10) mod 10 =? 6 then ts / 10 * 10 + 9
      else ts).
Proof.
  intros Hts. unfold lock_in.
  assert (Ha : 1 <= ts / 100) by (apply Z.div_le_lower_bound; lia).
  assert (Hb : 0 <= (ts / 10) mod 10 < 10) by (apply Z.mod_pos_bound; lia).
  assert (Hc : 0 <= ts mod 10 < 10) by (apply Z.mod_pos_bound; lia).
  assert (Hd : 0 <= (ts / 100) mod 10 < 10) by (apply Z.mod_pos_bound; lia).
  rewrite (str_three ts Hts) at 1.
  rewrite (char_from_end_app _
             (String (digit ((ts / 10) mod 10))
                (String (digit (ts mod 10)) ""))).
  cbn [rbind].
  change "4"%char with (digit 4). rewrite digit_eqb by lia.
  destruct ((ts / 100) mod 10 =? 4) eqn:E4.
  - (* the hundreds digit is 4 *)
    assert (Hs : Py.str ts
                 = (Py.str (ts / 100)
                    ++ String (digit ((ts / 10) mod 10))
                         (String (digit (ts mod 10)) ""))%string).
    { rewrite (str_three ts Hts), (str_split (ts / 100)) by lia.
      now rewrite !append_assoc. }
    rewrite Hs at 1.
    rewrite (drop_last_app 2 (Py.str (ts / 100))
               (String (digit ((ts / 10) mod 10))
                  (String (digit (ts mod 10)) ""))) by reflexivity.
    assert (Hn : (Py.str (ts / 100) ++ "20")%string
                 = Py.str (ts / 100 * 100 + 20)).
    { replace (ts / 100 * 100 + 20) with (10 * (10 * (ts / 100) + 2) + 0)
        by lia.
      rewrite str_snoc by lia. rewrite str_snoc by lia.
      now rewrite append_assoc. }
    rewrite Hn, int_str. cbn [rbind].
    assert (Hbig : 100 <= ts / 100 * 100 + 20) by lia.
    rewrite (str_two (ts / 100 * 100 + 20)) by lia.
    rewrite (char_from_end_app _
               (String (digit ((ts / 100 * 100 + 20) mod 10)) "")).
    cbn [rbind].
    change "6"%char with (digit 6).
    rewrite digit_eqb by (try apply Z.mod_pos_bound; lia).
    replace (((ts / 100 * 100 + 20) / 10) mod 10) with 2
      by (clear; Z.div_mod_to_equations; lia).
    reflexivity.
  - (* it is not *)
    cbn [rbind].
    rewrite (str_two ts) at 1 by lia.
    rewrite (char_from_end_app _ (String (digit (ts mod 10)) "")).
    cbn [rbind].
    change "6"%char with (digit 6). rewrite digit_eqb by lia.
    destruct ((ts / 10) mod 10 =? 6) eqn:E6; [|reflexivity].
    assert (Hs : Py.str ts
                 = (Py.str (ts / 10) ++ String (digit (ts mod 10)) "")%string).
    { rewrite (str_split ts) by lia. unfold front.
      destruct (ts <? 10) eqn:E; [apply Z.ltb_lt in E; lia|reflexivity]. }
    rewrite Hs.
    rewrite (drop_last_app 1 (Py.str (ts / 10))
               (String (digit (ts mod 10)) "")) by reflexivity.
    assert (Hn : (Py.str (ts / 10) ++ "9")%string
                 = Py.str (ts / 10 * 10 + 9)).
    { replace (ts / 10 * 10 + 9) with (10 * (ts / 10) + 9) by lia.
      rewrite str_snoc; [reflexivity| |lia].
      apply Z.div_str_pos. lia. }
    now rewrite Hn, int_str.
Qed.

Lemma endswith_420 (n : Z) :
  0 <= n -> Py.endswith (Py.str n) "420" = (n mod 1000 =? 420).
Proof.
  intros Hn. destruct (Z.lt_ge_cases n 100) as [Hs|Hl].
  - rewrite endswith_short.
    + symmetry. apply Z.eqb_neq. rewrite Z.mod_small by lia. lia.
    + destruct (Z.lt_ge_cases n 10).
      * rewrite length_str_digit by lia. cbn. lia.
      * rewrite length_str_two by lia. cbn. lia.
  - rewrite (str_three n Hl).
    rewrite endswith_app by reflexivity.
    assert (Hb : 0 <= (n / 10) mod 10 < 10) by (apply Z.mod_pos_bound; lia).
    assert (Hc : 0 <= n mod 10 < 10) by (apply Z.mod_pos_bound; lia).
    assert (Hd : 0 <= (n / 100) mod 10 < 10) by (apply Z.mod_pos_bound; lia).
    cbn [String.eqb].
    change "4"%char with (digit 4). change "2"%char with (digit 2).
    change "0"%char with (digit 0).
    rewrite !digit_eqb by lia.
    destruct ((n / 100) mod 10 =? 4) eqn:E4;
      destruct ((n / 10) mod 10 =? 2) eqn:E2;
      destruct (n mod 10 =? 0) eqn:E0;
      rewrite ?Z.eqb_eq, ?Z.eqb_neq in *;
      symmetry; rewrite ?Z.eqb_eq, ?Z.eqb_neq;
      clear - E4 E2 E0 Hl; Z.div_mod_to_equations; lia.
Qed.

Lemma endswith_69 (n : Z) :
  0 <= n -> Py.endswith (Py.str n) "69" = (n mod 100 =? 69).
Proof.
  intros Hn. destruct (Z.lt_ge_cases n 10) as [Hs|Hl].
  - rewrite endswith_short.
    + symmetry. apply Z.eqb_neq. rewrite Z.mod_small by lia. lia.
    + rewrite length_str_digit by lia. cbn. lia.
  - rewrite (str_two n Hl).
    rewrite endswith_app by reflexivity.
    assert (Hb : 0 <= (n / 10) mod 10 < 10) by (apply Z.mod_pos_bound; lia).
    assert (Hc : 0 <= n mod 10 < 10) by (apply Z.mod_pos_bound; lia).
    cbn [String.eqb].
    change "6"%char with (digit 6). change "9"%char with (digit 9).
    rewrite !digit_eqb by lia.
    destruct ((n / 10) mod 10 =? 6) eqn:E6;
      destruct (n mod 10 =? 9) eqn:E9;
      rewrite ?Z.eqb_eq, ?Z.eqb_neq in *;
      symmetry; rewrite ?Z.eqb_eq, ?Z.eqb_neq;
      clear - E6 E9 Hl; Z.div_mod_to_equations; lia.
Qed.

(** X25: on a time stamp of three digits or more, "lock in the funny
    numbers" is arithmetic: when the hundreds digit is 4 the last two digits
    become 20; otherwise, when the tens digit is 6, the last digit becomes 9;
    otherwise the stamp is kept. A stamp below 100 has no third character
    from the end, and the indexing raises [IndexError]. *)
Theorem lock_in_arithmetic (ts : Z) :
  0 <= ts ->
  lock_in ts =
  if ts <? 100 then Raise IndexError
  else Ok (if (ts / 100) mod 10 =? 4 then ts / 100 * 100 + 20
           else if (ts / 10) mod 10 =? 6 then ts / 10 * 10 + 9
           else ts).
Proof.
  intros H. destruct (ts <? 100) eqn:E.
  - apply Z.ltb_lt in E. apply lock_in_short. lia.
  - apply Z.ltb_ge in E. now apply lock_in_long.
Qed.

Lemma lock_in_arithmetic_witness :
  lock_in 1700000460 = Ok 1700000420 /\ lock_in 1700000161 = Ok 1700000169 /\
  lock_in 99 = Raise IndexError.
Proof.
  split; [|split].
  - exact (lock_in_arithmetic 1700000460 ltac:(lia)).
  - exact (lock_in_arithmetic 1700000161 ltac:(lia)).
  - exact (lock_in_arithmetic 99 ltac:(lia)).
Defined.

(** X26: "lock in" settles at once and stays in the same hundred seconds:
    applied to its own result it changes nothing more, and the result has
    the digits of the stamp from the hundreds up. *)
Theorem lock_in_settles (ts : Z) :
  100 <= ts ->
  exists t,
    lock_in ts = Ok t /\ lock_in t = Ok t /\ t / 100 = ts / 100.
Proof.
  intros Hts. rewrite (lock_in_long ts Hts).
  destruct ((ts / 100) mod 10 =? 4) eqn:E4.
  - apply Z.eqb_eq in E4.
    exists (ts / 100 * 100 + 20).
    assert (Hd : (ts / 100 * 100 + 20) / 100 = ts / 100)
      by (clear; Z.div_mod_to_equations; lia).
    split; [reflexivity|]. split; [|exact Hd].
    rewrite lock_in_long by (Z.div_mod_to_equations; lia).
    rewrite Hd, E4. reflexivity.
  - destruct ((ts / 10) mod 10 =? 6) eqn:E6.
    + apply Z.eqb_eq in E6.
      exists (ts / 10 * 10 + 9).
      assert (Hd : (ts / 10 * 10 + 9) / 100 = ts / 100)
        by (clear; Z.div_mod_to_equations; lia).
      assert (Hd1 : (ts / 10 * 10 + 9) / 10 = ts / 10)
        by (clear; Z.div_mod_to_equations; lia).
      split; [reflexivity|]. split; [|exact Hd].
      rewrite lock_in_long by (Z.div_mod_to_equations; lia).
      rewrite Hd, E4, Hd1, E6. reflexivity.
    + exists ts. split; [reflexivity|]. split; [|reflexivity].
      rewrite lock_in_long by assumption. now rewrite E4, E6.
Qed.

Lemma lock_in_settles_witness :
  exists t,
    lock_in 1700000460 = Ok t /\ lock_in t = Ok t /\
    t / 100 = 1700000460 / 100.
Proof. apply (lock_in_settles 1700000460). lia. Defined.

(** X27: "hold on to the funny numbers" is arithmetic too: a stored stamp
    whose decimal form ends in 420 or in 69, that is, which is 420 modulo
    1000 or 69 modulo 100, is kept unless the new stamp is more than 300
    seconds later; any other stored stamp, and none, is replaced by the new
    one. Nothing else is assigned and nothing is raised. *)
Theorem hold_on_arithmetic (ts : Z) (st : TransactionState) :
  (last_ts st = None -> hold_on ts st = (Ok tt, set_last_ts (Some ts) st)) /\
  (forall held,
     last_ts st = Some held -> 0 <= held ->
     hold_on ts st =
     (Ok tt,
      if ((held mod 1000 =? 420) || (held mod 100 =? 69))
         && (ts <=? held + 300)
      then st else set_last_ts (Some ts) st)).
Proof.
  unfold hold_on, bind, read, need, write, ret. split.
  - intros ->. reflexivity.
  - intros held -> Hh. cbn [Py.str_opt].
    rewrite endswith_420, endswith_69 by assumption.
    destruct ((held mod 1000 =? 420) || (held mod 100 =? 69));
      [|reflexivity].
    cbn [andb]. change (60 * 5) with 300.
    destruct (held + 300 <? ts) eqn:E.
    + apply Z.ltb_lt in E.
      destruct (ts <=? held + 300) eqn:E'; [apply Z.leb_le in E'; lia|].
      reflexivity.
    + apply Z.ltb_ge in E.
      destruct (ts <=? held + 300) eqn:E'; [reflexivity|].
      apply Z.leb_gt in E'. lia.
Qed.

(** X28: the stamps "lock in" produces are the ones "hold on" holds:
    whenever [lock_in] changes a stamp, the result ends in 420 or in 69. *)
Theorem locked_in_stamp_is_held (ts t : Z) :
  100 <= ts ->
  lock_in ts = Ok t ->
  t <> ts ->
  (t mod 1000 = 420 \/ t mod 100 = 69) /\
  Py.endswith (Py.str t) "420" || Py.endswith (Py.str t) "69" = true.
Proof.
  intros Hts Hl Hne. rewrite (lock_in_long ts Hts) in Hl.
  assert (H : t mod 1000 = 420 \/ t mod 100 = 69).
  { destruct ((ts / 100) mod 10 =? 4) eqn:E4.
    - apply Z.eqb_eq in E4. inversion Hl; subst t. left.
      clear - E4 Hts. Z.div_mod_to_equations. lia.
    - destruct ((ts / 10) mod 10 =? 6) eqn:E6.
      + apply Z.eqb_eq in E6. inversion Hl; subst t. right.
        clear - E6 Hts. Z.div_mod_to_equations. lia.
      + inversion Hl. congruence. }
  split; [exact H|].
  assert (H0 : 0 <= t).
  { destruct ((ts / 100) mod 10 =? 4);
      [|destruct ((ts / 10) mod 10 =? 6)]; inversion Hl; subst;
      clear - Hts; Z.div_mod_to_equations; lia. }
  rewrite endswith_420, endswith_69 by assumption.
  destruct H as [-> | ->]; [reflexivity|].
  apply orb_true_r.
Qed.

Lemma locked_in_stamp_is_held_witness :
  (1700000420 mod 1000 = 420 \/ 1700000420 mod 100 = 69) /\
  Py.endswith (Py.str 1700000420) "420"
  || Py.endswith (Py.str 1700000420) "69" = true.
Proof.
  apply (locked_in_stamp_is_held 1700000460 1700000420).
  - lia.
  - vm_compute. reflexivity.
  - lia.
Defined.
